(** * REST-GraphQL-AI: a shallow embedding of [main.py]

    The service is one Python module: password hashing (bcrypt), bearer
    tokens (PyJWT), three SQLAlchemy tables, GraphQL resolvers, and three
    plain FastAPI routes.  Each [async def] of the module becomes a
    computation in a state-and-exception monad over a [World] holding the
    relational store, the request's ORM session, the operating system's
    entropy and the clock.

    What the module imports is modelled as follows.
    - Python [str] / [bytes], [str.encode], [bytes.decode]: concretely
      ([Module Py]).
    - [bcrypt] (the 4.x releases): the package's salt parsing, truncation
      and formatting concretely ([Module bcrypt]); the Blowfish key
      derivation underneath is a section variable about which nothing is
      assumed.
    - [jwt] (PyJWT 2.10): the package's token format, signature check
      and claims validation concretely ([Module PyJWT]); Python's [json]
      and [hmac] underneath are fields of a record about which nothing is
      assumed but what a statement says.  The module's own functions take
      [jwt.encode] and [jwt.decode] as section variables, so that the
      statements about the routes hold of every token library; the one
      behaviour they rely on is the law [jwt_roundtrip_sub], which
      PyJWT satisfies ([pyjwt_roundtrip_sub]).
    - [sentence_transformers]: a section variable (an opaque function from
      text to a vector of floats of the model's dimension).
    - SQLAlchemy over PostgreSQL through asyncpg: tables as lists of rows,
      serial sequences, column types (4-byte integers; text that is
      valid UTF-8 without the character U+0000), primary-key, unique and
      foreign-key constraints, and a session with pending objects
      ([Module Db]).  A query argument or column value that is not of its
      type is refused before anything is read or written.  A [SELECT]
      without [ORDER BY] promises no order: the model returns the rows in
      the order the table keeps them, and where a newly stored row stands
      in the answer to a query is stated up to that order.
    - FastAPI: [OAuth2PasswordBearer], [HTTPException] and the mapping of a
      handler's outcome to a status code. *)

From Stdlib Require Import List Strings.String Strings.Ascii Strings.Byte.
From Stdlib Require Import NArith ZArith Bool Lia Permutation.
Import ListNotations.

Set Implicit Arguments.

(* ================================================================== *)
(** * Part I: definitions *)
(* ================================================================== *)

(** ** Python values, exceptions, text encoding *)

Module Py.

(** A Python [str] is a sequence of Unicode code points (lone surrogates
    included); [bytes] is a sequence of octets. *)
Definition str := list N.
Definition bytes := list byte.

(** String and bytes literals of the source (all of them ASCII). *)
Definition blit (s : string) : bytes := list_byte_of_string s.
Definition lit (s : string) : str := map Byte.to_N (blit s).

Definition byte_of_N (n : N) : byte :=
  match Byte.of_N n with Some b => b | None => x00 end.

Fixpoint str_eqb (a b : str) : bool :=
  match a, b with
  | [], [] => true
  | x :: a', y :: b' => N.eqb x y && str_eqb a' b'
  | _, _ => false
  end.

Fixpoint bytes_eqb (a b : bytes) : bool :=
  match a, b with
  | [], [] => true
  | x :: a', y :: b' => Byte.eqb x y && bytes_eqb a' b'
  | _, _ => false
  end.

(** The subclasses of [jwt.PyJWTError] that [jwt.encode] and [jwt.decode]
    raise. *)
Inductive jwt_error :=
| DecodeError
| InvalidSignatureError
| InvalidAlgorithmError
| InvalidKeyError
| ExpiredSignatureError
| ImmatureSignatureError
| InvalidIssuedAtError
| InvalidAudienceError
| InvalidSubjectError
| InvalidJTIError
| InvalidTokenError.

(** The exceptions that occur in the module and in what it calls.  The
    last five come out of the database layer: SQLAlchemy's
    [IntegrityError] (a violated constraint), [MultipleResultsFound] and
    [InvalidRequestError]; SQLAlchemy's [DBAPIError], as which every other
    error of the driver or the server reaches the caller (here: a query
    argument asyncpg cannot send, a value PostgreSQL refuses as data);
    and [ConnectionRefusedError], the operating system's error when
    nothing listens at the database address, which SQLAlchemy passes on
    as it is. *)
Inductive exn :=
| UnicodeEncodeError
| UnicodeDecodeError
| ValueError (msg : string)
| TypeError (msg : string)
| AttributeError (msg : string)
| NotImplementedError (msg : string)
| KeyError (key : str)
| PyJWTError (cls : jwt_error)
| HTTPException (status_code : Z) (detail : string)
| IntegrityError
| MultipleResultsFound
| InvalidRequestError
| DBAPIError
| ConnectionRefusedError.

(** The outcome of evaluating an expression: a value or a raised
    exception. *)
Inductive result (A : Type) :=
| Return (a : A)
| Raise (e : exn).
Arguments Return {A} a.
Arguments Raise {A} e.

Definition result_map (A B : Type) (f : A -> B) (r : result A) : result B :=
  match r with
  | Return a => Return (f a)
  | Raise e => Raise e
  end.

(** [str.encode()]: UTF-8, error handler [strict].  Surrogate code points
    (U+D800..U+DFFF) cannot be encoded. *)
Definition utf8_encode_char (c : N) : option bytes :=
  (if c <? 0x80 then Some [byte_of_N c]
   else if c <? 0x800 then
     Some [byte_of_N (0xC0 + c / 0x40); byte_of_N (0x80 + c mod 0x40)]
   else if c <? 0x10000 then
     if (0xD800 <=? c) && (c <=? 0xDFFF) then None
     else Some [byte_of_N (0xE0 + c / 0x1000);
                byte_of_N (0x80 + (c / 0x40) mod 0x40);
                byte_of_N (0x80 + c mod 0x40)]
   else if c <? 0x110000 then
     Some [byte_of_N (0xF0 + c / 0x40000);
           byte_of_N (0x80 + (c / 0x1000) mod 0x40);
           byte_of_N (0x80 + (c / 0x40) mod 0x40);
           byte_of_N (0x80 + c mod 0x40)]
   else None)%N.

Fixpoint utf8_encode (s : str) : option bytes :=
  match s with
  | [] => Some []
  | c :: s' =>
      match utf8_encode_char c, utf8_encode s' with
      | Some bs, Some rest => Some (bs ++ rest)
      | _, _ => None
      end
  end.

Definition str_encode (s : str) : result bytes :=
  match utf8_encode s with
  | Some bs => Return bs
  | None => Raise UnicodeEncodeError
  end.

(** [bytes.decode()]: UTF-8, strict: shortest forms only, no surrogates,
    nothing above U+10FFFF. *)
Definition continuation (b : byte) : option N :=
  (let n := Byte.to_N b in
   if (0x80 <=? n) && (n <? 0xC0) then Some (n - 0x80) else None)%N.

Fixpoint utf8_decode (bs : bytes) : option str :=
  match bs with
  | [] => Some []
  | b0 :: r0 =>
      let n0 := Byte.to_N b0 in
      if (n0 <? 0x80)%N then option_map (cons n0) (utf8_decode r0)
      else if ((0xC2 <=? n0) && (n0 <? 0xE0))%N then
        match r0 with
        | b1 :: r1 =>
            match continuation b1 with
            | Some c1 =>
                option_map (cons ((n0 - 0xC0) * 0x40 + c1)%N) (utf8_decode r1)
            | None => None
            end
        | _ => None
        end
      else if ((0xE0 <=? n0) && (n0 <? 0xF0))%N then
        match r0 with
        | b1 :: b2 :: r2 =>
            match continuation b1, continuation b2 with
            | Some c1, Some c2 =>
                let c := ((n0 - 0xE0) * 0x1000 + c1 * 0x40 + c2)%N in
                if ((c <? 0x800) || ((0xD800 <=? c) && (c <=? 0xDFFF)))%N
                then None
                else option_map (cons c) (utf8_decode r2)
            | _, _ => None
            end
        | _ => None
        end
      else if ((0xF0 <=? n0) && (n0 <? 0xF5))%N then
        match r0 with
        | b1 :: b2 :: b3 :: r3 =>
            match continuation b1, continuation b2, continuation b3 with
            | Some c1, Some c2, Some c3 =>
                let c := ((n0 - 0xF0) * 0x40000 + c1 * 0x1000
                          + c2 * 0x40 + c3)%N in
                if ((c <? 0x10000) || (0x110000 <=? c))%N then None
                else option_map (cons c) (utf8_decode r3)
            | _, _, _ => None
            end
        | _ => None
        end
      else None
  end.

Definition bytes_decode (bs : bytes) : result str :=
  match utf8_decode bs with
  | Some s => Return s
  | None => Raise UnicodeDecodeError
  end.

(** Octets below 128 are ASCII characters, one octet each in UTF-8. *)
Definition ascii_octet (b : byte) : bool := (Byte.to_N b <? 128)%N.

(** [str.lower()] on the ASCII letters.  The only comparison the module's
    dependencies make after lowering is with ["bearer"], and no non-ASCII
    character of a header value (Latin-1) lowers to an ASCII letter. *)
Definition lower_char (c : N) : N :=
  (if (0x41 <=? c) && (c <=? 0x5A) then c + 0x20 else c)%N.
Definition lower (s : str) : str := map lower_char s.

(** [str.partition(" ")]: the text before the first separator and the text
    after it (both empty parts when there is no separator). *)
Fixpoint partition (sep : N) (s : str) : str * str :=
  match s with
  | [] => ([], [])
  | c :: s' =>
      if N.eqb c sep then ([], s')
      else let (a, b) := partition sep s' in (c :: a, b)
  end.

End Py.
Export Py.

(** ** The [bcrypt] package (releases 4.x)

    [hashpw], [checkpw] and [gensalt] as the package implements them around
    its key-derivation primitive: the password is cut to 72 bytes, the salt
    argument is split at ['$'] into version, cost and a 22-character
    encoded salt, and the result is formatted as
    [$version$cost$salt22digest31]. *)

Module bcrypt.

(** The alphabet of bcrypt's base 64 encoding. *)
Definition alphabet : bytes :=
  blit "./ABCDEFGHIJKLMNOPQRSTUVWXYZabcdefghijklmnopqrstuvwxyz0123456789".

Definition enc6 (n : N) : byte := nth (N.to_nat n) alphabet x00.

Fixpoint index_of (c : byte) (l : bytes) (i : N) : option N :=
  match l with
  | [] => None
  | x :: l' => if Byte.eqb c x then Some i else index_of c l' (N.succ i)
  end.

Definition dec6 (c : byte) : option N := index_of c alphabet 0%N.

(** An ASCII character other than the field separator ['$']; every
    character of the alphabet is one. *)
Definition plain (c : byte) : bool :=
  ascii_octet c && negb (Byte.eqb c "$"%byte).

(** Encoding without padding: three octets become four characters. *)
Fixpoint b64_encode (l : bytes) : bytes :=
  match l with
  | [] => []
  | [a] =>
      let a := Byte.to_N a in
      [enc6 (a / 4); enc6 ((a mod 4) * 16)]%N
  | [a; b] =>
      let a := Byte.to_N a in
      let b := Byte.to_N b in
      [enc6 (a / 4); enc6 ((a mod 4) * 16 + b / 16); enc6 ((b mod 16) * 4)]%N
  | a :: b :: c :: rest =>
      let a := Byte.to_N a in
      let b := Byte.to_N b in
      let c := Byte.to_N c in
      [enc6 (a / 4); enc6 ((a mod 4) * 16 + b / 16);
       enc6 ((b mod 16) * 4 + c / 64); enc6 (c mod 64)]%N
      ++ b64_encode rest
  end.

(** Decoding without padding; characters outside the alphabet, a dangling
    single character and non-zero trailing bits are rejected. *)
Fixpoint b64_decode (l : bytes) : option bytes :=
  match l with
  | [] => Some []
  | [_] => None
  | [c1; c2] =>
      match dec6 c1, dec6 c2 with
      | Some s1, Some s2 =>
          if (s2 mod 16 =? 0)%N
          then Some [byte_of_N (s1 * 4 + s2 / 16)]
          else None
      | _, _ => None
      end
  | [c1; c2; c3] =>
      match dec6 c1, dec6 c2, dec6 c3 with
      | Some s1, Some s2, Some s3 =>
          if (s3 mod 4 =? 0)%N
          then Some [byte_of_N (s1 * 4 + s2 / 16);
                     byte_of_N ((s2 mod 16) * 16 + s3 / 4)]
          else None
      | _, _, _ => None
      end
  | c1 :: c2 :: c3 :: c4 :: rest =>
      match dec6 c1, dec6 c2, dec6 c3, dec6 c4, b64_decode rest with
      | Some s1, Some s2, Some s3, Some s4, Some tl =>
          Some (byte_of_N (s1 * 4 + s2 / 16)
                :: byte_of_N ((s2 mod 16) * 16 + s3 / 4)
                :: byte_of_N ((s3 mod 4) * 64 + s4) :: tl)
      | _, _, _, _, _ => None
      end
  end.

(** The four version prefixes the package accepts. *)
Inductive Version := TwoA | TwoX | TwoY | TwoB.

Definition version_bytes (v : Version) : bytes :=
  match v with
  | TwoA => blit "2a" | TwoX => blit "2x"
  | TwoY => blit "2y" | TwoB => blit "2b"
  end.

Definition parse_version (p : bytes) : option Version :=
  if bytes_eqb p (blit "2y") then Some TwoY
  else if bytes_eqb p (blit "2b") then Some TwoB
  else if bytes_eqb p (blit "2a") then Some TwoA
  else if bytes_eqb p (blit "2x") then Some TwoX
  else None.

(** Splitting a byte string at every separator (an empty input gives one
    empty part). *)
Fixpoint split_on (sep : byte) (l : bytes) : list bytes :=
  match l with
  | [] => [[]]
  | c :: l' =>
      if Byte.eqb c sep then [] :: split_on sep l'
      else match split_on sep l' with
           | p :: ps => (c :: p) :: ps
           | [] => [[c]]
           end
  end.

Definition nonempty (p : bytes) : bool :=
  match p with [] => false | _ => true end.

(** The cost field is read as an unsigned 16-bit decimal number (an
    optional leading ['+'], then digits). *)
Definition digit (c : byte) : option N :=
  (let n := Byte.to_N c in
   if (48 <=? n) && (n <=? 57) then Some (n - 48) else None)%N.

Fixpoint parse_digits (acc : N) (l : bytes) : option N :=
  match l with
  | [] => Some acc
  | c :: l' =>
      match digit c with
      | Some d =>
          let acc' := (acc * 10 + d)%N in
          if (acc' <=? 65535)%N then parse_digits acc' l' else None
      | None => None
      end
  end.

Definition parse_u16 (l : bytes) : option N :=
  match l with
  | [] => None
  | c :: l' =>
      if Byte.eqb c "+"%byte
      then match l' with [] => None | _ => parse_digits 0 l' end
      else parse_digits 0 l
  end.

(** The cost is written with two digits; it is between 4 and 31 whenever a
    hash is formatted. *)
Definition format_cost (c : N) : bytes :=
  [byte_of_N (48 + c / 10); byte_of_N (48 + c mod 10)]%N.

Definition invalid_salt {A : Type} : result A :=
  Raise (ValueError "Invalid salt").

(** The text before the digest in a formatted hash: version, cost and
    encoded salt. *)
Definition preamble (v : Version) (cost : N) (raw_salt : bytes) : bytes :=
  blit "$" ++ version_bytes v ++ blit "$" ++ format_cost cost ++ blit "$"
  ++ b64_encode raw_salt.

Definition format_hash (v : Version) (cost : N) (raw_salt dg : bytes)
  : bytes :=
  preamble v cost raw_salt ++ b64_encode dg.

Section Primitive.

(** The key derivation (expensive Blowfish key setup, then the encryption
    of a fixed text): cost, 16-octet salt and key to 24 octets, of which
    the first 23 are kept. *)
Variable bcrypt_raw : N -> bytes -> bytes -> bytes.

(** The key handed to the primitive is the password with a terminating
    zero octet, cut to 72 octets. *)
Definition key_of (password : bytes) : bytes :=
  firstn 72 (password ++ [x00]).

Definition digest (cost : N) (raw_salt password : bytes) : bytes :=
  firstn 23 (bcrypt_raw cost raw_salt (key_of password)).

Definition hashpw (password salt : bytes) : result bytes :=
  let password := firstn 72 password in
  match filter nonempty (split_on "$"%byte salt) with
  | [p0; p1; remaining] =>
      match parse_version p0, parse_u16 p1 with
      | Some version, Some cost =>
          if (List.length remaining <? 22)%nat then invalid_salt
          else
            match b64_decode (firstn 22 remaining) with
            | Some raw_salt =>
                if ((4 <=? cost) && (cost <=? 31))%N
                then Return (format_hash version cost raw_salt
                               (digest cost raw_salt password))
                else invalid_salt
            | None => invalid_salt
            end
      | _, _ => invalid_salt
      end
  | _ => invalid_salt
  end.

(** [checkpw] recomputes the hash with the stored hash as salt argument and
    compares the two byte strings. *)
Definition checkpw (password hashed_password : bytes) : result bool :=
  match hashpw password hashed_password with
  | Return h => Return (bytes_eqb h hashed_password)
  | Raise e => Raise e
  end.

End Primitive.

(** [gensalt()] with its defaults (12 rounds, prefix [2b]), from 16 octets
    of operating-system entropy. *)
Definition gensalt (entropy : bytes) : bytes :=
  blit "$2b$12$" ++ b64_encode entropy.

End bcrypt.

(** ** JSON values and token payloads (the [dict] handed to [jwt.encode]
    and returned by [jwt.decode]) *)

Module jwt.

#[warnings="-register-all"]
Inductive json :=
| JNull
| JBool (b : bool)
| JInt (z : Z)
| JStr (s : str)
| JList (l : list json)
| JDict (d : list (str * json)).

(** A payload is a [dict] with string keys, in insertion order. *)
Definition payload := list (str * json).

(** [payload.get(key)]. *)
Fixpoint get (key : str) (d : payload) : option json :=
  match d with
  | [] => None
  | (k, v) :: d' => if str_eqb k key then Some v else get key d'
  end.

End jwt.

(** ** The [jwt] package (PyJWT 2.10): [encode] and [decode]

    A token is three base64url segments joined by dots: the JSON header
    [{"alg": ..., "typ": "JWT"}], the JSON payload, and the signature of
    the first two.  [decode] splits the token, decodes the segments,
    checks the algorithm and the signature, reads the payload and
    validates its registered claims; the module gives it no audience, no
    issuer, no subject and no leeway.

    What PyJWT itself imports is a parameter ([Deps]): Python's [json],
    [int] and [hmac], the package's test for keys that look like PEM or
    SSH keys, and the algorithms it registers besides the HMAC family. *)

Module PyJWT.

Import jwt.

(** *** [jwt.utils]: base64url without padding *)

Definition alphabet : bytes :=
  blit "ABCDEFGHIJKLMNOPQRSTUVWXYZabcdefghijklmnopqrstuvwxyz0123456789-_".

Definition enc6 (n : N) : byte := nth (N.to_nat n) alphabet x00.

(** [base64.urlsafe_b64encode(input).replace(b"=", b"")]. *)
Fixpoint base64url_encode (l : bytes) : bytes :=
  match l with
  | [] => []
  | [a] =>
      let a := Byte.to_N a in
      [enc6 (a / 4); enc6 ((a mod 4) * 16)]%N
  | [a; b] =>
      let a := Byte.to_N a in
      let b := Byte.to_N b in
      [enc6 (a / 4); enc6 ((a mod 4) * 16 + b / 16); enc6 ((b mod 16) * 4)]%N
  | a :: b :: c :: rest =>
      let a := Byte.to_N a in
      let b := Byte.to_N b in
      let c := Byte.to_N c in
      [enc6 (a / 4); enc6 ((a mod 4) * 16 + b / 16);
       enc6 ((b mod 16) * 4 + c / 64); enc6 (c mod 64)]%N
      ++ base64url_encode rest
  end.

(** [base64.urlsafe_b64decode]: ['-'] and ['_'] are read as ['+'] and
    ['/'], then [binascii.a2b_base64] runs, not in strict mode.  It skips
    every character outside the alphabet, stops at the padding that
    completes a group of four, and fails when the characters read do not
    end on a group boundary. *)
Definition standard : bytes :=
  blit "ABCDEFGHIJKLMNOPQRSTUVWXYZabcdefghijklmnopqrstuvwxyz0123456789+/".

Definition translate (c : byte) : byte :=
  if Byte.eqb c "-"%byte then "+"%byte
  else if Byte.eqb c "_"%byte then "/"%byte
  else c.

Definition sextet (c : byte) : option N := bcrypt.index_of c standard 0%N.

Fixpoint a2b_base64 (l : bytes) (quad_pos : nat) (leftchar : N) (pads : nat)
  : option bytes :=
  match l with
  | [] => if (quad_pos =? 0)%nat then Some [] else None
  | ch :: l' =>
      if Byte.eqb ch "="%byte then
        if (2 <=? quad_pos)%nat then
          if (4 <=? quad_pos + S pads)%nat then Some []
          else a2b_base64 l' quad_pos leftchar (S pads)
        else a2b_base64 l' quad_pos leftchar pads
      else
        match sextet ch with
        | None => a2b_base64 l' quad_pos leftchar pads
        | Some v =>
            match quad_pos with
            | 0%nat => a2b_base64 l' 1 v 0
            | 1%nat =>
                option_map (cons (byte_of_N (leftchar * 4 + v / 16)))
                  (a2b_base64 l' 2 (v mod 16)%N 0)
            | 2%nat =>
                option_map (cons (byte_of_N (leftchar * 16 + v / 4)))
                  (a2b_base64 l' 3 (v mod 4)%N 0)
            | _ =>
                option_map (cons (byte_of_N (leftchar * 64 + v)))
                  (a2b_base64 l' 0 0%N 0)
            end
        end
  end.

(** [jwt.utils.base64url_decode]: the input is padded with ['='] to a
    multiple of four characters first. *)
Definition base64url_decode (input : bytes) : option bytes :=
  let rem := (List.length input mod 4)%nat in
  let padded :=
    if (rem =? 0)%nat then input else input ++ repeat "="%byte (4 - rem) in
  a2b_base64 (map translate padded) 0 0%N 0.

(** [b.split(sep, 1)] and [b.rsplit(sep, 1)], unpacked into two names:
    [None] where the unpacking raises, there being no separator. *)
Fixpoint split1 (sep : byte) (l : bytes) : option (bytes * bytes) :=
  match l with
  | [] => None
  | c :: l' =>
      if Byte.eqb c sep then Some ([], l')
      else match split1 sep l' with
           | Some (a, b) => Some (c :: a, b)
           | None => None
           end
  end.

Definition rsplit1 (sep : byte) (l : bytes) : option (bytes * bytes) :=
  match split1 sep (rev l) with
  | Some (b, a) => Some (rev a, rev b)
  | None => None
  end.

(** *** Signing algorithms *)

(** An entry of the registry: [prepare_key], [sign(msg, key)] and
    [verify(msg, key, sig)]. *)
Record Algorithm := mkAlgorithm {
  prepare_key : str -> result bytes;
  sign : bytes -> bytes -> bytes;
  verify : bytes -> bytes -> bytes -> bool
}.

(** What PyJWT imports. *)
Record Deps := mkDeps {
  (* json.dumps(obj, separators=(",", ":")).encode("utf-8") *)
  json_dumps : json -> bytes;
  (* json.loads(data) *)
  json_loads : bytes -> result json;
  (* int(text) *)
  int_of_str : str -> result Z;
  (* hmac.new(key, msg, hash).digest(), by the name of the hash *)
  hmac_digest : string -> bytes -> bytes -> bytes;
  (* is_pem_format(key) or is_ssh_key(key) *)
  asymmetric : bytes -> bool;
  (* the registry besides HS256, HS384 and HS512: "none", and the
     public-key algorithms where the cryptography package is installed *)
  other_algorithm : str -> option Algorithm
}.

Section Package.

Variable deps : Deps.

(** [HMACAlgorithm]: the key is the secret's UTF-8 encoding, refused when
    it looks like an asymmetric key; [verify] recomputes the signature and
    compares. *)
Definition HMACAlgorithm (hash : string) : Algorithm :=
  mkAlgorithm
    (fun key =>
       match str_encode key with
       | Return key_bytes =>
           if asymmetric deps key_bytes
           then Raise (PyJWTError InvalidKeyError)
           else Return key_bytes
       | Raise e => Raise e
       end)
    (fun msg key => hmac_digest deps hash key msg)
    (fun msg key sig => bytes_eqb sig (hmac_digest deps hash key msg)).

(** [get_algorithm_by_name]: [None] where it raises
    [NotImplementedError]. *)
Definition get_algorithm_by_name (alg : str) : option Algorithm :=
  if str_eqb alg (lit "HS256") then Some (HMACAlgorithm "sha256")
  else if str_eqb alg (lit "HS384") then Some (HMACAlgorithm "sha384")
  else if str_eqb alg (lit "HS512") then Some (HMACAlgorithm "sha512")
  else other_algorithm deps alg.

(** *** [jwt.encode] *)

(** The header [{"typ": "JWT", "alg": algorithm}], serialised with its
    keys sorted. *)
Definition header_of (algorithm : str) : payload :=
  [(lit "alg", JStr algorithm); (lit "typ", JStr (lit "JWT"))].

(** [api_jwt.encode] (the issuer, if given, must be a string) and then
    [api_jws.encode]: the two encoded segments are signed, and the
    encoded signature is the third. *)
Definition signing_input_of (claims : payload) (algorithm : str) : bytes :=
  let json_payload := json_dumps deps (JDict claims) in
  let json_header := json_dumps deps (JDict (header_of algorithm)) in
  base64url_encode json_header ++ blit "." ++ base64url_encode json_payload.

Definition encode (claims : payload) (key algorithm : str) : result str :=
  match get (lit "iss") claims with
  | Some (JStr _) | None =>
      let signing_input := signing_input_of claims algorithm in
      match get_algorithm_by_name algorithm with
      | None => Raise (NotImplementedError "Algorithm not supported")
      | Some alg_obj =>
          match prepare_key alg_obj key with
          | Return prepared =>
              bytes_decode
                (signing_input ++ blit "."
                 ++ base64url_encode (sign alg_obj signing_input prepared))
          | Raise e => Raise e
          end
      end
  | Some _ => Raise (TypeError "Issuer (iss) must be a string.")
  end.

(** *** [jwt.decode] *)

(** [except ValueError]: what the handler catches ([UnicodeError] is a
    [ValueError]) is raised again as [jwt.DecodeError]. *)
Definition as_decode_error (A : Type) (r : result A) : result A :=
  match r with
  | Raise (ValueError _) | Raise UnicodeDecodeError
  | Raise UnicodeEncodeError => Raise (PyJWTError DecodeError)
  | other => other
  end.

(** [api_jws._load]: the payload bytes, the signing input, the header and
    the signature of a token. *)
Definition load (token : str) : result (bytes * bytes * payload * bytes) :=
  match str_encode token with
  | Raise e => Raise e
  | Return jwt_bytes =>
      match rsplit1 "."%byte jwt_bytes with
      | None => Raise (PyJWTError DecodeError)
      | Some (signing_input, crypto_segment) =>
          match split1 "."%byte signing_input with
          | None => Raise (PyJWTError DecodeError)
          | Some (header_segment, payload_segment) =>
              match base64url_decode header_segment with
              | None => Raise (PyJWTError DecodeError)
              | Some header_data =>
                  match as_decode_error (json_loads deps header_data) with
                  | Raise e => Raise e
                  | Return (JDict header) =>
                      match base64url_decode payload_segment with
                      | None => Raise (PyJWTError DecodeError)
                      | Some payload_bytes =>
                          match base64url_decode crypto_segment with
                          | None => Raise (PyJWTError DecodeError)
                          | Some signature =>
                              Return (payload_bytes, signing_input, header,
                                      signature)
                          end
                      end
                  | Return _ => Raise (PyJWTError DecodeError)
                  end
              end
          end
      end
  end.

(** [api_jws._verify_signature]. *)
Definition verify_signature (signing_input : bytes) (header : payload)
  (signature : bytes) (key : str) (algorithms : list str) : result unit :=
  match get (lit "alg") header with
  | Some (JStr alg) =>
      if str_eqb alg [] || negb (existsb (str_eqb alg) algorithms)
      then Raise (PyJWTError InvalidAlgorithmError)
      else
        match get_algorithm_by_name alg with
        | None => Raise (PyJWTError InvalidAlgorithmError)
        | Some alg_obj =>
            match prepare_key alg_obj key with
            | Return prepared =>
                if verify alg_obj signing_input prepared signature
                then Return tt
                else Raise (PyJWTError InvalidSignatureError)
            | Raise e => Raise e
            end
        end
  | _ => Raise (PyJWTError InvalidAlgorithmError)
  end.

(** Python's truth value of a JSON value, and [int(value)]. *)
Definition truthy (v : json) : bool :=
  match v with
  | JNull => false
  | JBool b => b
  | JInt z => negb (z =? 0)%Z
  | JStr s => match s with [] => false | _ => true end
  | JList l => match l with [] => false | _ => true end
  | JDict d => match d with [] => false | _ => true end
  end.

Definition to_int (v : json) : result Z :=
  match v with
  | JInt z => Return z
  | JBool b => Return (if b then 1 else 0)%Z
  | JStr s => int_of_str deps s
  | JNull | JList _ | JDict _ => Raise (TypeError "int() argument")
  end.

(** One of the three time claims: absent, or an integer that [bad] does
    not reject; [int()]'s [ValueError] becomes [not_int]. *)
Definition time_claim (name : string) (not_int rejected : jwt_error)
  (bad : Z -> bool) (claims : payload) : result unit :=
  match get (lit name) claims with
  | None => Return tt
  | Some v =>
      match to_int v with
      | Return t =>
          if bad t then Raise (PyJWTError rejected) else Return tt
      | Raise (ValueError _) => Raise (PyJWTError not_int)
      | Raise e => Raise e
      end
  end.

(** A claim that must be a string when present. *)
Definition string_claim (name : string) (rejected : jwt_error)
  (claims : payload) : result unit :=
  match get (lit name) claims with
  | None | Some (JStr _) => Return tt
  | Some _ => Raise (PyJWTError rejected)
  end.

Definition and_then (r : result unit) (k : result unit) : result unit :=
  match r with
  | Return _ => k
  | Raise e => Raise e
  end.

(** [api_jwt._validate_claims] with the default options and neither
    audience, issuer, subject nor leeway: [iat] and [nbf] must not lie in
    the future, [exp] must; a claim [aud] must be empty; [sub] and [jti]
    must be strings. *)
Definition validate_claims (now : Z) (claims : payload) : result unit :=
  and_then
    (time_claim "iat" InvalidIssuedAtError ImmatureSignatureError
       (fun iat => (now <? iat)%Z) claims)
    (and_then
       (time_claim "nbf" DecodeError ImmatureSignatureError
          (fun nbf => (now <? nbf)%Z) claims)
       (and_then
          (time_claim "exp" DecodeError ExpiredSignatureError
             (fun exp => (exp <=? now)%Z) claims)
          (and_then
             (match get (lit "aud") claims with
              | None => Return tt
              | Some aud =>
                  if truthy aud then Raise (PyJWTError InvalidAudienceError)
                  else Return tt
              end)
             (and_then (string_claim "sub" InvalidSubjectError claims)
                (string_claim "jti" InvalidJTIError claims))))).

(** [jwt.decode(token, key, algorithms=algorithms)] at the time [now]. *)
Definition decode (now : Z) (token key : str) (algorithms : list str)
  : result payload :=
  match algorithms with
  | [] => Raise (PyJWTError DecodeError)
  | _ =>
      match load token with
      | Raise e => Raise e
      | Return (payload_bytes, signing_input, header, signature) =>
          match get (lit "b64") header with
          | Some (JBool false) => Raise (PyJWTError DecodeError)
          | _ =>
              match verify_signature signing_input header signature key
                      algorithms with
              | Raise e => Raise e
              | Return _ =>
                  match as_decode_error (json_loads deps payload_bytes) with
                  | Raise e => Raise e
                  | Return (JDict claims) =>
                      match validate_claims now claims with
                      | Return _ => Return claims
                      | Raise e => Raise e
                      end
                  | Return _ => Raise (PyJWTError DecodeError)
                  end
              end
          end
      end
  end.

End Package.

End PyJWT.

(** ** The relational store and the ORM session *)

(** [class User(Base)]: table [users]. *)
Module User.
Record t := mk {
  id : option Z;              (* Column(Integer, primary_key=True) *)
  username : option str;      (* Column(String, unique=True) *)
  password_hash : option str; (* Column(String) *)
  role : option str           (* Column(String, default="user") *)
}.
End User.

(** [class Category(Base)]: table [categories]. *)
Module Category.
Record t := mk {
  id : option Z;              (* Column(Integer, primary_key=True) *)
  name : option str           (* Column(String, unique=True) *)
}.
End Category.

(** [class Article(Base)]: table [articles].  The [relationship]
    attributes are loaded on access and are no columns. *)
Module Article.
Record t := mk {
  id : option Z;              (* Column(Integer, primary_key=True) *)
  title : option str;         (* Column(String) *)
  content : option str;       (* Column(Text) *)
  vector : option str;        (* Column(Text) *)
  search_text : option str;   (* Column(Text) *)
  category_id : option Z      (* Column(Integer, ForeignKey("categories.id")) *)
}.
End Article.

Module Db.

(** The three tables with their serial sequences.  A mapped object whose
    attribute was never set holds [None] there; a stored row always has its
    primary key. *)
Record Store := mkStore {
  users : list User.t;
  categories : list Category.t;
  articles : list Article.t;
  users_id_seq : Z;
  categories_id_seq : Z;
  articles_id_seq : Z
}.

Definition empty : Store := mkStore [] [] [] 1 1 1.

Definition has_id (i : Z) (o : option Z) : bool :=
  match o with Some j => Z.eqb j i | None => false end.

Definition has_text (s : str) (o : option str) : bool :=
  match o with Some t => str_eqb t s | None => false end.

(** A unique column admits any number of NULLs. *)
Definition clashes (v : option str) (o : option str) : bool :=
  match v with Some s => has_text s o | None => false end.

(** What the column types admit.  An [Integer] is PostgreSQL's 4-byte
    integer, and asyncpg refuses to send any other [int].  A [String] or
    [Text] value must consist of characters asyncpg can encode as UTF-8
    (no lone surrogate) and the server can store (not U+0000).  NULL is of
    every type. *)
Definition int32 (i : Z) : bool :=
  ((-2147483648 <=? i) && (i <=? 2147483647))%Z.

Definition char_ok (c : N) : bool :=
  negb (c =? 0)%N
  && match utf8_encode_char c with Some _ => true | None => false end.

Definition text_ok (s : str) : bool := forallb char_ok s.

Definition int_col (o : option Z) : bool :=
  match o with Some i => int32 i | None => true end.

Definition text_col (o : option str) : bool :=
  match o with Some s => text_ok s | None => true end.

Definition user_typed (u : User.t) : bool :=
  int_col (User.id u) && text_col (User.username u)
  && text_col (User.password_hash u) && text_col (User.role u).

Definition category_typed (c : Category.t) : bool :=
  int_col (Category.id c) && text_col (Category.name c).

Definition article_typed (a : Article.t) : bool :=
  int_col (Article.id a) && text_col (Article.title a)
  && text_col (Article.content a) && text_col (Article.vector a)
  && text_col (Article.search_text a) && int_col (Article.category_id a).

(** The arguments bound to a query. *)
Inductive Param :=
| PText (s : str)
| PInt (i : Z).

Definition sendable (p : Param) : bool :=
  match p with
  | PText s => text_ok s
  | PInt i => int32 i
  end.

(** The primary key of a new row: the explicit one, or the next value of
    the table's sequence (which is then used up, whatever becomes of the
    INSERT). *)
Definition next_id (explicit : option Z) (seq : Z) : Z * Z :=
  match explicit with
  | Some i => (i, seq)
  | None => (seq, seq + 1)%Z
  end.

(** An INSERT has three outcomes.  A row that is not of its columns'
    types is refused before anything is written, with a [DBAPIError]: by
    the driver (an integer out of range, text it cannot encode) or by the
    server (U+0000 in text; a serial sequence that has run out and hands
    out nothing).  A row that violates a constraint is refused with an
    [IntegrityError], its sequence value spent.  Any other row is
    stored. *)

(** INSERT INTO users: the column default fills an unset [role]; the
    primary key and [username] must be new. *)
Definition insert_user (u : User.t) (s : Store) : Store * result User.t :=
  let (i, seq) := next_id (User.id u) (users_id_seq s) in
  let row :=
    User.mk (Some i) (User.username u) (User.password_hash u)
      (match User.role u with None => Some (lit "user") | r => r end) in
  if negb (user_typed row) then (s, Raise DBAPIError)
  else if existsb (fun r => has_id i (User.id r)) (users s)
          || existsb (fun r => clashes (User.username u) (User.username r))
               (users s)
  then (mkStore (users s) (categories s) (articles s)
          seq (categories_id_seq s) (articles_id_seq s),
        Raise IntegrityError)
  else (mkStore (users s ++ [row]) (categories s) (articles s)
          seq (categories_id_seq s) (articles_id_seq s), Return row).

(** INSERT INTO categories: the primary key and [name] must be new. *)
Definition insert_category (c : Category.t) (s : Store)
  : Store * result Category.t :=
  let (i, seq) := next_id (Category.id c) (categories_id_seq s) in
  let row := Category.mk (Some i) (Category.name c) in
  if negb (category_typed row) then (s, Raise DBAPIError)
  else if existsb (fun r => has_id i (Category.id r)) (categories s)
          || existsb (fun r => clashes (Category.name c) (Category.name r))
               (categories s)
  then (mkStore (users s) (categories s) (articles s)
          (users_id_seq s) seq (articles_id_seq s),
        Raise IntegrityError)
  else (mkStore (users s) (categories s ++ [row]) (articles s)
          (users_id_seq s) seq (articles_id_seq s), Return row).

(** INSERT INTO articles: the primary key must be new and a non-NULL
    [category_id] must name a stored category. *)
Definition insert_article (a : Article.t) (s : Store)
  : Store * result Article.t :=
  let (i, seq) := next_id (Article.id a) (articles_id_seq s) in
  let row :=
    Article.mk (Some i) (Article.title a) (Article.content a)
      (Article.vector a) (Article.search_text a) (Article.category_id a) in
  if negb (article_typed row) then (s, Raise DBAPIError)
  else if existsb (fun r => has_id i (Article.id r)) (articles s)
          || match Article.category_id a with
             | Some c => negb (existsb (fun r => has_id c (Category.id r))
                                 (categories s))
             | None => false
             end
  then (mkStore (users s) (categories s) (articles s)
          (users_id_seq s) (categories_id_seq s) seq,
        Raise IntegrityError)
  else (mkStore (users s) (categories s) (articles s ++ [row])
          (users_id_seq s) (categories_id_seq s) seq, Return row).

(** The objects a session can hold. *)
Inductive Entity :=
| EUser (u : User.t)
| ECategory (c : Category.t)
| EArticle (a : Article.t).

Definition insert (e : Entity) (s : Store) : Store * result Entity :=
  match e with
  | EUser u => let (s', r) := insert_user u s in (s', result_map EUser r)
  | ECategory c =>
      let (s', r) := insert_category c s in (s', result_map ECategory r)
  | EArticle a =>
      let (s', r) := insert_article a s in (s', result_map EArticle r)
  end.

(** SELECT ... WHERE id = pk, for [refresh]. *)
Definition reload (e : Entity) (s : Store) : option Entity :=
  match e with
  | EUser u =>
      match User.id u with
      | Some i =>
          option_map EUser (find (fun r => has_id i (User.id r)) (users s))
      | None => None
      end
  | ECategory c =>
      match Category.id c with
      | Some i =>
          option_map ECategory
            (find (fun r => has_id i (Category.id r)) (categories s))
      | None => None
      end
  | EArticle a =>
      match Article.id a with
      | Some i =>
          option_map EArticle
            (find (fun r => has_id i (Article.id r)) (articles s))
      | None => None
      end
  end.

(** A session: the objects it knows, by reference (their position), and
    the references added but not yet flushed. *)
Record Session := mkSession {
  objects : list Entity;
  pending : list nat
}.

Definition new_session : Session := mkSession [] [].

Fixpoint set_nth (A : Type) (n : nat) (x : A) (l : list A) : list A :=
  match l, n with
  | [], _ => []
  | _ :: l', O => x :: l'
  | y :: l', S n' => y :: set_nth n' x l'
  end.

(** The flush of a commit: every pending object is inserted in the order
    it was added, and the object takes the values of its new row.  The
    first INSERT that is refused ends the flush with its exception. *)
Fixpoint flush (pend : list nat) (objs : list Entity) (s : Store)
  : Store * result (list Entity) :=
  match pend with
  | [] => (s, Return objs)
  | h :: pend' =>
      match nth_error objs h with
      | None => flush pend' objs s
      | Some e =>
          match insert e s with
          | (s1, Return e') => flush pend' (set_nth h e' objs) s1
          | (s1, Raise err) => (s1, Raise err)
          end
      end
  end.

(** What a rolled-back transaction leaves: the tables as they were, the
    sequences as far as they were advanced. *)
Definition rolled_back (before after : Store) : Store :=
  mkStore (users before) (categories before) (articles before)
    (users_id_seq after) (categories_id_seq after) (articles_id_seq after).

(** The constraints the schema places on the tables: every row has a
    primary key that its sequence has already passed, primary keys are
    unique, the two unique text columns hold no value twice, every value
    is of its column's type, and the category id of an article is NULL or
    the primary key of a stored category
    ([ForeignKey("categories.id")]). *)
Definition keyed_below (A : Type) (id : A -> option Z) (seq : Z)
  (rows : list A) : Prop :=
  forall r, In r rows -> exists i, id r = Some i /\ (i < seq)%Z.

Definition references (cats : list Category.t) (a : Article.t) : bool :=
  match Article.category_id a with
  | Some c => existsb (fun r => has_id c (Category.id r)) cats
  | None => true
  end.

Fixpoint distinct (A : Type) (key : A -> option str) (rows : list A)
  : Prop :=
  match rows with
  | [] => True
  | r :: rows' =>
      (forall r', In r' rows' -> clashes (key r) (key r') = false)
      /\ distinct key rows'
  end.

Record wf (s : Store) : Prop := mk_wf {
  users_keyed : keyed_below User.id (users_id_seq s) (users s);
  categories_keyed :
    keyed_below Category.id (categories_id_seq s) (categories s);
  articles_keyed : keyed_below Article.id (articles_id_seq s) (articles s);
  users_pk : NoDup (map User.id (users s));
  categories_pk : NoDup (map Category.id (categories s));
  articles_pk : NoDup (map Article.id (articles s));
  usernames_distinct : distinct User.username (users s);
  names_distinct : distinct Category.name (categories s);
  users_typed : forall u, In u (users s) -> user_typed u = true;
  categories_typed : forall c, In c (categories s) -> category_typed c = true;
  articles_typed : forall a, In a (articles s) -> article_typed a = true;
  articles_fk :
    forall a, In a (articles s) -> references (categories s) a = true
}.

(** [Result.scalar_one_or_none()]. *)
Definition scalar_one_or_none (A : Type) (rows : list A)
  : result (option A) :=
  match rows with
  | [] => Return None
  | [r] => Return (Some r)
  | _ => Raise MultipleResultsFound
  end.

End Db.

(** ** The world a coroutine runs in, and the monad of [async def] *)

Record World := mkWorld {
  store : Db.Store;        (* the PostgreSQL database *)
  db_up : bool;            (* whether the database can be reached *)
  session : Db.Session;    (* the ORM session in scope *)
  entropy : nat -> byte;   (* the operating system's random octets *)
  entropy_pos : nat;       (* how many of them were drawn *)
  clock : Z                (* the current time, seconds since the epoch *)
}.

Definition with_store (s : Db.Store) (w : World) : World :=
  mkWorld s (db_up w) (session w) (entropy w) (entropy_pos w) (clock w).

Definition with_session (ss : Db.Session) (w : World) : World :=
  mkWorld (store w) (db_up w) ss (entropy w) (entropy_pos w) (clock w).

Definition M (A : Type) : Type := World -> result A * World.

Definition ret (A : Type) (a : A) : M A := fun w => (Return a, w).

Definition raise (A : Type) (e : exn) : M A := fun w => (Raise e, w).
Arguments raise {A} e.

Definition bind (A B : Type) (c : M A) (k : A -> M B) : M B :=
  fun w =>
    match c w with
    | (Return a, w') => k a w'
    | (Raise e, w') => (Raise e, w')
    end.

Definition lift (A : Type) (r : result A) : M A := fun w => (r, w).

Declare Scope py_scope.
Delimit Scope py_scope with py.
Notation "x <- c ;; k" := (bind c (fun x => k))
  (at level 61, c at next level, right associativity) : py_scope.
Notation "c ;; k" := (bind c (fun _ => k))
  (at level 61, right associativity) : py_scope.
Local Open Scope py_scope.

(** [try: body  except jwt.PyJWTError: handler]. *)
Definition try_except_PyJWTError (A : Type) (body handler : M A) : M A :=
  fun w =>
    match body w with
    | (Raise (PyJWTError _), w') => handler w'
    | other => other
    end.

(** [n] fresh octets from the operating system. *)
Definition getrandom (n : nat) : M bytes :=
  fun w =>
    (Return (map (entropy w) (seq (entropy_pos w) n)),
     mkWorld (store w) (db_up w) (session w) (entropy w)
       (entropy_pos w + n) (clock w)).

(** *** Session operations *)

(** [async with SessionLocal() as session: ...]: a new session for the
    body, closed (emptied) when the body is left, by return or by
    exception. *)
Definition get_db_session (A : Type) (body : M A) : M A :=
  fun w =>
    let (r, w') := body (with_session Db.new_session w) in
    (r, with_session Db.new_session w').

(** [await db.execute(select(T).filter(p))], [p] comparing columns with
    the arguments [params].  The connection is opened first; an argument
    that is not of its column's type is refused next; otherwise the
    matching rows come back.  There is no [ORDER BY]: the rows come in
    the order the table keeps them, and where a new row stands among the
    rows of an answer is not claimed below. *)
Definition execute_select (T : Type) (table : Db.Store -> list T)
  (params : list Db.Param) (p : T -> bool) : M (list T) :=
  fun w =>
    if db_up w then
      if forallb Db.sendable params
      then (Return (filter p (table (store w))), w)
      else (Raise DBAPIError, w)
    else (Raise ConnectionRefusedError, w).

(** [db.add(obj)]: the session now knows the object; the reference
    returned stands for the Python variable that holds it. *)
Definition add (e : Db.Entity) : M nat :=
  fun w =>
    let ss := session w in
    let h := List.length (Db.objects ss) in
    (Return h,
     with_session (Db.mkSession (Db.objects ss ++ [e])
                     (Db.pending ss ++ [h])) w).

(** [await db.commit()]: flush and commit, or roll back and raise what the
    refused INSERT raised. *)
Definition commit : M unit :=
  fun w =>
    if db_up w then
      let ss := session w in
      match Db.flush (Db.pending ss) (Db.objects ss) (store w) with
      | (s', Return objs') =>
          (Return tt, with_session (Db.mkSession objs' []) (with_store s' w))
      | (s', Raise e) =>
          (Raise e, with_store (Db.rolled_back (store w) s') w)
      end
    else (Raise ConnectionRefusedError, w).

(** [await db.refresh(obj)]: the object's attributes are read again from
    its row. *)
Definition refresh (h : nat) : M unit :=
  fun w =>
    if db_up w then
      let ss := session w in
      match nth_error (Db.objects ss) h with
      | Some e =>
          match Db.reload e (store w) with
          | Some e' =>
              (Return tt,
               with_session (Db.mkSession (Db.set_nth h e' (Db.objects ss))
                               (Db.pending ss)) w)
          | None => (Raise InvalidRequestError, w)
          end
      | None => (Raise InvalidRequestError, w)
      end
    else (Raise ConnectionRefusedError, w).

(** Reading the object a variable refers to. *)
Definition deref (h : nat) : M Db.Entity :=
  fun w =>
    match nth_error (Db.objects (session w)) h with
    | Some e => (Return e, w)
    | None => (Raise InvalidRequestError, w)
    end.

(** *** Values a route returns, requests and responses *)

#[warnings="-register-all"]
Inductive value :=
| VStr (s : str)
| VUser (u : User.t)
| VDict (items : list (str * value)).

Record Request := mkRequest {
  authorization : option str      (* the Authorization header, if sent *)
}.

Record Response := mkResponse {
  status_code : Z;
  body : value
}.

(** FastAPI's answer to what a route did: 200 with the returned value, the
    status of an [HTTPException], 500 for any other exception. *)
Definition respond (r : result value) : Response :=
  match r with
  | Return v => mkResponse 200 v
  | Raise (HTTPException code detail) =>
      mkResponse code (VDict [(lit "detail", VStr (lit detail))])
  | Raise _ => mkResponse 500 (VStr (lit "Internal Server Error"))
  end.

Definition serve (handler : M value) (w : World) : Response * World :=
  let (r, w') := handler w in (respond r, w').

(** [OAuth2PasswordBearer(tokenUrl="token")] as a dependency: the
    parameter of a [Bearer] Authorization header, or 401. *)
Definition oauth2_scheme (request : Request) : M str :=
  match authorization request with
  | None => raise (HTTPException 401 "Not authenticated")
  | Some header =>
      let (scheme, param) := partition 32%N header in
      if negb (str_eqb header []) && str_eqb (lower scheme) (lit "bearer")
      then ret param
      else raise (HTTPException 401 "Not authenticated")
  end.

(** ** The module [main.py] *)

Section App.

(** bcrypt's key derivation (see [Module bcrypt]). *)
Variable bcrypt_raw : N -> bytes -> bytes -> bytes.

(** [jwt.encode(payload, key, algorithm)] and
    [jwt.decode(token, key, algorithms)]; the latter reads the clock when it
    validates the registered claims. *)
Variable jwt_encode : jwt.payload -> str -> str -> result str.
Variable jwt_decode : Z -> str -> str -> list str -> result jwt.payload.

(** Python floats, their [repr], and
    [embedding_model.encode(text).tolist()] for the model
    [all-MiniLM-L6-v2] loaded at import. *)
Variable pyfloat : Type.
Variable float_repr : pyfloat -> str.
Variable embedding_model_encode : str -> list pyfloat.

Definition SECRET_KEY : str := lit "your_secret_key".
Definition ALGORITHM : str := lit "HS256".

(** [json.dumps] of a list of floats. *)
Fixpoint join (sep : str) (parts : list str) : str :=
  match parts with
  | [] => []
  | [p] => p
  | p :: rest => p ++ sep ++ join sep rest
  end.

Definition json_dumps (v : list pyfloat) : str :=
  lit "[" ++ join (lit ", ") (map float_repr v) ++ lit "]".

(** [[
async def hash_password(password: str) -> str:
    return bcrypt.hashpw(password.encode(), bcrypt.gensalt()).decode()
]] *)
Definition hash_password (password : str) : M str :=
  pw <- lift (str_encode password) ;;
  octets <- getrandom 16 ;;
  h <- lift (bcrypt.hashpw bcrypt_raw pw (bcrypt.gensalt octets)) ;;
  lift (bytes_decode h).

(** [[
async def verify_password(password: str, hashed: str) -> bool:
    return bcrypt.checkpw(password.encode(), hashed.encode())
]] *)
Definition verify_password (password hashed : str) : M bool :=
  pw <- lift (str_encode password) ;;
  h <- lift (str_encode hashed) ;;
  lift (bcrypt.checkpw bcrypt_raw pw h).

(** The salt [hash_password] draws in a world, and the hash it builds
    there from an encoded password. *)
Definition drawn_salt (w : World) : bytes :=
  map (entropy w) (seq (entropy_pos w) 16).

Definition built_hash (w : World) (k : bytes) : bytes :=
  bcrypt.format_hash bcrypt.TwoB 12 (drawn_salt w)
    (bcrypt.digest bcrypt_raw 12 (drawn_salt w) (firstn 72 k)).

(** [[
async def create_access_token(data: dict):
    return jwt.encode(data, SECRET_KEY, algorithm=ALGORITHM)
]] *)
Definition create_access_token (data : jwt.payload) : M str :=
  lift (jwt_encode data SECRET_KEY ALGORITHM).

(** [select(User).filter(User.username == value)] for the value found in a
    payload: a string is compared with the column, [None] asks for the rows
    whose username is NULL, and the driver refuses to bind anything else to
    a text column. *)
Definition select_user_by (value : option jwt.json) : M (list User.t) :=
  match value with
  | Some (jwt.JStr name) =>
      execute_select Db.users [Db.PText name]
        (fun u => Db.has_text name (User.username u))
  | None | Some jwt.JNull =>
      execute_select Db.users []
        (fun u => match User.username u with None => true | _ => false end)
  | Some _ =>
      fun w => if db_up w then (Raise DBAPIError, w)
               else (Raise ConnectionRefusedError, w)
  end.

(** [[
async def get_current_user(token: str = Depends(oauth2_scheme)):
    try:
        payload = jwt.decode(token, SECRET_KEY, algorithms=[ALGORITHM])
        async with get_db_session() as db:
            result = await db.execute(
                select(User).filter(User.username == payload.get("sub")))
            user = result.scalar_one_or_none()
            if user is None:
                raise HTTPException(status_code=401, detail="User not found")
            return user
    except jwt.PyJWTError:
        raise HTTPException(status_code=401, detail="Invalid token")
]] *)
Definition get_current_user (token : str) : M User.t :=
  try_except_PyJWTError
    (payload <- (fun w =>
                   (jwt_decode (clock w) token SECRET_KEY [ALGORITHM], w)) ;;
     get_db_session
       (result <- select_user_by (jwt.get (lit "sub") payload) ;;
        user <- lift (Db.scalar_one_or_none result) ;;
        match user with
        | None => raise (HTTPException 401 "User not found")
        | Some u => ret u
        end))
    (raise (HTTPException 401 "Invalid token")).

(** *** GraphQL queries *)

(** [Query.list_articles]: [select(Article)], [scalars().all()]. *)
Definition list_articles : M (list Article.t) :=
  execute_select Db.articles [] (fun _ => true).

(** [[
    async def get_article(self, info, id: int) -> Optional[ArticleType]:
        db: AsyncSession = info.context["db"]
        result = await db.execute(select(Article).filter(Article.id == id))
        return result.scalar_one_or_none()
]] *)
Definition get_article (id : Z) : M (option Article.t) :=
  result <- execute_select Db.articles [Db.PInt id]
              (fun a => Db.has_id id (Article.id a)) ;;
  lift (Db.scalar_one_or_none result).

(** [Query.list_categories]: [select(Category)], [scalars().all()]. *)
Definition list_categories : M (list Category.t) :=
  execute_select Db.categories [] (fun _ => true).

(** *** GraphQL mutations *)

(** [[
    async def create_article(self, info, title: str, content: str,
                             category_id: int) -> ArticleType:
        db: AsyncSession = info.context["db"]
        embedding_vector = embedding_model.encode(content).tolist()
        article = Article(title=title, content=content,
                          vector=json.dumps(embedding_vector),
                          category_id=category_id)
        db.add(article)
        await db.commit()
        await db.refresh(article)
        return article
]] *)
Definition create_article (title content : str) (category_id : Z)
  : M Article.t :=
  let embedding_vector := embedding_model_encode content in
  article <- add (Db.EArticle
                    (Article.mk None (Some title) (Some content)
                       (Some (json_dumps embedding_vector)) None
                       (Some category_id))) ;;
  commit ;;
  refresh article ;;
  obj <- deref article ;;
  match obj with
  | Db.EArticle a => ret a
  | _ => raise (TypeError "not an Article")
  end.

(** [[
    async def create_category(self, info, name: str) -> CategoryType:
        db: AsyncSession = info.context["db"]
        category = Category(name=name)
        db.add(category)
        await db.commit()
        await db.refresh(category)
        return category
]] *)
Definition create_category (name : str) : M Category.t :=
  category <- add (Db.ECategory (Category.mk None (Some name))) ;;
  commit ;;
  refresh category ;;
  obj <- deref category ;;
  match obj with
  | Db.ECategory c => ret c
  | _ => raise (TypeError "not a Category")
  end.

(** [[
    async def register_user(self, info, username: str,
                            password: str) -> UserType:
        db: AsyncSession = info.context["db"]
        user = User(username=username,
                    password_hash=await hash_password(password))
        db.add(user)
        await db.commit()
        await db.refresh(user)
        return user
]] *)
Definition register_user (username password : str) : M User.t :=
  password_hash <- hash_password password ;;
  user <- add (Db.EUser
                 (User.mk None (Some username) (Some password_hash) None)) ;;
  commit ;;
  refresh user ;;
  obj <- deref user ;;
  match obj with
  | Db.EUser u => ret u
  | _ => raise (TypeError "not a User")
  end.

(** *** What the mutations store, and what the store refuses

    The row each mutation inserts, built from the sequence value it draws,
    and the test the INSERT makes against the rows already there. *)

Definition new_article (s : Db.Store) (title content : str) (cid : Z)
  : Article.t :=
  Article.mk (Some (Db.articles_id_seq s)) (Some title) (Some content)
    (Some (json_dumps (embedding_model_encode content))) None (Some cid).

Definition article_refused (s : Db.Store) (cid : Z) : bool :=
  existsb (fun r => Db.has_id (Db.articles_id_seq s) (Article.id r))
    (Db.articles s)
  || negb (existsb (fun r => Db.has_id cid (Category.id r))
             (Db.categories s)).

Definition new_category (s : Db.Store) (name : str) : Category.t :=
  Category.mk (Some (Db.categories_id_seq s)) (Some name).

Definition category_refused (s : Db.Store) (name : str) : bool :=
  existsb (fun r => Db.has_id (Db.categories_id_seq s) (Category.id r))
    (Db.categories s)
  || existsb (fun r => Db.has_text name (Category.name r)) (Db.categories s).

Definition new_user (w : World) (username : str) (k : bytes) : User.t :=
  User.mk (Some (Db.users_id_seq (store w))) (Some username)
    (Some (map Byte.to_N (built_hash w k))) (Some (lit "user")).

Definition user_refused (s : Db.Store) (username : str) : bool :=
  existsb (fun r => Db.has_id (Db.users_id_seq s) (User.id r)) (Db.users s)
  || existsb (fun r => Db.has_text username (User.username r)) (Db.users s).

(** [[
async def get_context():
    async with get_db_session() as db:
        return {"db": db}
]]
    The session is handed to the resolvers after the [async with] block
    closed it: they start from an empty session. *)
Definition get_context : M unit := get_db_session (ret tt).

(** [GraphQLRouter(schema, context_getter=get_context)]: a request gets its
    context, then its resolver runs. *)
Definition graphql (A : Type) (resolver : M A) : M A :=
  get_context ;; resolver.

(** *** Plain routes *)

(** [form_data["key"]] on the login body. *)
Fixpoint getitem (key : str) (d : list (str * str)) : result str :=
  match d with
  | [] => Raise (KeyError key)
  | (k, v) :: d' => if str_eqb k key then Return v else getitem key d'
  end.

(** [[
@app.post("/token")
async def login(form_data: dict):
    async with get_db_session() as db:
        result = await db.execute(
            select(User).filter(User.username == form_data["username"]))
        user = result.scalar_one_or_none()
        if not user or not await verify_password(form_data["password"],
                                                 user.password_hash):
            raise HTTPException(status_code=401, detail="Invalid credentials")
        return {"access_token":
                    await create_access_token({"sub": user.username}),
                "token_type": "bearer"}
]] *)
Definition login (form_data : list (str * str)) : M value :=
  get_db_session
    (name <- lift (getitem (lit "username") form_data) ;;
     result <- execute_select Db.users [Db.PText name]
                 (fun u => Db.has_text name (User.username u)) ;;
     user <- lift (Db.scalar_one_or_none result) ;;
     match user with
     | None => raise (HTTPException 401 "Invalid credentials")
     | Some u =>
         password <- lift (getitem (lit "password") form_data) ;;
         ok <- match User.password_hash u with
               | Some hashed => verify_password password hashed
               | None =>
                   (* [hashed.encode()] on [None], after [password.encode()] *)
                   lift (str_encode password) ;;
                   raise (AttributeError "encode")
               end ;;
         if ok then
           token <- create_access_token
                      [(lit "sub",
                        match User.username u with
                        | Some n => jwt.JStr n
                        | None => jwt.JNull
                        end)] ;;
           ret (VDict [(lit "access_token", VStr token);
                       (lit "token_type", VStr (lit "bearer"))])
         else raise (HTTPException 401 "Invalid credentials")
     end).

(** [[
@app.get("/protected")
async def protected_route(user: dict = Depends(get_current_user)):
    return {"message": "You have access", "user": user}
]] *)
Definition protected_route (user : User.t) : M value :=
  ret (VDict [(lit "message", VStr (lit "You have access"));
              (lit "user", VUser user)]).

(** [[
@app.get("/health")
async def health_check():
    return {"status": "OK"}
]] *)
Definition health_check : M value :=
  ret (VDict [(lit "status", VStr (lit "OK"))]).

(** The routes as FastAPI serves them, dependencies resolved first. *)
Definition GET_protected (request : Request) : World -> Response * World :=
  serve (token <- oauth2_scheme request ;;
         user <- get_current_user token ;;
         protected_route user).

Definition GET_health (request : Request) : World -> Response * World :=
  serve health_check.

Definition POST_token (form_data : list (str * str))
  : World -> Response * World :=
  serve (login form_data).

End App.

(** The module raises one exception of its own making, [HTTPException]
    (always with status 401); it defines no error classes.  Every other
    exception comes out of a dependency and reaches the framework
    unhandled. *)
Definition raised_by_module (e : exn) : bool :=
  match e with
  | HTTPException _ _ => true
  | _ => false
  end.

(** What the statements about the routes rely on, under the module's key
    and algorithm: a payload that holds a string subject and nothing else
    survives [encode] then [decode]. *)
Definition jwt_roundtrip_sub
  (jwt_encode : jwt.payload -> str -> str -> result str)
  (jwt_decode : Z -> str -> str -> list str -> result jwt.payload) : Prop :=
  forall now name,
  exists token,
    jwt_encode [(lit "sub", jwt.JStr name)] SECRET_KEY ALGORITHM
    = Return token /\
    jwt_decode now token SECRET_KEY [ALGORITHM]
    = Return [(lit "sub", jwt.JStr name)].

(** ** Concrete instances of what the module imports, and sample worlds

    They stand in for the section variables wherever a statement is
    evaluated on concrete data. *)

Module Sample.

(** A key derivation that merely mixes its inputs. *)
Definition raw (cost : N) (salt key : bytes) : bytes :=
  firstn 24 (map (fun b => byte_of_N ((Byte.to_N b + cost) mod 256)%N)
               (key ++ salt) ++ repeat x00 24).

(** A token format [key.s.subject] for subject-only payloads, [key.a.] for
    payloads with an audience, [key.o.] otherwise. *)
Definition jwt_encode (p : jwt.payload) (key alg : str) : result str :=
  match jwt.get (lit "aud") p with
  | Some (jwt.JStr (_ :: _)) => Return (key ++ lit ".a.")
  | _ =>
      match p with
      | [(k, jwt.JStr name)] =>
          if str_eqb k (lit "sub") then Return (key ++ lit ".s." ++ name)
          else Return (key ++ lit ".o.")
      | _ => Return (key ++ lit ".o.")
      end
  end.

Definition jwt_decode (now : Z) (token key : str) (algs : list str)
  : result jwt.payload :=
  let n := List.length key in
  if str_eqb (firstn (n + 3) token) (key ++ lit ".s.")
  then Return [(lit "sub", jwt.JStr (skipn (n + 3) token))]
  else if str_eqb (firstn (n + 3) token) (key ++ lit ".a.")
  then Raise (PyJWTError InvalidAudienceError)
  else Raise (PyJWTError DecodeError).

(** An embedding model of the right dimension. *)
Definition embed (text : str) : list Z := repeat 0%Z 384.
Definition repr (x : Z) : str := lit "0.0".

(** A running system with an empty database. *)
Definition octets (n : nat) : byte := byte_of_N (N.of_nat n mod 256)%N.

Definition fresh : World :=
  mkWorld Db.empty true Db.new_session octets 0 1700000000.

Definition alice : str := lit "alice".
Definition secret : str := lit "correct horse".

(** The same system after [registerUser("alice", "correct horse")] and
    [createCategory("news")]: the rows those two mutations store. *)
Definition alice_hash : str :=
  lit "$2b$12$..CA.uOD/eaGAOmJB.yMBuZ1r8dlDteAvyc139aOuKBO2NC/CQCvO".

Definition alice_row : User.t :=
  User.mk (Some 1%Z) (Some alice) (Some alice_hash) (Some (lit "user")).

Definition news : Category.t := Category.mk (Some 1%Z) (Some (lit "news")).

Definition populated : World :=
  mkWorld (Db.mkStore [alice_row] [news] [] 2 2 1) true Db.new_session
    octets 16 1700000000.

(** The same system with its database out of reach. *)
Definition unreachable : World :=
  mkWorld (Db.mkStore [alice_row] [news] [] 2 2 1) false Db.new_session
    octets 16 1700000000.

(** Two passwords of 73 characters that agree on the first 72. *)
Definition long_a : str := repeat 97%N 72 ++ [98%N].
Definition long_b : str := repeat 97%N 72 ++ [99%N].

(** A string holding a lone surrogate, as [json.loads] produces from the
    escape [\ud800]. *)
Definition surrogate : str := [0xD800%N].

(** A string holding the character U+0000, as [json.loads] produces from
    the escape [\u0000]. *)
Definition nul : str := [0%N].





Definition digest (hash : string) (key msg : bytes) : bytes :=
  firstn 32 (map (fun b => byte_of_N ((Byte.to_N b + 1) mod 256)%N)
               (key ++ msg) ++ repeat x00 32).


End Sample.

Local Open Scope py_scope.

(** ** Vocabulary for the properties of the routes and the mutations *)

(** The contents of the three tables. *)
Definition tables (s : Db.Store)
  : list User.t * list Category.t * list Article.t :=
  (Db.users s, Db.categories s, Db.articles s).

(** What [register_user] writes into a user row: a username, the default
    role, and a password hash in bcrypt's format, version [2b], cost 12,
    over a 16-octet salt. *)
Definition api_user (u : User.t) : Prop :=
  exists name salt dg,
    User.username u = Some name /\
    User.password_hash u
    = Some (map Byte.to_N (bcrypt.format_hash bcrypt.TwoB 12 salt dg)) /\
    List.length salt = 16%nat /\
    User.role u = Some (lit "user").

(** The body of a login request: the dict that [login] indexes by
    ["username"] and ["password"]. *)
Definition credentials (username password : str) : list (str * str) :=
  [(lit "username", username); (lit "password", password)].

Module Fixture.

(** A token library whose tokens carry no claims at all. *)
Definition decode_empty (now : Z) (token key : str) (algs : list str)
  : result jwt.payload :=
  Return [].

End Fixture.

(** A computation that leaves the database as it found it, whatever it
    returns or raises. *)
Definition read_only (A : Type) (c : M A) : Prop :=
  forall w, store (snd (c w)) = store w.



(* ================================================================== *)
(** * Part II: properties *)
(* ================================================================== *)

(** ** Octets, strings and their comparison *)

Lemma byte_of_to_N (b : byte) : byte_of_N (Byte.to_N b) = b.
Proof. unfold byte_of_N. now rewrite Byte.of_to_N. Qed.

Lemma to_N_lt (b : byte) : (Byte.to_N b < 256)%N.
Proof. pose proof (Byte.to_N_bounded b). lia. Qed.

Lemma byte_eqb_eq (a b : byte) : Byte.eqb a b = true <-> a = b.
Proof.
  split.
  - apply Byte.byte_dec_bl.
  - apply Byte.byte_dec_lb.
Qed.

Lemma str_eqb_eq (a b : str) : str_eqb a b = true <-> a = b.
Proof.
  revert b. induction a as [|x a IH]; intros [|y b]; simpl;
    try (split; [discriminate | discriminate]); try tauto.
  rewrite andb_true_iff, N.eqb_eq, IH.
  split; [intros [-> ->]; reflexivity | intros [= -> ->]; auto].
Qed.

Lemma str_eqb_refl (a : str) : str_eqb a a = true.
Proof. now apply str_eqb_eq. Qed.

Lemma bytes_eqb_eq (a b : bytes) : bytes_eqb a b = true <-> a = b.
Proof.
  revert b. induction a as [|x a IH]; intros [|y b]; simpl;
    try (split; [discriminate | discriminate]); try tauto.
  rewrite andb_true_iff, byte_eqb_eq, IH.
  split; [intros [-> ->]; reflexivity | intros [= -> ->]; auto].
Qed.

Lemma bytes_eqb_refl (a : bytes) : bytes_eqb a a = true.
Proof. now apply bytes_eqb_eq. Qed.

(** Two byte strings with a common prefix compare as their remainders. *)
Lemma bytes_eqb_app (p a b : bytes) :
  bytes_eqb (p ++ a) (p ++ b) = bytes_eqb a b.
Proof.
  induction p as [|x p IH]; simpl; [reflexivity|].
  rewrite IH. destruct (Byte.eqb x x) eqn:E; [reflexivity|].
  assert (Byte.eqb x x = true) by now apply byte_eqb_eq.
  congruence.
Qed.

(** ** ASCII text survives [decode] and [encode] unchanged *)

Lemma utf8_decode_ascii (bs : bytes) :
  forallb ascii_octet bs = true ->
  utf8_decode bs = Some (map Byte.to_N bs).
Proof.
  induction bs as [|b bs IH]; simpl; [reflexivity|].
  rewrite andb_true_iff. intros [Hb Hbs].
  unfold ascii_octet in Hb. rewrite Hb, (IH Hbs). reflexivity.
Qed.

Lemma utf8_encode_ascii (bs : bytes) :
  forallb ascii_octet bs = true ->
  utf8_encode (map Byte.to_N bs) = Some bs.
Proof.
  induction bs as [|b bs IH]; simpl; [reflexivity|].
  rewrite andb_true_iff. intros [Hb Hbs].
  unfold ascii_octet in Hb. unfold utf8_encode_char.
  rewrite Hb, (IH Hbs), byte_of_to_N. reflexivity.
Qed.


(** ** bcrypt's base 64 encoding *)

(** Induction over a list three elements at a time. *)
Lemma list_ind3 (A : Type) (P : list A -> Prop) :
  P [] -> (forall a, P [a]) -> (forall a b, P [a; b]) ->
  (forall a b c l, P l -> P (a :: b :: c :: l)) ->
  forall l, P l.
Proof.
  intros H0 H1 H2 H3. fix IH 1.
  intros [|a [|b [|c l]]]; [apply H0 | apply H1 | apply H2 | apply H3, IH].
Qed.

Ltac euclid := zify; Z.to_euclidean_division_equations; lia.

Lemma below_64 (P : N -> Prop) :
  (forall k, (k < 64)%nat -> P (N.of_nat k)) ->
  forall n, (n < 64)%N -> P n.
Proof. intros H n Hn. rewrite <- (N2Nat.id n). apply H. lia. Qed.

Lemma dec6_enc6 (n : N) :
  (n < 64)%N -> bcrypt.dec6 (bcrypt.enc6 n) = Some n.
Proof.
  revert n. apply below_64. intros k Hk.
  do 64 (destruct k as [|k]; [reflexivity|]). lia.
Qed.

Lemma enc6_plain (n : N) : (n < 64)%N -> bcrypt.plain (bcrypt.enc6 n) = true.
Proof.
  revert n. apply below_64. intros k Hk.
  do 64 (destruct k as [|k]; [reflexivity|]). lia.
Qed.

(** The four sextets cut from three octets, and the octets put together
    again. *)
Lemma sextets_lt (a b c : N) :
  (a < 256 -> b < 256 -> c < 256 ->
   a / 4 < 64 /\ (a mod 4) * 16 + b / 16 < 64 /\
   (b mod 16) * 4 + c / 64 < 64 /\ c mod 64 < 64)%N.
Proof. intros. repeat split; euclid. Qed.

Lemma octets_back (a b c : N) :
  (a < 256 -> b < 256 -> c < 256 ->
   (a / 4) * 4 + ((a mod 4) * 16 + b / 16) / 16 = a /\
   (((a mod 4) * 16 + b / 16) mod 16) * 16
     + ((b mod 16) * 4 + c / 64) / 4 = b /\
   (((b mod 16) * 4 + c / 64) mod 4) * 64 + c mod 64 = c)%N.
Proof. intros. repeat split; euclid. Qed.

Lemma b64_roundtrip (l : bytes) :
  bcrypt.b64_decode (bcrypt.b64_encode l) = Some l.
Proof.
  induction l as [|a|a b|a b c l IH] using list_ind3.
  - reflexivity.
  - pose proof (to_N_lt a) as Ha.
    destruct (sextets_lt (a := Byte.to_N a) (b := 0) (c := 0))
      as (S1 & S2 & _); try lia.
    destruct (octets_back (a := Byte.to_N a) (b := 0) (c := 0))
      as (B1 & _); try lia.
    cbn [bcrypt.b64_encode bcrypt.b64_decode].
    change (0 / 16)%N with 0%N in *. rewrite N.add_0_r in *.
    rewrite !dec6_enc6 by assumption.
    rewrite N.Div0.mod_mul.
    cbn [N.eqb]. rewrite B1, byte_of_to_N. reflexivity.
  - pose proof (to_N_lt a) as Ha. pose proof (to_N_lt b) as Hb.
    destruct (sextets_lt (a := Byte.to_N a) (b := Byte.to_N b) (c := 0))
      as (S1 & S2 & S3 & _); try lia.
    destruct (octets_back (a := Byte.to_N a) (b := Byte.to_N b) (c := 0))
      as (B1 & B2 & _); try lia.
    cbn [bcrypt.b64_encode bcrypt.b64_decode].
    change (0 / 64)%N with 0%N in *. rewrite N.add_0_r in *.
    rewrite !dec6_enc6 by assumption.
    rewrite N.Div0.mod_mul.
    cbn [N.eqb]. rewrite B1, B2, !byte_of_to_N. reflexivity.
  - pose proof (to_N_lt a) as Ha. pose proof (to_N_lt b) as Hb.
    pose proof (to_N_lt c) as Hc.
    destruct (sextets_lt Ha Hb Hc) as (S1 & S2 & S3 & S4).
    destruct (octets_back Ha Hb Hc) as (B1 & B2 & B3).
    cbn [bcrypt.b64_encode bcrypt.b64_decode app].
    rewrite !dec6_enc6 by assumption.
    rewrite IH, B1, B2, B3, !byte_of_to_N. reflexivity.
Qed.

Lemma b64_encode_inj (l l' : bytes) :
  bcrypt.b64_encode l = bcrypt.b64_encode l' -> l = l'.
Proof.
  intros E. apply (f_equal bcrypt.b64_decode) in E.
  rewrite !b64_roundtrip in E. congruence.
Qed.

Lemma b64_encode_plain (l : bytes) :
  forallb bcrypt.plain (bcrypt.b64_encode l) = true.
Proof.
  induction l as [|a|a b|a b c l IH] using list_ind3.
  - reflexivity.
  - pose proof (to_N_lt a) as Ha.
    destruct (sextets_lt (a := Byte.to_N a) (b := 0) (c := 0))
      as (S1 & S2 & _); try lia.
    change (0 / 16)%N with 0%N in *. rewrite N.add_0_r in *.
    cbn [bcrypt.b64_encode forallb].
    rewrite !enc6_plain by assumption. reflexivity.
  - pose proof (to_N_lt a) as Ha. pose proof (to_N_lt b) as Hb.
    destruct (sextets_lt (a := Byte.to_N a) (b := Byte.to_N b) (c := 0))
      as (S1 & S2 & S3 & _); try lia.
    change (0 / 64)%N with 0%N in *. rewrite N.add_0_r in *.
    cbn [bcrypt.b64_encode forallb].
    rewrite !enc6_plain by assumption. reflexivity.
  - pose proof (to_N_lt a) as Ha. pose proof (to_N_lt b) as Hb.
    pose proof (to_N_lt c) as Hc.
    destruct (sextets_lt Ha Hb Hc) as (S1 & S2 & S3 & S4).
    cbn [bcrypt.b64_encode forallb app].
    rewrite !enc6_plain by assumption. exact IH.
Qed.

(** Sixteen octets of salt are written as 22 characters. *)
Lemma b64_encode_16 (l : bytes) :
  List.length l = 16%nat -> List.length (bcrypt.b64_encode l) = 22%nat.
Proof.
  intros H. do 16 (destruct l as [|? l]; [discriminate H|]).
  destruct l; [reflexivity | discriminate H].
Qed.


(** ** Parsing what [bcrypt] formats *)

Lemma plain_not_dollar (c : byte) :
  bcrypt.plain c = true -> Byte.eqb c "$"%byte = false.
Proof.
  unfold bcrypt.plain. rewrite andb_true_iff, negb_true_iff. tauto.
Qed.

Lemma plain_ascii (l : bytes) :
  forallb bcrypt.plain l = true -> forallb ascii_octet l = true.
Proof.
  induction l as [|c l IH]; simpl; [reflexivity|].
  unfold bcrypt.plain at 1. rewrite !andb_true_iff. intuition.
Qed.

Lemma split_on_plain (l : bytes) :
  forallb bcrypt.plain l = true -> bcrypt.split_on "$"%byte l = [l].
Proof.
  induction l as [|c l IH]; simpl; [reflexivity|].
  rewrite andb_true_iff. intros [Hc Hl].
  rewrite (plain_not_dollar _ Hc), (IH Hl). reflexivity.
Qed.

Lemma split_on_field (p l : bytes) :
  forallb bcrypt.plain p = true ->
  bcrypt.split_on "$"%byte (p ++ "$"%byte :: l)
  = p :: bcrypt.split_on "$"%byte l.
Proof.
  induction p as [|c p IH]; simpl; [reflexivity|].
  rewrite andb_true_iff. intros [Hc Hp].
  rewrite (plain_not_dollar _ Hc), (IH Hp). reflexivity.
Qed.

Lemma parse_version_bytes (v : bcrypt.Version) :
  bcrypt.parse_version (bcrypt.version_bytes v) = Some v.
Proof. destruct v; reflexivity. Qed.

Lemma version_bytes_plain (v : bcrypt.Version) :
  forallb bcrypt.plain (bcrypt.version_bytes v) = true.
Proof. destruct v; reflexivity. Qed.

Lemma below_32 (P : N -> Prop) :
  (forall k, (k < 32)%nat -> P (N.of_nat k)) ->
  forall n, (n < 32)%N -> P n.
Proof. intros H n Hn. rewrite <- (N2Nat.id n). apply H. lia. Qed.

Lemma parse_format_cost (cost : N) :
  (cost < 32)%N ->
  bcrypt.parse_u16 (bcrypt.format_cost cost) = Some cost /\
  forallb bcrypt.plain (bcrypt.format_cost cost) = true.
Proof.
  revert cost. apply below_32. intros k Hk.
  do 32 (destruct k as [|k]; [split; reflexivity|]). lia.
Qed.

Section Hashing.

Variable raw : N -> bytes -> bytes -> bytes.

Lemma format_hash_preamble v cost raw_salt dg :
  bcrypt.format_hash v cost raw_salt dg
  = bcrypt.preamble v cost raw_salt ++ bcrypt.b64_encode dg.
Proof.
  reflexivity.
Qed.

(** [hashpw] on a salt argument that starts with a well-formed bcrypt.preamble:
    whatever follows the 22 salt characters is ignored, and the hash is
    rebuilt from the parsed fields. *)
Lemma hashpw_preamble v cost raw_salt tail password :
  List.length raw_salt = 16%nat ->
  (4 <= cost <= 31)%N ->
  forallb bcrypt.plain tail = true ->
  bcrypt.hashpw raw password (bcrypt.preamble v cost raw_salt ++ tail)
  = Return (bcrypt.format_hash v cost raw_salt
              (bcrypt.digest raw cost raw_salt (firstn 72 password))).
Proof.
  intros Hlen Hcost Htail.
  destruct (parse_format_cost (cost := cost)) as [Hparse Hplain]; [lia|].
  assert (Hrest : forallb bcrypt.plain (bcrypt.b64_encode raw_salt ++ tail) = true)
    by (rewrite forallb_app, b64_encode_plain, Htail; reflexivity).
  assert (Hsplit :
    bcrypt.split_on "$"%byte (bcrypt.preamble v cost raw_salt ++ tail)
    = [[]; bcrypt.version_bytes v; bcrypt.format_cost cost;
       bcrypt.b64_encode raw_salt ++ tail]).
  { unfold bcrypt.preamble. rewrite <- !app_assoc.
    assert (D : forall l, blit "$" ++ l = [] ++ "$"%byte :: l)
      by reflexivity.
    rewrite D, split_on_field by reflexivity.
    rewrite (D (bcrypt.format_cost _ ++ _)), (D (bcrypt.b64_encode _ ++ _)).
    cbn [app].
    rewrite split_on_field by apply version_bytes_plain.
    rewrite split_on_field by assumption.
    rewrite split_on_plain by assumption. reflexivity. }
  pose proof (b64_encode_16 _ Hlen) as H22.
  unfold bcrypt.hashpw. rewrite Hsplit.
  assert (Hne : bcrypt.nonempty (bcrypt.b64_encode raw_salt ++ tail) = true).
  { destruct (bcrypt.b64_encode raw_salt); [discriminate H22 | reflexivity]. }
  assert (Hnc : bcrypt.nonempty (bcrypt.format_cost cost) = true)
    by reflexivity.
  assert (Hnv : bcrypt.nonempty (bcrypt.version_bytes v) = true)
    by (destruct v; reflexivity).
  cbn [filter]. change (bcrypt.nonempty []) with false. cbv iota.
  rewrite Hnv, Hnc, Hne, parse_version_bytes, Hparse.
  rewrite <- H22 at 2. rewrite firstn_app, Nat.sub_diag, firstn_all.
  cbn [firstn]. rewrite app_nil_r, b64_roundtrip.
  rewrite length_app, H22. cbn [Nat.ltb Nat.leb Nat.add].
  destruct (4 <=? cost)%N eqn:E1; [|apply N.leb_gt in E1; lia].
  destruct (cost <=? 31)%N eqn:E2; [|apply N.leb_gt in E2; lia].
  reflexivity.
Qed.

(** [checkpw] against a hash of that shape compares the digest recomputed
    from the password with the text that follows the bcrypt.preamble. *)
Lemma checkpw_preamble v cost raw_salt tail password :
  List.length raw_salt = 16%nat ->
  (4 <= cost <= 31)%N ->
  forallb bcrypt.plain tail = true ->
  bcrypt.checkpw raw password (bcrypt.preamble v cost raw_salt ++ tail)
  = Return (bytes_eqb
              (bcrypt.b64_encode
                 (bcrypt.digest raw cost raw_salt (firstn 72 password)))
              tail).
Proof.
  intros Hlen Hcost Htail. unfold bcrypt.checkpw.
  rewrite hashpw_preamble by assumption.
  rewrite format_hash_preamble, bytes_eqb_app. reflexivity.
Qed.

Lemma gensalt_preamble (octets : bytes) :
  bcrypt.gensalt octets = bcrypt.preamble bcrypt.TwoB 12 octets ++ [].
Proof. unfold bcrypt.gensalt, bcrypt.preamble. now rewrite app_nil_r. Qed.

End Hashing.


(** ** [hash_password] and [verify_password] *)

Lemma bytes_eqb_b64 (a b : bytes) :
  bytes_eqb (bcrypt.b64_encode a) (bcrypt.b64_encode b) = bytes_eqb a b.
Proof.
  apply eq_true_iff_eq. rewrite !bytes_eqb_eq.
  split; [apply b64_encode_inj | congruence].
Qed.

Lemma preamble_ascii v cost raw_salt :
  (cost < 32)%N -> forallb ascii_octet (bcrypt.preamble v cost raw_salt) = true.
Proof.
  intros Hc. unfold bcrypt.preamble. rewrite !forallb_app.
  rewrite (plain_ascii _ (version_bytes_plain v)).
  rewrite (plain_ascii _ (proj2 (parse_format_cost Hc))).
  rewrite (plain_ascii _ (b64_encode_plain raw_salt)). reflexivity.
Qed.

Lemma format_hash_ascii v cost raw_salt dg :
  (cost < 32)%N ->
  forallb ascii_octet (bcrypt.format_hash v cost raw_salt dg) = true.
Proof.
  intros Hc. rewrite format_hash_preamble, forallb_app, preamble_ascii by easy.
  apply (plain_ascii _ (b64_encode_plain dg)).
Qed.

Lemma str_encode_ascii (bs : bytes) :
  forallb ascii_octet bs = true -> str_encode (map Byte.to_N bs) = Return bs.
Proof. intros H. unfold str_encode. now rewrite utf8_encode_ascii. Qed.

Lemma bytes_decode_ascii (bs : bytes) :
  forallb ascii_octet bs = true -> bytes_decode bs = Return (map Byte.to_N bs).
Proof. intros H. unfold bytes_decode. now rewrite utf8_decode_ascii. Qed.

(** ** Text the database stores *)

Lemma text_ok_app (a b : str) :
  Db.text_ok (a ++ b) = Db.text_ok a && Db.text_ok b.
Proof. apply forallb_app. Qed.

Lemma enc6_char_ok (n : N) :
  (n < 64)%N -> Db.char_ok (Byte.to_N (bcrypt.enc6 n)) = true.
Proof.
  revert n. apply below_64. intros k Hk.
  do 64 (destruct k as [|k]; [reflexivity|]). lia.
Qed.

Lemma b64_encode_text_ok (l : bytes) :
  Db.text_ok (map Byte.to_N (bcrypt.b64_encode l)) = true.
Proof.
  unfold Db.text_ok.
  induction l as [|a|a b|a b c l IH] using list_ind3.
  - reflexivity.
  - pose proof (to_N_lt a) as Ha.
    destruct (sextets_lt (a := Byte.to_N a) (b := 0) (c := 0))
      as (S1 & S2 & _); try lia.
    change (0 / 16)%N with 0%N in *. rewrite N.add_0_r in *.
    cbn [bcrypt.b64_encode map forallb].
    rewrite !enc6_char_ok by assumption. reflexivity.
  - pose proof (to_N_lt a) as Ha. pose proof (to_N_lt b) as Hb.
    destruct (sextets_lt (a := Byte.to_N a) (b := Byte.to_N b) (c := 0))
      as (S1 & S2 & S3 & _); try lia.
    change (0 / 64)%N with 0%N in *. rewrite N.add_0_r in *.
    cbn [bcrypt.b64_encode map forallb].
    rewrite !enc6_char_ok by assumption. reflexivity.
  - pose proof (to_N_lt a) as Ha. pose proof (to_N_lt b) as Hb.
    pose proof (to_N_lt c) as Hc.
    destruct (sextets_lt Ha Hb Hc) as (S1 & S2 & S3 & S4).
    cbn [bcrypt.b64_encode map forallb app].
    rewrite !enc6_char_ok by assumption. exact IH.
Qed.

Lemma format_cost_text_ok (cost : N) :
  (cost < 32)%N -> Db.text_ok (map Byte.to_N (bcrypt.format_cost cost)) = true.
Proof.
  revert cost. apply below_32. intros k Hk.
  do 32 (destruct k as [|k]; [reflexivity|]). lia.
Qed.

(** A hash as bcrypt formats it is text the database stores. *)
Lemma format_hash_text_ok v cost raw_salt dg :
  (cost < 32)%N ->
  Db.text_ok (map Byte.to_N (bcrypt.format_hash v cost raw_salt dg)) = true.
Proof.
  intros Hc. unfold bcrypt.format_hash, bcrypt.preamble.
  rewrite !map_app, !text_ok_app, !b64_encode_text_ok.
  rewrite format_cost_text_ok by assumption.
  destruct v; reflexivity.
Qed.



Section Dumps.

Variable pyfloat : Type.
Variable repr : pyfloat -> str.



End Dumps.

Section Passwords.

Variable raw : N -> bytes -> bytes -> bytes.

Lemma drawn_salt_length (w : World) : List.length (drawn_salt w) = 16%nat.
Proof. unfold drawn_salt. now rewrite length_map, length_seq. Qed.

Lemma hash_password_encoded (password : str) (k : bytes) (w : World) :
  str_encode password = Return k ->
  hash_password raw password w
  = (Return (map Byte.to_N (built_hash raw w k)), snd (getrandom 16 w)).
Proof.
  intros Hk. unfold hash_password, bind, lift. rewrite Hk.
  cbn [getrandom snd]. fold (drawn_salt w).
  rewrite gensalt_preamble, hashpw_preamble;
    [| apply drawn_salt_length | lia | reflexivity].
  fold (built_hash raw w k).
  rewrite bytes_decode_ascii by (apply format_hash_ascii; lia).
  reflexivity.
Qed.

Lemma hash_password_unencodable (password : str) (w : World) :
  utf8_encode password = None ->
  hash_password raw password w = (Raise UnicodeEncodeError, w).
Proof.
  intros Hk. unfold hash_password, bind, lift, str_encode. now rewrite Hk.
Qed.

Lemma verify_password_encoded (password hashed : str) (k h : bytes)
  (w : World) :
  str_encode password = Return k ->
  str_encode hashed = Return h ->
  verify_password raw password hashed w = (bcrypt.checkpw raw k h, w).
Proof.
  intros Hk Hh. unfold verify_password, bind, lift. now rewrite Hk, Hh.
Qed.

(** Verifying any encodable password against the hash just built for
    another compares the two digests under the salt that was drawn. *)
Lemma verify_built_hash (p1 : str) (k1 k2 : bytes) (w w2 : World) :
  str_encode p1 = Return k1 ->
  verify_password raw p1 (map Byte.to_N (built_hash raw w k2)) w2
  = (Return (bytes_eqb
               (bcrypt.digest raw 12 (drawn_salt w) (firstn 72 k1))
               (bcrypt.digest raw 12 (drawn_salt w) (firstn 72 k2))), w2).
Proof.
  intros H1.
  erewrite verify_password_encoded;
    [| eassumption | apply str_encode_ascii, format_hash_ascii; lia].
  unfold built_hash. rewrite format_hash_preamble, checkpw_preamble;
    [| apply drawn_salt_length | lia | apply b64_encode_plain].
  now rewrite bytes_eqb_b64.
Qed.

End Passwords.

(** C1 (amended).  For UTF-8-encodable passwords [p1] and [p2]:
    [hash_password p2] returns a hash [h]; [verify_password p2 h] is true;
    and [verify_password p1 h] is true exactly when the bcrypt digests of
    the first 72 octets of the two encoded passwords, under the salt of
    [h], coincide (so it is false whenever those digests differ). *)
Theorem hash_then_verify
  (raw : N -> bytes -> bytes -> bytes) (w : World) (p1 p2 : str)
  (k1 k2 : bytes) :
  str_encode p1 = Return k1 ->
  str_encode p2 = Return k2 ->
  exists h w',
    hash_password raw p2 w = (Return h, w') /\
    (forall w2, verify_password raw p2 h w2 = (Return true, w2)) /\
    (forall w2,
        verify_password raw p1 h w2
        = (Return (bytes_eqb
                     (bcrypt.digest raw 12 (drawn_salt w) (firstn 72 k1))
                     (bcrypt.digest raw 12 (drawn_salt w) (firstn 72 k2))),
           w2)).
Proof.
  intros H1 H2.
  exists (map Byte.to_N (built_hash raw w k2)), (snd (getrandom 16 w)).
  split; [now apply hash_password_encoded|]. split; intros w2.
  - rewrite verify_built_hash with (k1 := k2) by assumption.
    now rewrite bytes_eqb_refl.
  - now apply verify_built_hash.
Qed.

Lemma hash_then_verify_witness :
  exists h w',
    hash_password Sample.raw Sample.secret Sample.fresh = (Return h, w') /\
    (forall w2, verify_password Sample.raw Sample.secret h w2
                = (Return true, w2)) /\
    (forall w2, verify_password Sample.raw Sample.alice h w2
                = (Return false, w2)).
Proof.
  exact (hash_then_verify Sample.raw Sample.fresh Sample.alice Sample.secret
           (k1 := blit "alice") (k2 := blit "correct horse")
           eq_refl eq_refl).
Defined.


(** C1 (as stated) fails twice over.  The two 73-character passwords
    [long_a] and [long_b] differ, yet the hash of one verifies the other,
    whatever the key derivation and the salt: bcrypt reads 72 octets.  And
    a password holding a lone surrogate has no hash at all:
    [password.encode()] raises. *)
Lemma distinct_passwords_verify :
  Sample.long_a <> Sample.long_b /\
  (forall raw w, exists h w',
      hash_password raw Sample.long_a w = (Return h, w') /\
      verify_password raw Sample.long_b h w' = (Return true, w')) /\
  (forall raw w,
      hash_password raw Sample.surrogate w = (Raise UnicodeEncodeError, w)).
Proof.
  split; [discriminate|]. split.
  - intros raw w.
    assert (Ha : str_encode Sample.long_a
                 = Return (map Py.byte_of_N Sample.long_a)) by reflexivity.
    assert (Hb : str_encode Sample.long_b
                 = Return (map Py.byte_of_N Sample.long_b)) by reflexivity.
    eexists. eexists. split.
    + apply hash_password_encoded, Ha.
    + rewrite verify_built_hash with (k1 := map Py.byte_of_N Sample.long_b)
        by exact Hb.
      change (firstn 72 (map byte_of_N Sample.long_b))
        with (firstn 72 (map byte_of_N Sample.long_a)).
      now rewrite bytes_eqb_refl.
  - intros raw w. now apply hash_password_unencodable.
Qed.

(** ** What [verify_password] can do *)

Lemma hashpw_outcomes raw (password salt : bytes) :
  (exists h, bcrypt.hashpw raw password salt = Return h) \/
  bcrypt.hashpw raw password salt = Raise (ValueError "Invalid salt").
Proof.
  unfold bcrypt.hashpw, bcrypt.invalid_salt.
  repeat match goal with
         | |- context [match ?x with _ => _ end] => destruct x
         end; eauto.
Qed.

(** C5 (amended).  [verify_password] leaves the world as it is and either
    returns a boolean, or raises [ValueError("Invalid salt")], or raises
    [UnicodeEncodeError].  It returns a boolean whenever the password is
    UTF-8-encodable and the hash is a preamble as bcrypt writes it (['$'],
    one of the four versions, ['$'], the cost in two digits, between 04
    and 31, ['$'], the 22 characters that encode a salt of 16 octets)
    followed by any ASCII text without ['$']: true exactly when that text
    is the encoded digest of the password, false on any mismatch. *)
Theorem verify_password_outcomes
  (raw : N -> bytes -> bytes -> bytes) (w : World) (password hashed : str) :
  (exists r,
      verify_password raw password hashed w = (r, w) /\
      ((exists b, r = Return b) \/
       r = Raise (ValueError "Invalid salt") \/
       r = Raise UnicodeEncodeError)) /\
  (forall k v cost raw_salt tail,
      str_encode password = Return k ->
      str_encode hashed = Return (bcrypt.preamble v cost raw_salt ++ tail) ->
      List.length raw_salt = 16%nat ->
      (4 <= cost <= 31)%N ->
      forallb bcrypt.plain tail = true ->
      verify_password raw password hashed w
      = (Return (bytes_eqb
                   (bcrypt.b64_encode
                      (bcrypt.digest raw cost raw_salt (firstn 72 k)))
                   tail), w)).
Proof.
  split.
  - unfold verify_password, bind, lift, str_encode.
    destruct (utf8_encode password) as [k|]; [|eauto].
    destruct (utf8_encode hashed) as [h|]; [|eauto].
    unfold bcrypt.checkpw.
    destruct (hashpw_outcomes raw k h) as [[x ->] | ->]; eauto.
  - intros k v cost raw_salt tail Hk Hh Hlen Hcost Htail.
    erewrite verify_password_encoded; [| eassumption | eassumption].
    now rewrite checkpw_preamble.
Qed.

Lemma verify_password_outcomes_witness :
  verify_password Sample.raw Sample.secret
    (lit "$2b$12$..CA.uOD/eaGAOmJB.yMBuZ1r8dlDteAvyc139aOuKBO2NC/CQCvO")
    Sample.fresh = (Return true, Sample.fresh) /\
  verify_password Sample.raw Sample.secret
    (lit "$2b$12$..CA.uOD/eaGAOmJB.yMBu")
    Sample.fresh = (Return false, Sample.fresh).
Proof.
  split.
  - refine (proj2 (verify_password_outcomes Sample.raw Sample.fresh
                     Sample.secret
                     (lit "$2b$12$..CA.uOD/eaGAOmJB.yMBuZ1r8dlDteAvyc139aOuKBO2NC/CQCvO"))
              (blit "correct horse") bcrypt.TwoB 12%N
              (drawn_salt Sample.fresh)
              (blit "Z1r8dlDteAvyc139aOuKBO2NC/CQCvO") _ _ _ _ _);
      try reflexivity.
    split; intro H; discriminate H.
  - refine (proj2 (verify_password_outcomes Sample.raw Sample.fresh
                     Sample.secret (lit "$2b$12$..CA.uOD/eaGAOmJB.yMBu"))
              (blit "correct horse") bcrypt.TwoB 12%N
              (drawn_salt Sample.fresh) [] _ _ _ _ _);
      try reflexivity.
    split; intro H; discriminate H.
Defined.

(** C5 (as stated) fails: the empty string is no bcrypt hash, and
    verifying an encodable password against it raises instead of returning
    false. *)
Lemma verify_password_raises :
  str_encode (lit "x") = Return (blit "x") /\
  str_encode [] = Return [] /\
  (forall raw w,
      verify_password raw (lit "x") [] w
      = (Raise (ValueError "Invalid salt"), w)).
Proof. repeat split. Qed.


(** ** The store: looking rows up *)

Lemma has_id_true (i : Z) (o : option Z) :
  Db.has_id i o = true <-> o = Some i.
Proof.
  destruct o as [j|]; simpl; [|split; discriminate].
  rewrite Z.eqb_eq. split; [now intros -> | now intros [= ->]].
Qed.

Lemma has_text_true (s : str) (o : option str) :
  Db.has_text s o = true <-> o = Some s.
Proof.
  destruct o as [t|]; simpl; [|split; discriminate].
  rewrite str_eqb_eq. split; [now intros -> | now intros [= ->]].
Qed.

Lemma existsb_false (A : Type) (p : A -> bool) (l : list A) :
  existsb p l = false <-> forall x, In x l -> p x = false.
Proof.
  induction l as [|y l IH]; simpl; [tauto|].
  rewrite orb_false_iff, IH. firstorder (subst; auto).
Qed.

Lemma filter_nil (A : Type) (p : A -> bool) (l : list A) :
  (forall x, In x l -> p x = false) -> filter p l = [].
Proof.
  induction l as [|y l IH]; simpl; [reflexivity|]. intros H.
  rewrite (H y) by auto. apply IH. auto.
Qed.

Lemma find_fresh (A : Type) (p : A -> bool) (l : list A) (x : A) :
  existsb p l = false -> p x = true -> find p (l ++ [x]) = Some x.
Proof.
  induction l as [|y l IH]; simpl; intros Hl Hx.
  - now rewrite Hx.
  - apply orb_false_iff in Hl as [Hy Hl]. rewrite Hy. auto.
Qed.

(** A sequence that has passed every key hands out a fresh one. *)
Lemma keyed_below_fresh (A : Type) (id : A -> option Z) (seq : Z)
  (rows : list A) :
  Db.keyed_below id seq rows ->
  existsb (fun r => Db.has_id seq (id r)) rows = false.
Proof.
  intros H. apply existsb_false. intros r Hr.
  destruct (H r Hr) as (i & -> & Hi). simpl. apply Z.eqb_neq. lia.
Qed.

(** ** Queries *)

Lemma get_article_run (id : Z) (w : World) :
  get_article id w
  = if db_up w
    then if Db.int32 id
         then (Db.scalar_one_or_none
                 (filter (fun a => Db.has_id id (Article.id a))
                    (Db.articles (store w))), w)
         else (Raise DBAPIError, w)
    else (Raise ConnectionRefusedError, w).
Proof.
  unfold get_article, bind, execute_select, lift.
  cbn [forallb Db.sendable]. rewrite andb_true_r.
  destruct (db_up w), (Db.int32 id); reflexivity.
Qed.

(** C7.  While the database is reachable, [get_article] with an id that
    no stored article carries returns [None]: no exception, and the world
    is left as it was.  The id is one of GraphQL's [Int], a 32-bit
    integer: the schema lets no other through to the resolver. *)
Theorem get_article_missing (id : Z) (w : World) :
  db_up w = true ->
  Db.int32 id = true ->
  (forall a, In a (Db.articles (store w)) -> Article.id a <> Some id) ->
  get_article id w = (Return None, w).
Proof.
  intros Hup Hid Hmiss.
  rewrite get_article_run, Hup, Hid, filter_nil; [reflexivity|].
  intros a Ha. destruct (Db.has_id id (Article.id a)) eqn:E; [|reflexivity].
  apply has_id_true in E. now apply Hmiss in Ha.
Qed.

Lemma get_article_missing_witness :
  get_article 7 Sample.populated = (Return None, Sample.populated).
Proof.
  apply get_article_missing; [reflexivity | reflexivity |].
  intros a Ha. destruct Ha.
Defined.

(** C8.  [GET /health] answers 200 with [{"status": "OK"}] in every world,
    reachable database or not, and leaves the world untouched: the handler
    reads nothing and calls nothing. *)
Theorem health_always_ok (request : Request) (w : World) :
  GET_health request w
  = (mkResponse 200 (VDict [(lit "status", VStr (lit "OK"))]), w).
Proof.
  unfold GET_health, serve, health_check, ret. cbn [respond]. reflexivity.
Qed.

(** With the database out of reach a query fails, the health route does
    not. *)
Lemma database_down_health_up :
  fst (get_article 1 Sample.unreachable) = Raise ConnectionRefusedError /\
  status_code (fst (GET_health (mkRequest None) Sample.unreachable)) = 200%Z.
Proof. split; reflexivity. Qed.

(** ** Mutations: one object added, committed, refreshed *)

Lemma graphql_run (A : Type) (resolver : M A) (w : World) :
  graphql resolver w = resolver (with_session Db.new_session w).
Proof. reflexivity. Qed.

(** The four statements every mutation ends with, run in a session that
    holds nothing yet. *)
Lemma persist_run (A : Type) (e : Db.Entity) (k : Db.Entity -> M A)
  (w : World) :
  (h <- add e ;; commit ;; refresh h ;; obj <- deref h ;; k obj)
    (with_session Db.new_session w)
  = if db_up w then
      match Db.insert e (store w) with
      | (s1, Return e1) =>
          match Db.reload e1 s1 with
          | Some e2 =>
              k e2 (with_session (Db.mkSession [e2] []) (with_store s1 w))
          | None =>
              (Raise InvalidRequestError,
               with_session (Db.mkSession [e1] []) (with_store s1 w))
          end
      | (s1, Raise err) =>
          (Raise err,
           with_store (Db.rolled_back (store w) s1)
             (with_session (Db.mkSession [e] [0%nat]) w))
      end
    else (Raise ConnectionRefusedError,
          with_session (Db.mkSession [e] [0%nat]) w).
Proof.
  unfold bind, add, commit, refresh, deref. cbn.
  destruct (db_up w) eqn:Hup; [|reflexivity].
  destruct (Db.insert e (store w)) as [s1 [e1|err]]; cbn; [|reflexivity].
  rewrite Hup. destruct (Db.reload e1 s1) as [e2|]; reflexivity.
Qed.

Section Mutations.

Variable raw : N -> bytes -> bytes -> bytes.
Variable pyfloat : Type.
Variable repr : pyfloat -> str.
Variable embed : str -> list pyfloat.

Lemma create_article_run (title content : str) (cid : Z) (w : World) :
  let s := store w in
  let row := new_article repr embed s title content cid in
  exists w',
    graphql (create_article repr embed title content cid) w
    = (if db_up w
       then if Db.article_typed row
            then if article_refused s cid then Raise IntegrityError
                 else Return row
            else Raise DBAPIError
       else Raise ConnectionRefusedError, w') /\
    Db.users (store w') = Db.users s /\
    Db.categories (store w') = Db.categories s /\
    Db.articles (store w')
    = if db_up w && Db.article_typed row && negb (article_refused s cid)
      then Db.articles s ++ [row] else Db.articles s.
Proof.
  intros s row. rewrite graphql_run. unfold create_article.
  rewrite persist_run. unfold article_refused.
  destruct (db_up w); [|eexists; repeat split].
  cbn -[json_dumps Z.add Db.article_typed]. fold s.
  change (Db.article_typed _) with (Db.article_typed row).
  destruct (Db.article_typed row);
    cbn -[json_dumps Z.add Db.article_typed]; [|eexists; repeat split].
  destruct (existsb _ (Db.articles s)) eqn:Hpk;
    cbn -[json_dumps Z.add Db.article_typed]; [eexists; repeat split|].
  destruct (existsb (fun r => Db.has_id cid _) _);
    cbn -[json_dumps Z.add Db.article_typed]; [|eexists; repeat split].
  rewrite find_fresh; [| exact Hpk | cbn; apply Z.eqb_refl].
  eexists; repeat split.
Qed.

Lemma create_category_run (name : str) (w : World) :
  let s := store w in
  let row := new_category s name in
  exists w',
    graphql (create_category name) w
    = (if db_up w
       then if Db.category_typed row
            then if category_refused s name then Raise IntegrityError
                 else Return row
            else Raise DBAPIError
       else Raise ConnectionRefusedError, w') /\
    Db.users (store w') = Db.users s /\
    Db.articles (store w') = Db.articles s /\
    Db.categories (store w')
    = if db_up w && Db.category_typed row && negb (category_refused s name)
      then Db.categories s ++ [row] else Db.categories s.
Proof.
  intros s row. rewrite graphql_run. unfold create_category.
  rewrite persist_run. unfold category_refused.
  destruct (db_up w); [|eexists; repeat split].
  cbn -[Z.add Db.category_typed]. fold s.
  change (Db.category_typed _) with (Db.category_typed row).
  destruct (Db.category_typed row); cbn -[Z.add Db.category_typed];
    [|eexists; repeat split].
  destruct (existsb _ (Db.categories s)) eqn:Hpk;
    cbn -[Z.add Db.category_typed]; [eexists; repeat split|].
  destruct (existsb (fun r => Db.has_text name _) _);
    cbn -[Z.add Db.category_typed]; [eexists; repeat split|].
  rewrite find_fresh; [| exact Hpk | cbn; apply Z.eqb_refl].
  eexists; repeat split.
Qed.

Lemma register_user_run (username password : str) (w : World) :
  let s := store w in
  exists w',
    graphql (register_user raw username password) w
    = (match utf8_encode password with
       | None => Raise UnicodeEncodeError
       | Some k =>
           if db_up w
           then if Db.user_typed (new_user raw w username k)
                then if user_refused s username then Raise IntegrityError
                     else Return (new_user raw w username k)
                else Raise DBAPIError
           else Raise ConnectionRefusedError
       end, w') /\
    Db.categories (store w') = Db.categories s /\
    Db.articles (store w') = Db.articles s /\
    Db.users (store w')
    = match utf8_encode password with
      | Some k =>
          if db_up w && Db.user_typed (new_user raw w username k)
             && negb (user_refused s username)
          then Db.users s ++ [new_user raw w username k] else Db.users s
      | None => Db.users s
      end.
Proof.
  intros s. rewrite graphql_run. unfold register_user.
  unfold bind at 1.
  destruct (utf8_encode password) as [k|] eqn:Hk.
  - rewrite hash_password_encoded with (k := k)
      by (unfold str_encode; now rewrite Hk).
    change (snd (getrandom 16 (with_session Db.new_session w)))
      with (with_session Db.new_session (snd (getrandom 16 w))).
    rewrite persist_run. unfold user_refused, new_user.
    change (built_hash raw (with_session Db.new_session w) k)
      with (built_hash raw w k).
    cbn [getrandom snd db_up store].
    destruct (db_up w); [|eexists; repeat split].
    cbn -[Z.add built_hash Db.user_typed]. fold s.
    change (Db.user_typed _)
      with (Db.user_typed (new_user raw w username k)).
    destruct (Db.user_typed _); cbn -[Z.add built_hash Db.user_typed];
      [|eexists; repeat split].
    destruct (existsb _ (Db.users s)) eqn:Hpk;
      cbn -[Z.add built_hash Db.user_typed]; [eexists; repeat split|].
    destruct (existsb (fun r => Db.has_text username _) _);
      cbn -[Z.add built_hash Db.user_typed]; [eexists; repeat split|].
    rewrite find_fresh; [| exact Hpk | cbn; apply Z.eqb_refl].
    eexists; repeat split.
  - rewrite hash_password_unencodable by assumption.
    eexists; repeat split.
Qed.

End Mutations.


(** C10.  Whatever the username and the password, a user that
    [register_user] returns has role ["user"] (the column default: the
    mutation sets no role and takes none), carries the username given, and
    is the row now stored. *)
Theorem registered_user_has_default_role
  (raw : N -> bytes -> bytes -> bytes) (w : World) (username password : str)
  (u : User.t) :
  fst (graphql (register_user raw username password) w) = Return u ->
  User.role u = Some (lit "user") /\
  User.username u = Some username /\
  In u (Db.users (store (snd (graphql (register_user raw username password)
                                w)))).
Proof.
  destruct (register_user_run raw username password w)
    as (w' & Hrun & _ & _ & Husers).
  rewrite Hrun. cbn [fst snd]. rewrite Husers.
  destruct (utf8_encode password) as [k|]; [|discriminate].
  destruct (db_up w); [|discriminate].
  destruct (Db.user_typed _); [|discriminate].
  destruct (user_refused (store w) username); [discriminate|].
  intros [= <-]. cbn [andb negb]. repeat split.
  apply in_or_app. right. now left.
Qed.

Lemma registered_user_has_default_role_witness :
  User.role Sample.alice_row = Some (lit "user") /\
  User.username Sample.alice_row = Some Sample.alice /\
  In Sample.alice_row
    (Db.users (store (snd (graphql (register_user Sample.raw Sample.alice
                                      Sample.secret) Sample.fresh)))).
Proof.
  apply (registered_user_has_default_role Sample.raw Sample.fresh
           Sample.alice Sample.secret).
  vm_compute. reflexivity.
Defined.

(** The sample database is what the two mutations leave behind. *)
Lemma populated_reached :
  store (snd (graphql (create_category (lit "news"))
                (snd (graphql (register_user Sample.raw Sample.alice
                                 Sample.secret) Sample.fresh))))
  = store Sample.populated.
Proof. vm_compute. reflexivity. Qed.

Section Articles.

Variable pyfloat : Type.
Variable repr : pyfloat -> str.
Variable embed : str -> list pyfloat.

(** What a successful [create_article] returns and stores. *)
Lemma create_article_returned (title content : str) (cid : Z) (w : World)
  (a : Article.t) :
  fst (graphql (create_article repr embed title content cid) w) = Return a ->
  a = new_article repr embed (store w) title content cid /\
  In a (Db.articles
          (store (snd (graphql (create_article repr embed title content cid)
                         w)))).
Proof.
  destruct (create_article_run repr embed title content cid w)
    as (w' & Hrun & _ & _ & Harticles).
  rewrite Hrun. cbn [fst snd]. rewrite Harticles.
  destruct (db_up w); [|discriminate].
  destruct (Db.article_typed _); [|discriminate].
  destruct (article_refused (store w) cid); [discriminate|].
  intros [= <-]. split; [reflexivity|].
  cbn [andb negb]. apply in_or_app. right. now left.
Qed.

(** C9.  The vector stored with an article is computed from the content
    alone: two successful [create_article] calls with the same content, in
    any two worlds and with any titles and category ids, return and store
    the same vector, the serialised embedding of the content. *)
Theorem vector_depends_on_content_only
  (w1 w2 : World) (title1 title2 content : str) (cid1 cid2 : Z)
  (a1 a2 : Article.t) :
  fst (graphql (create_article repr embed title1 content cid1) w1)
  = Return a1 ->
  fst (graphql (create_article repr embed title2 content cid2) w2)
  = Return a2 ->
  Article.vector a1 = Article.vector a2 /\
  Article.vector a1 = Some (json_dumps repr (embed content)) /\
  In a1 (Db.articles
           (store (snd (graphql (create_article repr embed title1 content
                                   cid1) w1)))) /\
  In a2 (Db.articles
           (store (snd (graphql (create_article repr embed title2 content
                                   cid2) w2)))).
Proof.
  intros H1 H2.
  destruct (create_article_returned _ _ _ _ H1) as [-> In1].
  destruct (create_article_returned _ _ _ _ H2) as [-> In2].
  repeat split; assumption.
Qed.

(** The row [create_article] builds is of its columns' types when the
    sequence has a value left, the title, the content and the serialised
    vector are text the database stores, and the category id is a 4-byte
    integer. *)
Lemma new_article_typed (s : Db.Store) (title content : str) (cid : Z) :
  Db.article_typed (new_article repr embed s title content cid)
  = Db.int32 (Db.articles_id_seq s) && Db.text_ok title
    && Db.text_ok content && Db.text_ok (json_dumps repr (embed content))
    && Db.int32 cid.
Proof.
  unfold Db.article_typed, new_article.
  cbn [Article.id Article.title Article.content Article.vector
         Article.search_text Article.category_id Db.int_col Db.text_col].
  now rewrite andb_true_r.
Qed.



End Articles.


(** ** The schema's constraints are an invariant of the store *)

Section Constraints.

Variable A : Type.
Variable id : A -> option Z.
Variable key : A -> option str.

Lemma keyed_below_mono (seq seq' : Z) (rows : list A) :
  (seq <= seq')%Z -> Db.keyed_below id seq rows ->
  Db.keyed_below id seq' rows.
Proof.
  intros Hle H r Hr. destruct (H r Hr) as (i & Hi & Hlt).
  exists i. split; [assumption | lia].
Qed.

Lemma keyed_below_snoc (seq : Z) (rows : list A) (r : A) :
  Db.keyed_below id seq rows -> id r = Some seq ->
  Db.keyed_below id (seq + 1) (rows ++ [r]).
Proof.
  intros H Hr x Hx. apply in_app_or in Hx as [Hx | [<- | []]].
  - destruct (H x Hx) as (i & Hi & Hlt). exists i. split; [assumption|lia].
  - exists seq. split; [assumption | lia].
Qed.

Lemma pk_snoc (seq : Z) (rows : list A) (r : A) :
  Db.keyed_below id seq rows -> NoDup (map id rows) -> id r = Some seq ->
  NoDup (map id (rows ++ [r])).
Proof.
  intros H Hnd Hr. rewrite map_app. cbn [map].
  apply NoDup_app; [assumption | repeat constructor; intros [] |].
  intros o Ho [<- | []]. apply in_map_iff in Ho as (x & Hx & Hin).
  destruct (H x Hin) as (i & Hi & Hlt). rewrite Hx, Hr in Hi.
  injection Hi as ->. lia.
Qed.

Lemma clashes_sym (a b : option str) : Db.clashes a b = Db.clashes b a.
Proof.
  destruct a as [s|], b as [t|]; cbn; try reflexivity.
  apply eq_true_iff_eq. rewrite !str_eqb_eq. split; congruence.
Qed.

Lemma distinct_snoc (rows : list A) (r : A) :
  Db.distinct key rows ->
  existsb (fun r0 => Db.clashes (key r) (key r0)) rows = false ->
  Db.distinct key (rows ++ [r]).
Proof.
  induction rows as [|x rows IH]; cbn [Db.distinct existsb app].
  - intros _ _. split; [intros r' [] | exact I].
  - intros [Hx Hrows] Hnew. apply orb_false_iff in Hnew as [Hrx Hnew].
    split; [|auto]. intros r' Hr'.
    apply in_app_or in Hr' as [Hr' | [<- | []]]; [auto|].
    now rewrite clashes_sym.
Qed.

End Constraints.

Lemma empty_wf : Db.wf Db.empty.
Proof.
  constructor; cbn; try (intros r []); try constructor; exact I.
Qed.

(** A category stays referenced when categories are added. *)
Lemma references_more (cats more : list Category.t) (a : Article.t) :
  Db.references cats a = true -> Db.references (cats ++ more) a = true.
Proof.
  unfold Db.references. destruct (Article.category_id a) as [c|]; [|easy].
  rewrite existsb_app. now intros ->.
Qed.

Lemma typed_snoc (A : Type) (typed : A -> bool) (rows : list A) (r : A) :
  (forall x, In x rows -> typed x = true) -> typed r = true ->
  forall x, In x (rows ++ [r]) -> typed x = true.
Proof.
  intros H Hr x Hx. apply in_app_or in Hx as [Hx | [<- | []]]; auto.
Qed.

(** An INSERT of an object without primary key keeps the constraints,
    whether it succeeds or is refused and rolled back. *)
Lemma insert_wf (e : Db.Entity) (s : Db.Store) :
  Db.wf s ->
  match e with
  | Db.EUser u => User.id u = None
  | Db.ECategory c => Category.id c = None
  | Db.EArticle a => Article.id a = None
  end ->
  Db.wf (fst (Db.insert e s)) /\
  Db.wf (Db.rolled_back s (fst (Db.insert e s))).
Proof.
  intros [Uk Ck Ak Up Cp Ap Un Cn Ut Ct At Afk] Hid.
  destruct e as [u | c | a]; cbn [Db.insert].
  - unfold Db.insert_user. rewrite Hid. cbn [Db.next_id].
    destruct (negb (Db.user_typed _)) eqn:Ht;
      [split; constructor; cbn; auto|].
    apply negb_false_iff in Ht.
    destruct (existsb (fun r => Db.has_id _ _) _) eqn:Hpk; cbn [orb].
    + split; constructor; cbn; auto;
        apply keyed_below_mono with (seq := Db.users_id_seq s); auto; lia.
    + destruct (existsb (fun r => Db.clashes _ _) _) eqn:Hun.
      * split; constructor; cbn; auto;
          apply keyed_below_mono with (seq := Db.users_id_seq s); auto; lia.
      * split; constructor; cbn; auto.
        -- now apply keyed_below_snoc.
        -- now apply pk_snoc with (seq := Db.users_id_seq s).
        -- now apply distinct_snoc.
        -- now apply typed_snoc.
        -- apply keyed_below_mono with (seq := Db.users_id_seq s); auto; lia.
  - unfold Db.insert_category. rewrite Hid. cbn [Db.next_id].
    destruct (negb (Db.category_typed _)) eqn:Ht;
      [split; constructor; cbn; auto|].
    apply negb_false_iff in Ht.
    destruct (existsb (fun r => Db.has_id _ _) _) eqn:Hpk; cbn [orb].
    + split; constructor; cbn; auto;
        apply keyed_below_mono with (seq := Db.categories_id_seq s);
        auto; lia.
    + destruct (existsb (fun r => Db.clashes _ _) _) eqn:Hun.
      * split; constructor; cbn; auto;
          apply keyed_below_mono with (seq := Db.categories_id_seq s);
          auto; lia.
      * split; constructor; cbn; auto.
        -- now apply keyed_below_snoc.
        -- now apply pk_snoc with (seq := Db.categories_id_seq s).
        -- now apply distinct_snoc.
        -- now apply typed_snoc.
        -- intros x Hx. now apply references_more, Afk.
        -- apply keyed_below_mono with (seq := Db.categories_id_seq s);
             auto; lia.
  - unfold Db.insert_article. rewrite Hid. cbn [Db.next_id].
    destruct (negb (Db.article_typed _)) eqn:Ht;
      [split; constructor; cbn; auto|].
    apply negb_false_iff in Ht.
    destruct (_ || _)%bool eqn:Hpk.
    + split; constructor; cbn; auto;
        apply keyed_below_mono with (seq := Db.articles_id_seq s); auto; lia.
    + apply orb_false_iff in Hpk as [Hpk Hfk].
      split; constructor; cbn; auto.
      * now apply keyed_below_snoc.
      * now apply pk_snoc with (seq := Db.articles_id_seq s).
      * now apply typed_snoc.
      * apply typed_snoc; [assumption|].
        unfold Db.references. cbn [Article.category_id].
        destruct (Article.category_id a); [|reflexivity].
        now apply negb_false_iff in Hfk.
      * apply keyed_below_mono with (seq := Db.articles_id_seq s); auto; lia.
Qed.


Lemma persist_wf (A : Type) (e : Db.Entity) (k : Db.Entity -> M A)
  (w : World) :
  (forall obj w0, snd (k obj w0) = w0) ->
  match e with
  | Db.EUser u => User.id u = None
  | Db.ECategory c => Category.id c = None
  | Db.EArticle a => Article.id a = None
  end ->
  Db.wf (store w) ->
  Db.wf (store (snd ((h <- add e ;; commit ;; refresh h ;;
                      obj <- deref h ;; k obj)
                       (with_session Db.new_session w)))).
Proof.
  intros Hk Hid Hwf. rewrite persist_run.
  destruct (db_up w); [|assumption].
  destruct (insert_wf e Hwf Hid) as [Hin Hback].
  destruct (Db.insert e (store w)) as [s1 [e1|]]; cbn [fst] in *;
    [|assumption].
  destruct (Db.reload e1 s1); [rewrite Hk|]; assumption.
Qed.

(** Every mutation of the module leaves a store that satisfies the
    schema's constraints, if it found one. *)
Theorem mutations_keep_wf
  (raw : N -> bytes -> bytes -> bytes) (pyfloat : Type)
  (repr : pyfloat -> str) (embed : str -> list pyfloat) (w : World) :
  Db.wf (store w) ->
  (forall username password,
      Db.wf (store (snd (graphql (register_user raw username password) w))))
  /\ (forall name, Db.wf (store (snd (graphql (create_category name) w))))
  /\ (forall title content cid,
         Db.wf (store (snd (graphql (create_article repr embed title content
                                       cid) w)))).
Proof.
  intros Hwf. split; [|split].
  - intros username password. rewrite graphql_run.
    unfold register_user. unfold bind at 1.
    destruct (utf8_encode password) as [k|] eqn:Hk.
    + rewrite hash_password_encoded with (k := k)
        by (unfold str_encode; now rewrite Hk).
      change (snd (getrandom 16 (with_session Db.new_session w)))
        with (with_session Db.new_session (snd (getrandom 16 w))).
      apply persist_wf; [| reflexivity | assumption].
      intros [u | c | a] w0; reflexivity.
    + now rewrite hash_password_unencodable.
  - intros name. rewrite graphql_run. unfold create_category.
    apply persist_wf; [| reflexivity | assumption].
    intros [u | c | a] w0; reflexivity.
  - intros title content cid. rewrite graphql_run. unfold create_article.
    apply persist_wf; [| reflexivity | assumption].
    intros [u | c | a] w0; reflexivity.
Qed.

Lemma populated_wf : Db.wf (store Sample.populated).
Proof.
  constructor; cbn.
  - intros r [<- | []]. exists 1%Z. split; [reflexivity | lia].
  - intros r [<- | []]. exists 1%Z. split; [reflexivity | lia].
  - intros r [].
  - repeat constructor. intros [].
  - repeat constructor. intros [].
  - constructor.
  - split; [intros r' [] | exact I].
  - split; [intros r' [] | exact I].
  - intros r [<- | []]. reflexivity.
  - intros r [<- | []]. reflexivity.
  - intros r [].
  - intros r [].
Qed.

Lemma mutations_keep_wf_witness :
  Db.wf (store (snd (graphql (register_user Sample.raw (lit "bob")
                                (lit "hunter2")) Sample.populated))) /\
  Db.wf (store (snd (graphql (create_category (lit "news"))
                       Sample.populated))) /\
  Db.wf (store (snd (graphql (create_article Sample.repr Sample.embed
                                (lit "T") (lit "C") 1) Sample.populated))).
Proof.
  pose proof (mutations_keep_wf Sample.raw Sample.repr Sample.embed
                Sample.populated populated_wf) as (Hu & Hc & Ha).
  split; [apply Hu | split; [apply Hc | apply Ha]].
Defined.

Lemma vector_depends_on_content_only_witness :
  exists a1 a2,
    fst (graphql (create_article Sample.repr Sample.embed (lit "T")
                    (lit "C") 1) Sample.populated) = Return a1 /\
    fst (graphql (create_article Sample.repr Sample.embed (lit "U")
                    (lit "C") 1) Sample.populated) = Return a2 /\
    Article.title a1 <> Article.title a2 /\
    Article.vector a1 = Article.vector a2.
Proof.
  eexists. eexists.
  split; [vm_compute; reflexivity|].
  split; [vm_compute; reflexivity|].
  split; [discriminate|].
  refine (proj1 (vector_depends_on_content_only
                   Sample.repr Sample.embed Sample.populated Sample.populated
                   (lit "T") (lit "U") (lit "C") 1 1 _ _));
    vm_compute; reflexivity.
Defined.




(** ** Registering a username twice *)

Lemma taken_username_refused (s : Db.Store) (username : str) :
  (exists u, In u (Db.users s) /\ User.username u = Some username) ->
  user_refused s username = true.
Proof.
  intros (u & Hu & Hname). unfold user_refused.
  apply orb_true_iff. right. apply existsb_exists.
  exists u. split; [assumption|]. now apply has_text_true.
Qed.

(** The row [register_user] builds is of its columns' types when the
    sequence has a value left and the username is text the database
    stores: the hash and the default role always are. *)
Lemma new_user_typed (raw : N -> bytes -> bytes -> bytes) (w : World)
  (username : str) (k : bytes) :
  Db.user_typed (new_user raw w username k)
  = Db.int32 (Db.users_id_seq (store w)) && Db.text_ok username.
Proof.
  unfold Db.user_typed, new_user.
  cbn [User.id User.username User.password_hash User.role
         Db.int_col Db.text_col].
  unfold built_hash. rewrite format_hash_text_ok by lia.
  change (Db.text_ok (lit "user")) with true. now rewrite !andb_true_r.
Qed.

Lemma new_category_typed (s : Db.Store) (name : str) :
  Db.category_typed (new_category s name)
  = Db.int32 (Db.categories_id_seq s) && Db.text_ok name.
Proof. reflexivity. Qed.

(** What is stored is of its column's type. *)
Lemma stored_username (s : Db.Store) (u : User.t) (name : str) :
  Db.wf s -> In u (Db.users s) -> User.username u = Some name ->
  Db.text_ok name = true.
Proof.
  intros Hwf Hu Hname. pose proof (Db.users_typed Hwf u Hu) as H.
  unfold Db.user_typed in H. rewrite Hname in H.
  apply andb_true_iff in H as [H _]. apply andb_true_iff in H as [H _].
  now apply andb_true_iff in H as [_ H].
Qed.

Lemma stored_name (s : Db.Store) (c : Category.t) (name : str) :
  Db.wf s -> In c (Db.categories s) -> Category.name c = Some name ->
  Db.text_ok name = true.
Proof.
  intros Hwf Hc Hname. pose proof (Db.categories_typed Hwf c Hc) as H.
  unfold Db.category_typed in H. rewrite Hname in H.
  now apply andb_true_iff in H as [_ H].
Qed.

(** C4 (amended).  [register_user] with a username that a stored user
    already carries does not succeed: it raises, what it raises is no
    exception of the module's own ([raised_by_module] is false; the module
    has no conflict error) but the one a dependency raised, unhandled,
    and no table changes.  When the password cannot be encoded that is
    the [UnicodeEncodeError] of [password.encode()].  When it can, the
    database is reachable with its constraints in force and the user
    sequence has a value left, it is SQLAlchemy's [IntegrityError],
    raised by the commit. *)
Theorem register_taken_username_fails
  (raw : N -> bytes -> bytes -> bytes) (w : World) (username password : str) :
  (exists u, In u (Db.users (store w)) /\ User.username u = Some username) ->
  exists e,
    fst (graphql (register_user raw username password) w) = Raise e /\
    raised_by_module e = false /\
    (utf8_encode password = None -> e = UnicodeEncodeError) /\
    (utf8_encode password <> None -> db_up w = true -> Db.wf (store w) ->
     Db.int32 (Db.users_id_seq (store w)) = true -> e = IntegrityError) /\
    Db.users (store (snd (graphql (register_user raw username password) w)))
    = Db.users (store w) /\
    Db.categories
      (store (snd (graphql (register_user raw username password) w)))
    = Db.categories (store w) /\
    Db.articles
      (store (snd (graphql (register_user raw username password) w)))
    = Db.articles (store w).
Proof.
  intros Htaken.
  destruct (register_user_run raw username password w)
    as (w' & Hrun & Hcat & Hart & Husers).
  rewrite Hrun. cbn [fst snd]. rewrite Hcat, Hart, Husers.
  rewrite (taken_username_refused _ Htaken).
  destruct (utf8_encode password) as [k|].
  - cbn [negb]. rewrite andb_false_r. destruct (db_up w).
    + rewrite new_user_typed.
      destruct (Db.int32 _) eqn:Hseq; cbn [andb].
      * destruct (Db.text_ok username) eqn:Hname.
        -- exists IntegrityError. repeat split. discriminate.
        -- exists DBAPIError. repeat split; [discriminate|].
           intros _ _ Hwf _. destruct Htaken as (u & Hu & Hun).
           rewrite stored_username with (s := store w) (u := u) in Hname
             by assumption.
           discriminate.
      * exists DBAPIError. repeat split; discriminate.
    + exists ConnectionRefusedError. repeat split; discriminate.
  - exists UnicodeEncodeError. repeat split. intros H. now elim H.
Qed.

Lemma register_taken_username_fails_witness :
  exists e,
    fst (graphql (register_user Sample.raw Sample.alice (lit "other"))
           Sample.populated) = Raise e /\
    raised_by_module e = false /\
    (utf8_encode (lit "other") = None -> e = UnicodeEncodeError) /\
    (utf8_encode (lit "other") <> None ->
     db_up Sample.populated = true -> Db.wf (store Sample.populated) ->
     Db.int32 (Db.users_id_seq (store Sample.populated)) = true ->
     e = IntegrityError) /\
    Db.users
      (store (snd (graphql (register_user Sample.raw Sample.alice
                              (lit "other")) Sample.populated)))
    = Db.users (store Sample.populated) /\
    Db.categories
      (store (snd (graphql (register_user Sample.raw Sample.alice
                              (lit "other")) Sample.populated)))
    = Db.categories (store Sample.populated) /\
    Db.articles
      (store (snd (graphql (register_user Sample.raw Sample.alice
                              (lit "other")) Sample.populated)))
    = Db.articles (store Sample.populated).
Proof.
  apply register_taken_username_fails.
  exists Sample.alice_row. split; [left|]; reflexivity.
Defined.

(** C4 (as stated) fails: with ["alice"] registered, registering her again
    raises SQLAlchemy's [IntegrityError], whatever the key derivation; that
    is the store's exception passing through the resolver, not a conflict
    error of the application. *)
Lemma taken_username_raises_integrity_error :
  In Sample.alice_row (Db.users (store Sample.populated)) /\
  User.username Sample.alice_row = Some Sample.alice /\
  (forall raw,
      fst (graphql (register_user raw Sample.alice Sample.secret)
             Sample.populated) = Raise IntegrityError) /\
  raised_by_module IntegrityError = false.
Proof.
  split; [left; reflexivity|]. split; [reflexivity|].
  split; [|reflexivity]. intros raw.
  destruct (register_user_run raw Sample.alice Sample.secret
              Sample.populated) as (w' & -> & _).
  change (utf8_encode Sample.secret) with (Some (blit "correct horse")).
  cbn [fst db_up Sample.populated]. now rewrite new_user_typed.
Qed.


(** ** Bearer tokens *)

(** A header [Bearer <token>] passes the OAuth2 dependency. *)
Lemma oauth2_scheme_bearer (token : str) (w : World) :
  oauth2_scheme (mkRequest (Some (lit "Bearer " ++ token))) w
  = (Return token, w).
Proof. reflexivity. Qed.

Lemma oauth2_scheme_outcomes (request : Request) (w : World) :
  (exists token, oauth2_scheme request w = (Return token, w)) \/
  oauth2_scheme request w
  = (Raise (HTTPException 401 "Not authenticated"), w).
Proof.
  unfold oauth2_scheme. destruct (authorization request) as [header|].
  - destruct (partition 32 header) as [scheme param].
    destruct (_ && _)%bool; [left; now exists param | now right].
  - now right.
Qed.

(** Unique usernames: the query by username finds the one user. *)
Lemma filter_unique_username (users : list User.t) (u : User.t)
  (name : str) :
  Db.distinct User.username users ->
  In u users -> User.username u = Some name ->
  filter (fun r => Db.has_text name (User.username r)) users = [u].
Proof.
  induction users as [|x users IH]; cbn [Db.distinct In filter];
    [intros _ []|].
  intros [Hx Hrest] [-> | Hin] Hname.
  - rewrite (proj2 (has_text_true name _) Hname).
    rewrite filter_nil; [reflexivity|]. intros r Hr.
    specialize (Hx r Hr). now rewrite Hname in Hx.
  - destruct (Db.has_text name (User.username x)) eqn:E.
    + apply has_text_true in E. specialize (Hx u Hin).
      rewrite E, Hname in Hx. cbn in Hx. now rewrite str_eqb_refl in Hx.
    + now apply IH.
Qed.

Section Tokens.

Variable jwt_decode : Z -> str -> str -> list str -> result jwt.payload.


Lemma get_current_user_decoded (token : str) (w : World)
  (payload : jwt.payload) (name : str) :
  jwt_decode (clock w) token SECRET_KEY [ALGORITHM] = Return payload ->
  jwt.get (lit "sub") payload = Some (jwt.JStr name) ->
  db_up w = true ->
  get_current_user jwt_decode token w
  = (if Db.text_ok name
     then match filter (fun r => Db.has_text name (User.username r))
                  (Db.users (store w)) with
          | [] => Raise (HTTPException 401 "User not found")
          | [u] => Return u
          | _ => Raise MultipleResultsFound
          end
     else Raise DBAPIError, with_session Db.new_session w).
Proof.
  intros Hdec Hsub Hup.
  unfold get_current_user, try_except_PyJWTError, bind.
  rewrite Hdec, Hsub.
  unfold get_db_session, select_user_by, execute_select, lift, bind.
  cbn [db_up with_session store forallb Db.sendable]. rewrite Hup.
  rewrite andb_true_r. destruct (Db.text_ok name); [|reflexivity].
  destruct (filter _ (Db.users (store w))) as [|u [|u' rest]]; reflexivity.
Qed.

(** C3 (amended).  [GET /protected] answers 401 when the request carries
    no Authorization header or, more generally, no bearer token.  When it
    carries a bearer token that decodes to a subject no stored user has
    (database reachable), it answers 401 ["User not found"] if the
    subject is text the database accepts as a query argument, and 500 if
    it is not (it holds U+0000 or a lone surrogate): the query raises and
    the handler catches only [PyJWTError].  When the token decodes to the
    username of a stored user (database reachable and constraints in
    force), it answers 200 with a body that holds that user, username
    included. *)
Theorem protected_route_responses (request : Request) (w : World) :
  (authorization request = None ->
   status_code (fst (GET_protected jwt_decode request w)) = 401%Z) /\
  ((forall token, oauth2_scheme request w <> (Return token, w)) ->
   status_code (fst (GET_protected jwt_decode request w)) = 401%Z) /\
  (forall token payload name,
      oauth2_scheme request w = (Return token, w) ->
      jwt_decode (clock w) token SECRET_KEY [ALGORITHM] = Return payload ->
      jwt.get (lit "sub") payload = Some (jwt.JStr name) ->
      db_up w = true ->
      (forall u, In u (Db.users (store w)) ->
                 User.username u <> Some name) ->
      fst (GET_protected jwt_decode request w)
      = if Db.text_ok name
        then mkResponse 401
               (VDict [(lit "detail", VStr (lit "User not found"))])
        else mkResponse 500 (VStr (lit "Internal Server Error"))) /\
  (forall token payload name u,
      oauth2_scheme request w = (Return token, w) ->
      jwt_decode (clock w) token SECRET_KEY [ALGORITHM] = Return payload ->
      jwt.get (lit "sub") payload = Some (jwt.JStr name) ->
      db_up w = true ->
      Db.wf (store w) ->
      In u (Db.users (store w)) ->
      User.username u = Some name ->
      fst (GET_protected jwt_decode request w)
      = mkResponse 200
          (VDict [(lit "message", VStr (lit "You have access"));
                  (lit "user", VUser u)]) /\
      User.username u = Some name).
Proof.
  split; [|split; [|split]].
  - intros Hnone. unfold GET_protected, serve, bind, oauth2_scheme.
    now rewrite Hnone.
  - intros Hnot. unfold GET_protected, serve, bind.
    destruct (oauth2_scheme_outcomes request w) as [[token H] | ->];
      [now apply Hnot in H | reflexivity].
  - intros token payload name Hbearer Hdec Hsub Hup Hmiss.
    unfold GET_protected, serve, bind. rewrite Hbearer.
    erewrite get_current_user_decoded by eassumption.
    destruct (Db.text_ok name); [|reflexivity].
    rewrite filter_nil; [reflexivity|]. intros u Hu.
    destruct (Db.has_text name (User.username u)) eqn:E; [|reflexivity].
    apply has_text_true in E. now apply Hmiss in E.
  - intros token payload name u Hbearer Hdec Hsub Hup Hwf Hu Hname.
    split; [|assumption].
    unfold GET_protected, serve, bind. rewrite Hbearer.
    erewrite get_current_user_decoded by eassumption.
    rewrite stored_username with (s := store w) (u := u) by assumption.
    erewrite filter_unique_username;
      [| apply (Db.usernames_distinct Hwf) | eassumption | assumption].
    reflexivity.
Qed.

End Tokens.


(** ** The sample token library returns a subject unchanged *)

Lemma str_eqb_app (p a b : str) :
  str_eqb (p ++ a) (p ++ b) = str_eqb a b.
Proof.
  induction p as [|x p IH]; cbn; [reflexivity|].
  now rewrite N.eqb_refl, IH.
Qed.

Lemma firstn_skipn_tag (key rest : str) (a b c : N) :
  firstn (List.length key + 3) (key ++ a :: b :: c :: rest)
  = key ++ [a; b; c] /\
  skipn (List.length key + 3) (key ++ a :: b :: c :: rest) = rest.
Proof.
  induction key as [|x key [IH1 IH2]]; cbn; [split; reflexivity|].
  cbn in IH1, IH2. now rewrite IH1, IH2.
Qed.

Lemma sample_jwt_roundtrip :
  jwt_roundtrip_sub Sample.jwt_encode Sample.jwt_decode.
Proof.
  intros now name. exists (SECRET_KEY ++ lit ".s." ++ name).
  split; [reflexivity|]. unfold Sample.jwt_decode.
  destruct (firstn_skipn_tag SECRET_KEY name 46 115 46) as [H1 H2].
  change (46 :: 115 :: 46 :: name)%N with (lit ".s." ++ name) in H1, H2.
  change [46; 115; 46]%N with (lit ".s.") in H1.
  now rewrite H1, H2, str_eqb_refl.
Qed.

Lemma protected_route_responses_witness :
  status_code (fst (GET_protected Sample.jwt_decode (mkRequest None)
                      Sample.populated)) = 401%Z /\
  fst (GET_protected Sample.jwt_decode
         (mkRequest (Some (lit "Bearer your_secret_key.s.bob")))
         Sample.populated)
  = mkResponse 401 (VDict [(lit "detail", VStr (lit "User not found"))]) /\
  fst (GET_protected Sample.jwt_decode
         (mkRequest (Some (lit "Bearer your_secret_key.s.alice")))
         Sample.populated)
  = mkResponse 200
      (VDict [(lit "message", VStr (lit "You have access"));
              (lit "user", VUser Sample.alice_row)]).
Proof.
  split; [|split].
  - refine (proj1 (protected_route_responses Sample.jwt_decode
                     (mkRequest None) Sample.populated) _).
    reflexivity.
  - refine (proj1 (proj2 (proj2
              (protected_route_responses Sample.jwt_decode
                 (mkRequest (Some (lit "Bearer your_secret_key.s.bob")))
                 Sample.populated)))
              (lit "your_secret_key.s.bob")
              [(lit "sub", jwt.JStr (lit "bob"))] (lit "bob") _ _ _ _ _);
      try reflexivity.
    intros u [<- | []]. discriminate.
  - refine (proj1 (proj2 (proj2 (proj2
              (protected_route_responses Sample.jwt_decode
                 (mkRequest (Some (lit "Bearer your_secret_key.s.alice")))
                 Sample.populated)))
              (lit "your_secret_key.s.alice")
              [(lit "sub", jwt.JStr Sample.alice)] Sample.alice
              Sample.alice_row _ _ _ _ _ _ _));
      try reflexivity.
    + apply populated_wf.
    + left. reflexivity.
Defined.

(** C3 (as stated) fails.  A token that decodes to the subject ["\0"],
    which no stored user has, is not answered 401 (whatever the token
    library): the query for the user raises and the answer is 500.  The
    sample library has such a token. *)
Lemma unknown_subject_answered_500 :
  (forall u, In u (Db.users (store Sample.populated)) ->
             User.username u <> Some Sample.nul) /\
  (forall jwt_decode token,
      jwt_decode (clock Sample.populated) token SECRET_KEY [ALGORITHM]
      = Return [(lit "sub", jwt.JStr Sample.nul)] ->
      fst (GET_protected jwt_decode
             (mkRequest (Some (lit "Bearer " ++ token))) Sample.populated)
      = mkResponse 500 (VStr (lit "Internal Server Error"))) /\
  Sample.jwt_decode (clock Sample.populated)
    (SECRET_KEY ++ lit ".s." ++ Sample.nul) SECRET_KEY [ALGORITHM]
  = Return [(lit "sub", jwt.JStr Sample.nul)].
Proof.
  split; [intros u [<- | []]; discriminate|].
  split; [|reflexivity]. intros jwt_decode token Hdec.
  unfold GET_protected, serve, bind. rewrite oauth2_scheme_bearer.
  erewrite get_current_user_decoded;
    [| exact Hdec | reflexivity | reflexivity].
  reflexivity.
Qed.


(** ** PyJWT: segments and their encoding *)

Lemma url_enc6 (n : N) :
  (n < 64)%N ->
  Byte.eqb (PyJWT.translate (PyJWT.enc6 n)) "="%byte = false /\
  PyJWT.sextet (PyJWT.translate (PyJWT.enc6 n)) = Some n /\
  Byte.eqb (PyJWT.enc6 n) "."%byte = false /\
  ascii_octet (PyJWT.enc6 n) = true.
Proof.
  revert n. apply below_64. intros k Hk.
  do 64 (destruct k as [|k]; [repeat split|]). lia.
Qed.

(** Four characters of the alphabet are read as three octets. *)
Lemma a2b_quad (t1 t2 t3 t4 : byte) (v1 v2 v3 v4 : N) (l : bytes)
  (leftchar : N) (pads : nat) :
  Byte.eqb t1 "="%byte = false -> PyJWT.sextet t1 = Some v1 ->
  Byte.eqb t2 "="%byte = false -> PyJWT.sextet t2 = Some v2 ->
  Byte.eqb t3 "="%byte = false -> PyJWT.sextet t3 = Some v3 ->
  Byte.eqb t4 "="%byte = false -> PyJWT.sextet t4 = Some v4 ->
  PyJWT.a2b_base64 (t1 :: t2 :: t3 :: t4 :: l) 0 leftchar pads
  = option_map
      (fun tl => byte_of_N (v1 * 4 + v2 / 16)
                 :: byte_of_N ((v2 mod 16) * 16 + v3 / 4)
                 :: byte_of_N ((v3 mod 4) * 64 + v4) :: tl)
      (PyJWT.a2b_base64 l 0 0%N 0).
Proof.
  intros E1 S1 E2 S2 E3 S3 E4 S4. cbn [PyJWT.a2b_base64].
  rewrite E1, S1, E2, S2, E3, S3, E4, S4.
  destruct (PyJWT.a2b_base64 l 0 0%N 0); reflexivity.
Qed.

Lemma length_quad_mod (A : Type) (a b c d : A) (l : list A) :
  (List.length (a :: b :: c :: d :: l) mod 4 = List.length l mod 4)%nat.
Proof.
  cbn [List.length].
  replace (S (S (S (S (List.length l))))) with (List.length l + 1 * 4)%nat
    by lia.
  apply Nat.Div0.mod_add.
Qed.

Lemma a2b_tail2 (t1 t2 : byte) (v1 v2 : N) (leftchar : N) (pads : nat) :
  Byte.eqb t1 "="%byte = false -> PyJWT.sextet t1 = Some v1 ->
  Byte.eqb t2 "="%byte = false -> PyJWT.sextet t2 = Some v2 ->
  PyJWT.a2b_base64 [t1; t2; "="%byte; "="%byte] 0 leftchar pads
  = Some [byte_of_N (v1 * 4 + v2 / 16)].
Proof.
  intros E1 S1 E2 S2. cbn [PyJWT.a2b_base64].
  rewrite E1, S1, E2, S2. reflexivity.
Qed.

Lemma a2b_tail3 (t1 t2 t3 : byte) (v1 v2 v3 : N) (leftchar : N)
  (pads : nat) :
  Byte.eqb t1 "="%byte = false -> PyJWT.sextet t1 = Some v1 ->
  Byte.eqb t2 "="%byte = false -> PyJWT.sextet t2 = Some v2 ->
  Byte.eqb t3 "="%byte = false -> PyJWT.sextet t3 = Some v3 ->
  PyJWT.a2b_base64 [t1; t2; t3; "="%byte] 0 leftchar pads
  = Some [byte_of_N (v1 * 4 + v2 / 16);
          byte_of_N ((v2 mod 16) * 16 + v3 / 4)].
Proof.
  intros E1 S1 E2 S2 E3 S3. cbn [PyJWT.a2b_base64].
  rewrite E1, S1, E2, S2, E3, S3. reflexivity.
Qed.

Lemma base64url_roundtrip (l : bytes) :
  PyJWT.base64url_decode (PyJWT.base64url_encode l) = Some l.
Proof.
  induction l as [|a|a b|a b c l IH] using list_ind3.
  - reflexivity.
  - pose proof (to_N_lt a) as Ha.
    destruct (sextets_lt (a := Byte.to_N a) (b := 0) (c := 0))
      as (S1 & S2 & _); try lia.
    destruct (octets_back (a := Byte.to_N a) (b := 0) (c := 0))
      as (B1 & _); try lia.
    change (0 / 16)%N with 0%N in *. rewrite N.add_0_r in *.
    destruct (url_enc6 S1) as (E1 & X1 & _).
    destruct (url_enc6 S2) as (E2 & X2 & _).
    cbn [PyJWT.base64url_encode].
    match goal with
    | |- PyJWT.base64url_decode [?x; ?y] = _ =>
        change (PyJWT.a2b_base64
                  [PyJWT.translate x; PyJWT.translate y; "="%byte; "="%byte]
                  0 0%N 0 = Some [a])
    end.
    erewrite a2b_tail2 by eassumption.
    now rewrite B1, byte_of_to_N.
  - pose proof (to_N_lt a) as Ha. pose proof (to_N_lt b) as Hb.
    destruct (sextets_lt (a := Byte.to_N a) (b := Byte.to_N b) (c := 0))
      as (S1 & S2 & S3 & _); try lia.
    destruct (octets_back (a := Byte.to_N a) (b := Byte.to_N b) (c := 0))
      as (B1 & B2 & _); try lia.
    change (0 / 64)%N with 0%N in *. rewrite N.add_0_r in *.
    destruct (url_enc6 S1) as (E1 & X1 & _).
    destruct (url_enc6 S2) as (E2 & X2 & _).
    destruct (url_enc6 S3) as (E3 & X3 & _).
    cbn [PyJWT.base64url_encode].
    match goal with
    | |- PyJWT.base64url_decode [?x; ?y; ?z] = _ =>
        change (PyJWT.a2b_base64
                  [PyJWT.translate x; PyJWT.translate y; PyJWT.translate z;
                   "="%byte] 0 0%N 0 = Some [a; b])
    end.
    erewrite a2b_tail3 by eassumption.
    now rewrite B1, B2, !byte_of_to_N.
  - pose proof (to_N_lt a) as Ha. pose proof (to_N_lt b) as Hb.
    pose proof (to_N_lt c) as Hc.
    destruct (sextets_lt Ha Hb Hc) as (S1 & S2 & S3 & S4).
    destruct (octets_back Ha Hb Hc) as (B1 & B2 & B3).
    destruct (url_enc6 S1) as (E1 & X1 & _).
    destruct (url_enc6 S2) as (E2 & X2 & _).
    destruct (url_enc6 S3) as (E3 & X3 & _).
    destruct (url_enc6 S4) as (E4 & X4 & _).
    unfold PyJWT.base64url_decode in *.
    cbn [PyJWT.base64url_encode app]. rewrite length_quad_mod.
    destruct (_ =? 0)%nat; cbn [app map];
      (erewrite a2b_quad by eassumption);
      rewrite IH, B1, B2, B3, !byte_of_to_N; reflexivity.
Qed.

(** The text of a segment holds no dot and is ASCII. *)
Lemma base64url_encode_plain (l : bytes) :
  forallb (fun c => negb (Byte.eqb c "."%byte) && ascii_octet c)
    (PyJWT.base64url_encode l) = true.
Proof.
  induction l as [|a|a b|a b c l IH] using list_ind3.
  - reflexivity.
  - pose proof (to_N_lt a) as Ha.
    destruct (sextets_lt (a := Byte.to_N a) (b := 0) (c := 0))
      as (S1 & S2 & _); try lia.
    change (0 / 16)%N with 0%N in *. rewrite N.add_0_r in *.
    destruct (url_enc6 S1) as (_ & _ & D1 & A1).
    destruct (url_enc6 S2) as (_ & _ & D2 & A2).
    cbn [PyJWT.base64url_encode forallb]. now rewrite D1, A1, D2, A2.
  - pose proof (to_N_lt a) as Ha. pose proof (to_N_lt b) as Hb.
    destruct (sextets_lt (a := Byte.to_N a) (b := Byte.to_N b) (c := 0))
      as (S1 & S2 & S3 & _); try lia.
    change (0 / 64)%N with 0%N in *. rewrite N.add_0_r in *.
    destruct (url_enc6 S1) as (_ & _ & D1 & A1).
    destruct (url_enc6 S2) as (_ & _ & D2 & A2).
    destruct (url_enc6 S3) as (_ & _ & D3 & A3).
    cbn [PyJWT.base64url_encode forallb].
    now rewrite D1, A1, D2, A2, D3, A3.
  - pose proof (to_N_lt a) as Ha. pose proof (to_N_lt b) as Hb.
    pose proof (to_N_lt c) as Hc.
    destruct (sextets_lt Ha Hb Hc) as (S1 & S2 & S3 & S4).
    destruct (url_enc6 S1) as (_ & _ & D1 & A1).
    destruct (url_enc6 S2) as (_ & _ & D2 & A2).
    destruct (url_enc6 S3) as (_ & _ & D3 & A3).
    destruct (url_enc6 S4) as (_ & _ & D4 & A4).
    cbn [PyJWT.base64url_encode forallb app].
    now rewrite D1, A1, D2, A2, D3, A3, D4, A4.
Qed.

Lemma segment_ascii (l : bytes) :
  forallb ascii_octet (PyJWT.base64url_encode l) = true.
Proof.
  pose proof (base64url_encode_plain l) as H.
  induction (PyJWT.base64url_encode l) as [|c s IH]; [reflexivity|].
  cbn [forallb] in *. apply andb_true_iff in H as [Hc Hs].
  apply andb_true_iff in Hc as [_ Hc]. now rewrite Hc, IH.
Qed.

Lemma segment_dotless (l : bytes) :
  ~ In "."%byte (PyJWT.base64url_encode l).
Proof.
  pose proof (base64url_encode_plain l) as H.
  induction (PyJWT.base64url_encode l) as [|c s IH]; [easy|].
  cbn [forallb] in H. apply andb_true_iff in H as [Hc Hs].
  apply andb_true_iff in Hc as [Hc _]. apply negb_true_iff in Hc.
  intros [-> | Hin]; [discriminate Hc | now apply IH].
Qed.

(** Splitting at the first and at the last separator. *)
Lemma split1_first (sep : byte) (a b : bytes) :
  ~ In sep a -> PyJWT.split1 sep (a ++ sep :: b) = Some (a, b).
Proof.
  induction a as [|c a IH]; intros Ha; cbn [app PyJWT.split1].
  - assert (E : Byte.eqb sep sep = true) by now apply byte_eqb_eq.
    now rewrite E.
  - destruct (Byte.eqb c sep) eqn:E.
    + apply byte_eqb_eq in E. subst c. elim Ha. now left.
    + rewrite IH; [reflexivity|]. intros H. apply Ha. now right.
Qed.

Lemma split1_none (sep : byte) (l : bytes) :
  ~ In sep l -> PyJWT.split1 sep l = None.
Proof.
  induction l as [|c l IH]; intros Hl; cbn [PyJWT.split1]; [reflexivity|].
  destruct (Byte.eqb c sep) eqn:E.
  - apply byte_eqb_eq in E. subst c. elim Hl. now left.
  - rewrite IH; [reflexivity|]. intros H. apply Hl. now right.
Qed.


Lemma rsplit1_last (sep : byte) (a b : bytes) :
  ~ In sep b -> PyJWT.rsplit1 sep (a ++ sep :: b) = Some (a, b).
Proof.
  intros Hb. unfold PyJWT.rsplit1.
  rewrite rev_app_distr. cbn [rev]. rewrite <- app_assoc. cbn [app].
  rewrite split1_first by (now rewrite <- in_rev).
  now rewrite !rev_involutive.
Qed.

Lemma rsplit1_none (sep : byte) (l : bytes) :
  ~ In sep l -> PyJWT.rsplit1 sep l = None.
Proof.
  intros Hl. unfold PyJWT.rsplit1.
  now rewrite split1_none by (now rewrite <- in_rev).
Qed.


(** ** PyJWT: what [decode] does with a token that [encode] built *)

Section Issued.

Variable deps : PyJWT.Deps.

Lemma prepare_module_key (hash : string) :
  PyJWT.asymmetric deps (blit "your_secret_key") = false ->
  PyJWT.prepare_key (PyJWT.HMACAlgorithm deps hash) SECRET_KEY
  = Return (blit "your_secret_key").
Proof.
  intros Hkey. cbn [PyJWT.prepare_key PyJWT.HMACAlgorithm].
  change (str_encode SECRET_KEY)
    with (Return (A := bytes) (blit "your_secret_key")).
  cbv iota. now rewrite Hkey.
Qed.

(** [encode] under the module's key and algorithm: the signing input,
    a dot and the encoded HMAC of the signing input. *)
Lemma encode_run (claims : jwt.payload) :
  PyJWT.asymmetric deps (blit "your_secret_key") = false ->
  (jwt.get (lit "iss") claims = None \/
   exists s, jwt.get (lit "iss") claims = Some (jwt.JStr s)) ->
  PyJWT.encode deps claims SECRET_KEY ALGORITHM
  = Return (map Byte.to_N
              (PyJWT.signing_input_of deps claims ALGORITHM ++ blit "."
               ++ PyJWT.base64url_encode
                    (PyJWT.hmac_digest deps "sha256" (blit "your_secret_key")
                       (PyJWT.signing_input_of deps claims ALGORITHM)))).
Proof.
  intros Hkey Hiss. unfold PyJWT.encode.
  assert (E : match jwt.get (lit "iss") claims with
              | Some (jwt.JStr _) | None => True
              | Some _ => False
              end) by (destruct Hiss as [-> | (s & ->)]; exact I).
  destruct (jwt.get (lit "iss") claims) as [[]|]; try (now elim E);
    change (PyJWT.get_algorithm_by_name deps ALGORITHM)
      with (Some (PyJWT.HMACAlgorithm deps "sha256"));
    cbv beta iota; rewrite prepare_module_key by assumption;
    cbn [PyJWT.sign PyJWT.HMACAlgorithm];
    apply bytes_decode_ascii; unfold PyJWT.signing_input_of;
    rewrite !forallb_app, !segment_ascii; reflexivity.
Qed.

(** [decode] on a token whose first segment is the header [encode]
    writes: the other two segments are decoded, the signature is
    compared with the HMAC of the first two, and only then is the
    payload read and validated. *)
Lemma decode_run (now : Z) (token : str) (payload_segment crypto : bytes) :
  PyJWT.asymmetric deps (blit "your_secret_key") = false ->
  PyJWT.json_loads deps
    (PyJWT.json_dumps deps (jwt.JDict (PyJWT.header_of ALGORITHM)))
  = Return (jwt.JDict (PyJWT.header_of ALGORITHM)) ->
  str_encode token
  = Return (PyJWT.base64url_encode
              (PyJWT.json_dumps deps (jwt.JDict (PyJWT.header_of ALGORITHM)))
            ++ "."%byte :: payload_segment ++ "."%byte :: crypto) ->
  ~ In "."%byte crypto ->
  PyJWT.decode deps now token SECRET_KEY [ALGORITHM]
  = match PyJWT.base64url_decode payload_segment with
    | None => Raise (PyJWTError DecodeError)
    | Some payload_bytes =>
        match PyJWT.base64url_decode crypto with
        | None => Raise (PyJWTError DecodeError)
        | Some signature =>
            if bytes_eqb signature
                 (PyJWT.hmac_digest deps "sha256" (blit "your_secret_key")
                    (PyJWT.base64url_encode
                       (PyJWT.json_dumps deps
                          (jwt.JDict (PyJWT.header_of ALGORITHM)))
                     ++ "."%byte :: payload_segment))
            then
              match PyJWT.as_decode_error
                      (PyJWT.json_loads deps payload_bytes) with
              | Raise e => Raise e
              | Return (jwt.JDict claims) =>
                  match PyJWT.validate_claims deps now claims with
                  | Return _ => Return claims
                  | Raise e => Raise e
                  end
              | Return _ => Raise (PyJWTError DecodeError)
              end
            else Raise (PyJWTError InvalidSignatureError)
        end
    end.
Proof.
  intros Hkey Hheader Htok Hcrypto.
  unfold PyJWT.decode, PyJWT.load. rewrite Htok.
  set (hseg := PyJWT.base64url_encode _) in *.
  replace (hseg ++ "."%byte :: payload_segment ++ "."%byte :: crypto)
    with ((hseg ++ "."%byte :: payload_segment) ++ "."%byte :: crypto)
    by (now rewrite <- app_assoc).
  rewrite rsplit1_last by assumption.
  rewrite split1_first by apply segment_dotless.
  unfold hseg at 1. rewrite base64url_roundtrip, Hheader.
  cbn [PyJWT.as_decode_error].
  destruct (PyJWT.base64url_decode payload_segment) as [payload_bytes|];
    [|reflexivity].
  destruct (PyJWT.base64url_decode crypto) as [signature|]; [|reflexivity].
  change (jwt.get (lit "b64") (PyJWT.header_of ALGORITHM))
    with (@None jwt.json). cbv iota.
  unfold PyJWT.verify_signature.
  change (jwt.get (lit "alg") (PyJWT.header_of ALGORITHM))
    with (Some (jwt.JStr ALGORITHM)).
  cbv iota.
  change (str_eqb ALGORITHM [] || negb (existsb (str_eqb ALGORITHM)
                                          [ALGORITHM])) with false.
  cbv iota.
  change (PyJWT.get_algorithm_by_name deps ALGORITHM)
    with (Some (PyJWT.HMACAlgorithm deps "sha256")).
  cbv beta iota. rewrite prepare_module_key by assumption.
  cbn [PyJWT.verify PyJWT.HMACAlgorithm].
  destruct (bytes_eqb signature _); reflexivity.
Qed.

End Issued.

Section Recovered.

Variable deps : PyJWT.Deps.


(** What [encode] issues, [decode] reads back, if it validates. *)
Lemma decode_encode (claims : jwt.payload) (now : Z) :
  PyJWT.asymmetric deps (blit "your_secret_key") = false ->
  PyJWT.json_loads deps
    (PyJWT.json_dumps deps (jwt.JDict (PyJWT.header_of ALGORITHM)))
  = Return (jwt.JDict (PyJWT.header_of ALGORITHM)) ->
  (jwt.get (lit "iss") claims = None \/
   exists s, jwt.get (lit "iss") claims = Some (jwt.JStr s)) ->
  PyJWT.json_loads deps (PyJWT.json_dumps deps (jwt.JDict claims))
  = Return (jwt.JDict claims) ->
  exists token,
    PyJWT.encode deps claims SECRET_KEY ALGORITHM = Return token /\
    PyJWT.decode deps now token SECRET_KEY [ALGORITHM]
    = match PyJWT.validate_claims deps now claims with
      | Return _ => Return claims
      | Raise e => Raise e
      end.
Proof.
  intros Hkey Hheader Hiss Hclaims.
  eexists. split; [now apply encode_run|].
  unfold PyJWT.signing_input_of. change (blit ".") with ["."%byte].
  rewrite <- !app_assoc. cbn [app].
  erewrite decode_run with
    (payload_segment :=
       PyJWT.base64url_encode (PyJWT.json_dumps deps (jwt.JDict claims)));
    try assumption.
  - rewrite !base64url_roundtrip, bytes_eqb_refl, Hclaims. reflexivity.
  - apply str_encode_ascii.
    rewrite forallb_app. cbn [forallb]. rewrite forallb_app. cbn [forallb].
    rewrite !segment_ascii. reflexivity.
  - apply segment_dotless.
Qed.


End Recovered.



(** The law the login statements assume of the token library holds of
    PyJWT, for a key it accepts and a JSON codec that reads back the
    header and every payload that holds a subject only. *)
Lemma pyjwt_roundtrip_sub (deps : PyJWT.Deps) :
  PyJWT.asymmetric deps (blit "your_secret_key") = false ->
  PyJWT.json_loads deps
    (PyJWT.json_dumps deps (jwt.JDict (PyJWT.header_of ALGORITHM)))
  = Return (jwt.JDict (PyJWT.header_of ALGORITHM)) ->
  (forall name,
      PyJWT.json_loads deps
        (PyJWT.json_dumps deps (jwt.JDict [(lit "sub", jwt.JStr name)]))
      = Return (jwt.JDict [(lit "sub", jwt.JStr name)])) ->
  jwt_roundtrip_sub (PyJWT.encode deps) (PyJWT.decode deps).
Proof.
  intros Hkey Hheader Hsub now name.
  destruct (@decode_encode deps [(lit "sub", jwt.JStr name)] now Hkey Hheader
              (or_introl eq_refl) (Hsub name)) as (token & Henc & Hdec).
  exists token. split; assumption.
Qed.


(** ** From login to the protected route *)

Section Login.

Variable raw : N -> bytes -> bytes -> bytes.
Variable jwt_encode : jwt.payload -> str -> str -> result str.
Variable jwt_decode : Z -> str -> str -> list str -> result jwt.payload.

(** [login] for a stored user whose password hash [hash_password] built:
    the verdict of [verify_password] decides between a token and 401. *)
Lemma login_run (w w0 : World) (u : User.t) (name password : str)
  (k k0 : bytes) :
  db_up w = true ->
  Db.wf (store w) ->
  In u (Db.users (store w)) ->
  User.username u = Some name ->
  User.password_hash u = Some (map Byte.to_N (built_hash raw w0 k0)) ->
  str_encode password = Return k ->
  login raw jwt_encode
    [(lit "username", name); (lit "password", password)] w
  = (if bytes_eqb (bcrypt.digest raw 12 (drawn_salt w0) (firstn 72 k))
          (bcrypt.digest raw 12 (drawn_salt w0) (firstn 72 k0))
     then match jwt_encode [(lit "sub", jwt.JStr name)] SECRET_KEY ALGORITHM
          with
          | Return token =>
              Return (VDict [(lit "access_token", VStr token);
                             (lit "token_type", VStr (lit "bearer"))])
          | Raise e => Raise e
          end
     else Raise (HTTPException 401 "Invalid credentials"),
     with_session Db.new_session w).
Proof.
  intros Hup Hwf Hu Hname Hhash Hk.
  assert (E1 : getitem (lit "username")
                 [(lit "username", name); (lit "password", password)]
               = Return name) by reflexivity.
  assert (E2 : getitem (lit "password")
                 [(lit "username", name); (lit "password", password)]
               = Return password) by reflexivity.
  unfold login, get_db_session, bind, lift, execute_select.
  rewrite E1, E2. cbn [db_up with_session store forallb Db.sendable].
  rewrite Hup, andb_true_r.
  rewrite stored_username with (s := store w) (u := u) by assumption.
  erewrite filter_unique_username;
    [| apply (Db.usernames_distinct Hwf) | eassumption | assumption].
  cbn [Db.scalar_one_or_none]. rewrite Hhash, Hname.
  erewrite verify_built_hash by eassumption.
  destruct (bytes_eqb _ _); [|reflexivity].
  unfold create_access_token, lift.
  destruct (jwt_encode _ _ _); reflexivity.
Qed.

(** A stored user who logs in with the password the stored hash was built
    from gets 200 and a token, and that token opens [/protected] for that
    very user; a password whose digest differs gets 401. *)
Theorem login_token_opens_protected (w w0 : World) (u : User.t)
  (name password : str) (k : bytes) :
  jwt_roundtrip_sub jwt_encode jwt_decode ->
  db_up w = true ->
  Db.wf (store w) ->
  In u (Db.users (store w)) ->
  User.username u = Some name ->
  str_encode password = Return k ->
  User.password_hash u = Some (map Byte.to_N (built_hash raw w0 k)) ->
  (exists token,
      fst (POST_token raw jwt_encode
             [(lit "username", name); (lit "password", password)] w)
      = mkResponse 200
          (VDict [(lit "access_token", VStr token);
                  (lit "token_type", VStr (lit "bearer"))]) /\
      fst (GET_protected jwt_decode
             (mkRequest (Some (lit "Bearer " ++ token)))
             (snd (POST_token raw jwt_encode
                     [(lit "username", name); (lit "password", password)]
                     w)))
      = mkResponse 200
          (VDict [(lit "message", VStr (lit "You have access"));
                  (lit "user", VUser u)])) /\
  (forall other k',
      str_encode other = Return k' ->
      bcrypt.digest raw 12 (drawn_salt w0) (firstn 72 k')
      <> bcrypt.digest raw 12 (drawn_salt w0) (firstn 72 k) ->
      status_code
        (fst (POST_token raw jwt_encode
                [(lit "username", name); (lit "password", other)] w))
      = 401%Z).
Proof.
  intros Hlaw Hup Hwf Hu Hname Hk Hhash. split.
  - destruct (Hlaw (clock w) name) as (token & Henc & Hdec).
    exists token. unfold POST_token, serve.
    erewrite login_run by eassumption.
    rewrite bytes_eqb_refl, Henc. cbn [fst snd respond]. split; [reflexivity|].
    unfold GET_protected, serve, bind.
    rewrite oauth2_scheme_bearer.
    erewrite get_current_user_decoded;
      [| exact Hdec | reflexivity | exact Hup].
    cbn [store with_session].
    rewrite stored_username with (s := store w) (u := u) by assumption.
    erewrite filter_unique_username;
      [| apply (Db.usernames_distinct Hwf) | eassumption | assumption].
    reflexivity.
  - intros other k' Hk' Hdiff. unfold POST_token, serve.
    erewrite login_run by eassumption.
    destruct (bytes_eqb _ _) eqn:E; [|reflexivity].
    apply bytes_eqb_eq in E. contradiction.
Qed.

End Login.

Lemma login_token_opens_protected_witness :
  (exists token,
      fst (POST_token Sample.raw Sample.jwt_encode
             [(lit "username", Sample.alice); (lit "password", Sample.secret)]
             Sample.populated)
      = mkResponse 200
          (VDict [(lit "access_token", VStr token);
                  (lit "token_type", VStr (lit "bearer"))]) /\
      fst (GET_protected Sample.jwt_decode
             (mkRequest (Some (lit "Bearer " ++ token)))
             (snd (POST_token Sample.raw Sample.jwt_encode
                     [(lit "username", Sample.alice);
                      (lit "password", Sample.secret)] Sample.populated)))
      = mkResponse 200
          (VDict [(lit "message", VStr (lit "You have access"));
                  (lit "user", VUser Sample.alice_row)])) /\
  status_code
    (fst (POST_token Sample.raw Sample.jwt_encode
            [(lit "username", Sample.alice); (lit "password", lit "guess")]
            Sample.populated)) = 401%Z.
Proof.
  assert (H := @login_token_opens_protected Sample.raw Sample.jwt_encode
                 Sample.jwt_decode Sample.populated Sample.fresh
                 Sample.alice_row Sample.alice Sample.secret
                 (blit "correct horse") sample_jwt_roundtrip eq_refl
                 populated_wf (or_introl eq_refl) eq_refl eq_refl eq_refl).
  split; [exact (proj1 H)|].
  apply (proj2 H (lit "guess") (blit "guess") eq_refl).
  vm_compute. discriminate.
Defined.

(** ** Mutations are all or nothing *)

Lemma filter_all (A : Type) (l : list A) : filter (fun _ => true) l = l.
Proof. induction l as [|x l IH]; cbn; [reflexivity | now rewrite IH]. Qed.

(** The statements of a mutation neither lose nor restore the connection
    to the database. *)
Lemma persist_db_up (A : Type) (e : Db.Entity) (k : Db.Entity -> M A)
  (w : World) :
  (forall obj w0, snd (k obj w0) = w0) ->
  db_up (snd ((h <- add e ;; commit ;; refresh h ;; obj <- deref h ;; k obj)
                (with_session Db.new_session w)))
  = db_up w.
Proof.
  intros Hk. rewrite persist_run.
  destruct (db_up w) eqn:Hup; [|exact Hup].
  destruct (Db.insert e (store w)) as [s1 [e1|]]; [|exact Hup].
  destruct (Db.reload e1 s1); [rewrite Hk|]; exact Hup.
Qed.

Section Reach.

Variable raw : N -> bytes -> bytes -> bytes.
Variable pyfloat : Type.
Variable repr : pyfloat -> str.
Variable embed : str -> list pyfloat.

Lemma register_user_db_up (username password : str) (w : World) :
  db_up (snd (graphql (register_user raw username password) w)) = db_up w.
Proof.
  rewrite graphql_run. unfold register_user. unfold bind at 1.
  destruct (utf8_encode password) as [k|] eqn:Hk.
  - rewrite hash_password_encoded with (k := k)
      by (unfold str_encode; now rewrite Hk).
    change (snd (getrandom 16 (with_session Db.new_session w)))
      with (with_session Db.new_session (snd (getrandom 16 w))).
    rewrite persist_db_up; [reflexivity|].
    intros [u | c | a] w0; reflexivity.
  - now rewrite hash_password_unencodable.
Qed.

Lemma create_category_db_up (name : str) (w : World) :
  db_up (snd (graphql (create_category name) w)) = db_up w.
Proof.
  rewrite graphql_run. unfold create_category.
  rewrite persist_db_up; [reflexivity|].
  intros [u | c | a] w0; reflexivity.
Qed.

Lemma create_article_db_up (title content : str) (cid : Z) (w : World) :
  db_up (snd (graphql (create_article repr embed title content cid) w))
  = db_up w.
Proof.
  rewrite graphql_run. unfold create_article.
  rewrite persist_db_up; [reflexivity|].
  intros [u | c | a] w0; reflexivity.
Qed.

(** Each mutation either returns the row it stored, which is then the
    last row of its table and the only change to the three tables, or
    raises and leaves all three tables as they were. *)
Theorem mutation_all_or_nothing (w : World) :
  (forall username password,
      let r := graphql (register_user raw username password) w in
      (exists u,
          fst r = Return u /\
          tables (store (snd r))
          = (Db.users (store w) ++ [u], Db.categories (store w),
             Db.articles (store w))) \/
      (exists e,
          fst r = Raise e /\ tables (store (snd r)) = tables (store w))) /\
  (forall name,
      let r := graphql (create_category name) w in
      (exists c,
          fst r = Return c /\
          tables (store (snd r))
          = (Db.users (store w), Db.categories (store w) ++ [c],
             Db.articles (store w))) \/
      (exists e,
          fst r = Raise e /\ tables (store (snd r)) = tables (store w))) /\
  (forall title content cid,
      let r := graphql (create_article repr embed title content cid) w in
      (exists a,
          fst r = Return a /\
          tables (store (snd r))
          = (Db.users (store w), Db.categories (store w),
             Db.articles (store w) ++ [a])) \/
      (exists e,
          fst r = Raise e /\ tables (store (snd r)) = tables (store w))).
Proof.
  split; [|split].
  - intros username password r. subst r.
    destruct (register_user_run raw username password w)
      as (w' & Hrun & Hcat & Hart & Husers).
    rewrite Hrun. cbn [fst snd]. unfold tables.
    rewrite Hcat, Hart, Husers.
    destruct (utf8_encode password) as [k|]; [|right; eauto].
    destruct (db_up w); [|right; eauto].
    destruct (Db.user_typed _); [|right; eauto].
    destruct (user_refused (store w) username); [right; eauto|].
    left. eauto.
  - intros name r. subst r.
    destruct (create_category_run name w)
      as (w' & Hrun & Husers & Hart & Hcat).
    rewrite Hrun. cbn [fst snd]. unfold tables.
    rewrite Hcat, Hart, Husers.
    destruct (db_up w); [|right; eauto].
    destruct (Db.category_typed _); [|right; eauto].
    destruct (category_refused (store w) name); [right; eauto|].
    left. eauto.
  - intros title content cid r. subst r.
    destruct (create_article_run repr embed title content cid w)
      as (w' & Hrun & Husers & Hcat & Hart).
    rewrite Hrun. cbn [fst snd]. unfold tables.
    rewrite Hcat, Hart, Husers.
    destruct (db_up w); [|right; eauto].
    destruct (Db.article_typed _); [|right; eauto].
    destruct (article_refused (store w) cid); [right; eauto|].
    left. eauto.
Qed.

End Reach.

(** ** Categories: created, listed, refused *)


Lemma list_categories_run (w : World) :
  fst (graphql list_categories w)
  = if db_up w then Return (Db.categories (store w))
    else Raise ConnectionRefusedError.
Proof.
  rewrite graphql_run. unfold list_categories, execute_select.
  cbn [db_up with_session store forallb].
  destruct (db_up w); [now rewrite filter_all | reflexivity].
Qed.

Lemma list_articles_run (w : World) :
  fst (graphql list_articles w)
  = if db_up w then Return (Db.articles (store w))
    else Raise ConnectionRefusedError.
Proof.
  rewrite graphql_run. unfold list_articles, execute_select.
  cbn [db_up with_session store forallb].
  destruct (db_up w); [now rewrite filter_all | reflexivity].
Qed.



(** [create_category] with a name a stored category already carries
    does not succeed, the database being reachable: it raises what the
    store raised, changes no table, and [list_categories] returns what
    it returned before.  With the constraints in force and a value left
    in the category sequence, what it raises is the store's
    [IntegrityError]. *)
Theorem create_category_taken_name (w : World) (name : str) :
  db_up w = true ->
  (exists c, In c (Db.categories (store w)) /\ Category.name c = Some name) ->
  (exists e,
      fst (graphql (create_category name) w) = Raise e /\
      raised_by_module e = false /\
      (Db.wf (store w) ->
       Db.int32 (Db.categories_id_seq (store w)) = true ->
       e = IntegrityError)) /\
  tables (store (snd (graphql (create_category name) w)))
  = tables (store w) /\
  fst (graphql list_categories (snd (graphql (create_category name) w)))
  = Return (Db.categories (store w)).
Proof.
  intros Hup (c & Hc & Hname).
  assert (Href : category_refused (store w) name = true).
  { unfold category_refused. apply orb_true_iff. right.
    apply existsb_exists. exists c. split; [assumption|].
    now apply has_text_true. }
  pose proof (create_category_db_up name w) as Hup'.
  destruct (create_category_run name w) as (w' & Hrun & Husers & Hart & Hcat).
  rewrite Hrun in *. cbn [fst snd] in *.
  rewrite Hup, new_category_typed, Href in *.
  rewrite andb_false_r in Hcat. split; [|split].
  - destruct (Db.int32 _ && Db.text_ok name) eqn:Htyped.
    + exists IntegrityError. repeat split.
    + exists DBAPIError. repeat split. intros Hwf Hseq.
      rewrite Hseq in Htyped.
      rewrite stored_name with (s := store w) (c := c) in Htyped
        by assumption.
      discriminate.
  - unfold tables. now rewrite Husers, Hart, Hcat.
  - now rewrite list_categories_run, Hup', Hcat.
Qed.

Lemma create_category_taken_name_witness :
  fst (graphql (create_category (lit "news")) Sample.populated)
  = Raise IntegrityError /\
  tables (store (snd (graphql (create_category (lit "news"))
                        Sample.populated)))
  = tables (store Sample.populated) /\
  fst (graphql list_categories
         (snd (graphql (create_category (lit "news")) Sample.populated)))
  = Return (Db.categories (store Sample.populated)).
Proof.
  destruct (@create_category_taken_name Sample.populated (lit "news") eq_refl
              (ex_intro _ Sample.news (conj (or_introl eq_refl) eq_refl)))
    as ((e & He & _ & Hcls) & Htables & Hlist).
  rewrite (Hcls populated_wf eq_refl) in He.
  repeat split; assumption.
Defined.

(** ** Articles: created, then found *)

Section Found.

Variable pyfloat : Type.
Variable repr : pyfloat -> str.
Variable embed : str -> list pyfloat.

(** An article that [create_article] returned is what [get_article]
    returns for its id afterwards, and [list_articles] then returns the
    articles there were and this one, each once (the order of the answer
    is the store's); it carries the category id given and no search
    text. *)
Theorem create_article_then_get (w : World) (title content : str) (cid : Z)
  (a : Article.t) :
  Db.wf (store w) ->
  fst (graphql (create_article repr embed title content cid) w) = Return a ->
  exists i listed,
    Article.id a = Some i /\
    Article.category_id a = Some cid /\
    Article.search_text a = None /\
    fst (graphql (get_article i)
           (snd (graphql (create_article repr embed title content cid) w)))
    = Return (Some a) /\
    fst (graphql list_articles
           (snd (graphql (create_article repr embed title content cid) w)))
    = Return listed /\
    Permutation listed (a :: Db.articles (store w)).
Proof.
  intros Hwf Hret.
  pose proof (create_article_db_up repr embed title content cid w) as Hup'.
  destruct (create_article_run repr embed title content cid w)
    as (w' & Hrun & _ & _ & Hart).
  rewrite Hrun in *. cbn [fst snd] in *.
  destruct (db_up w); [|discriminate].
  destruct (Db.article_typed _) eqn:Ht; [|discriminate].
  destruct (article_refused (store w) cid); [discriminate|].
  injection Hret as <-. cbn [andb negb] in Hart.
  rewrite new_article_typed, !andb_true_iff in Ht.
  destruct Ht as [[[[Hseq _] _] _] _].
  exists (Db.articles_id_seq (store w)),
    (Db.articles (store w)
     ++ [new_article repr embed (store w) title content cid]).
  repeat split.
  - rewrite graphql_run, get_article_run.
    cbn [db_up with_session store]. rewrite Hup', Hseq, Hart, filter_app.
    rewrite filter_nil.
    + cbn. now rewrite Z.eqb_refl.
    + apply existsb_false.
      apply (keyed_below_fresh (Db.articles_keyed Hwf)).
  - now rewrite list_articles_run, Hup', Hart.
  - apply Permutation_sym, Permutation_cons_append.
Qed.


End Found.

Lemma create_article_then_get_witness :
  exists a i,
    fst (graphql (create_article Sample.repr Sample.embed (lit "T")
                    (lit "C") 1) Sample.populated) = Return a /\
    Article.id a = Some i /\
    fst (graphql (get_article i)
           (snd (graphql (create_article Sample.repr Sample.embed (lit "T")
                            (lit "C") 1) Sample.populated)))
    = Return (Some a).
Proof.
  eexists.
  destruct (@create_article_then_get _ Sample.repr Sample.embed
              Sample.populated (lit "T") (lit "C") 1 _ populated_wf eq_refl)
    as (i & listed & Hi & _ & _ & Hget & _).
  exists i. split; [reflexivity|]. split; assumption.
Defined.


(** ** The login route *)

Lemma getitem_missing (key : str) (form : list (str * str)) :
  (forall v, ~ In (key, v) form) -> getitem key form = Raise (KeyError key).
Proof.
  induction form as [|[k v] form IH]; cbn [getitem]; [reflexivity|].
  intros Hmiss. destruct (str_eqb k key) eqn:E.
  - apply str_eqb_eq in E. subst k. elim (Hmiss v). now left.
  - apply IH. intros v' Hv'. apply (Hmiss v'). now right.
Qed.

(** At most one stored user answers to a username. *)
Lemma filter_username_cases (s : Db.Store) (name : str) :
  Db.wf s ->
  filter (fun r => Db.has_text name (User.username r)) (Db.users s) = [] \/
  exists u,
    In u (Db.users s) /\ User.username u = Some name /\
    filter (fun r => Db.has_text name (User.username r)) (Db.users s) = [u].
Proof.
  intros Hwf.
  destruct (filter _ (Db.users s)) as [|u rest] eqn:E; [now left|].
  right. exists u.
  assert (Hu : In u (filter (fun r => Db.has_text name (User.username r))
                       (Db.users s))) by (rewrite E; now left).
  apply filter_In in Hu as [Hin Hname]. apply has_text_true in Hname.
  repeat split; try assumption.
  rewrite <- E.
  apply filter_unique_username;
    [apply (Db.usernames_distinct Hwf) | assumption | assumption].
Qed.

Section LoginRuns.

Variable raw : N -> bytes -> bytes -> bytes.
Variable jwt_encode : jwt.payload -> str -> str -> result str.

(** [verify_password] reads nothing of the world. *)
Lemma verify_password_pure (password hashed : str) (w w0 : World) :
  verify_password raw password hashed w
  = (fst (verify_password raw password hashed w0), w).
Proof.
  unfold verify_password, bind, lift.
  destruct (str_encode password); [|reflexivity].
  destruct (str_encode hashed); reflexivity.
Qed.

Lemma login_nobody (form : list (str * str)) (name : str) (w : World) :
  getitem (lit "username") form = Return name ->
  db_up w = true ->
  (forall u, In u (Db.users (store w)) -> User.username u <> Some name) ->
  login raw jwt_encode form w
  = (if Db.text_ok name
     then Raise (HTTPException 401 "Invalid credentials")
     else Raise DBAPIError,
     with_session Db.new_session w).
Proof.
  intros Hname Hup Hmiss.
  unfold login, get_db_session, bind, lift, execute_select.
  rewrite Hname. cbn [db_up with_session store forallb Db.sendable].
  rewrite Hup, andb_true_r. destruct (Db.text_ok name); [|reflexivity].
  rewrite filter_nil; [reflexivity|]. intros u Hu.
  destruct (Db.has_text name (User.username u)) eqn:E; [|reflexivity].
  apply has_text_true in E. now apply Hmiss in E.
Qed.

(** [login] once the user is found: the password is read from the body,
    verified, and a token is issued for the username. *)
Lemma login_somebody (form : list (str * str)) (name : str) (u : User.t)
  (w : World) :
  getitem (lit "username") form = Return name ->
  db_up w = true ->
  Db.wf (store w) ->
  In u (Db.users (store w)) ->
  User.username u = Some name ->
  login raw jwt_encode form w
  = (match getitem (lit "password") form with
     | Raise e => Raise e
     | Return password =>
         match
           match User.password_hash u with
           | Some hashed => fst (verify_password raw password hashed w)
           | None =>
               match str_encode password with
               | Return _ => Raise (AttributeError "encode")
               | Raise e => Raise e
               end
           end
         with
         | Raise e => Raise e
         | Return true =>
             match jwt_encode [(lit "sub", jwt.JStr name)]
                     SECRET_KEY ALGORITHM with
             | Return token =>
                 Return (VDict [(lit "access_token", VStr token);
                                (lit "token_type", VStr (lit "bearer"))])
             | Raise e => Raise e
             end
         | Return false => Raise (HTTPException 401 "Invalid credentials")
         end
     end, with_session Db.new_session w).
Proof.
  intros Hform Hup Hwf Hu Hname.
  unfold login, get_db_session, bind, lift, execute_select.
  rewrite Hform. cbn [db_up with_session store forallb Db.sendable].
  rewrite Hup, andb_true_r.
  rewrite stored_username with (s := store w) (u := u) by assumption.
  erewrite filter_unique_username;
    [| apply (Db.usernames_distinct Hwf) | eassumption | assumption].
  cbn [Db.scalar_one_or_none].
  destruct (getitem (lit "password") form) as [password|]; [|reflexivity].
  rewrite Hname.
  destruct (User.password_hash u) as [hashed|].
  - rewrite verify_password_pure with (w0 := w).
    destruct (fst (verify_password raw password hashed w)) as [[|]|];
      try reflexivity.
    unfold create_access_token, lift.
    destruct (jwt_encode _ _ _); reflexivity.
  - destruct (str_encode password); reflexivity.
Qed.

(** [POST /token] with a username no stored user carries answers 401
    ["Invalid credentials"] when the username is text the database
    accepts as a query argument, and 500 when it is not (U+0000, a lone
    surrogate); either way whatever else the body holds: the password
    entry is not even read. *)
Theorem login_unknown_user (form : list (str * str)) (name : str)
  (w : World) :
  getitem (lit "username") form = Return name ->
  db_up w = true ->
  (forall u, In u (Db.users (store w)) -> User.username u <> Some name) ->
  POST_token raw jwt_encode form w
  = (if Db.text_ok name
     then mkResponse 401
            (VDict [(lit "detail", VStr (lit "Invalid credentials"))])
     else mkResponse 500 (VStr (lit "Internal Server Error")),
     with_session Db.new_session w).
Proof.
  intros Hname Hup Hmiss. unfold POST_token, serve.
  rewrite login_nobody with (name := name) by assumption.
  now destruct (Db.text_ok name).
Qed.

(** [POST /token] answers 500, not 401 and not a validation error, when
    the body has no ["username"] entry; when it names a stored user and
    has no ["password"] entry; and when it names a stored user and the
    password holds a lone surrogate.  The handler indexes the dict and
    encodes the password without a guard. *)
Theorem login_malformed_body (form : list (str * str)) (w : World) :
  ((forall v, ~ In (lit "username", v) form) ->
   fst (POST_token raw jwt_encode form w)
   = mkResponse 500 (VStr (lit "Internal Server Error"))) /\
  (forall name u,
      getitem (lit "username") form = Return name ->
      db_up w = true ->
      Db.wf (store w) ->
      In u (Db.users (store w)) ->
      User.username u = Some name ->
      ((forall v, ~ In (lit "password", v) form) ->
       fst (POST_token raw jwt_encode form w)
       = mkResponse 500 (VStr (lit "Internal Server Error"))) /\
      (forall password,
          getitem (lit "password") form = Return password ->
          utf8_encode password = None ->
          fst (POST_token raw jwt_encode form w)
          = mkResponse 500 (VStr (lit "Internal Server Error")))).
Proof.
  split.
  - intros Hmiss. unfold POST_token, serve, login, get_db_session, bind, lift.
    now rewrite getitem_missing by exact Hmiss.
  - intros name u Hform Hup Hwf Hu Hname. unfold POST_token, serve.
    rewrite login_somebody with (name := name) (u := u) by assumption.
    split.
    + intros Hmiss. now rewrite getitem_missing by exact Hmiss.
    + intros password Hpw Henc. rewrite Hpw.
      unfold verify_password, bind, lift, str_encode. rewrite Henc.
      destruct (User.password_hash u); reflexivity.
Qed.

End LoginRuns.

Lemma login_unknown_user_witness :
  POST_token Sample.raw Sample.jwt_encode [(lit "username", lit "bob")]
    Sample.populated
  = (mkResponse 401 (VDict [(lit "detail", VStr (lit "Invalid credentials"))]),
     with_session Db.new_session Sample.populated) /\
  POST_token Sample.raw Sample.jwt_encode [(lit "username", Sample.nul)]
    Sample.populated
  = (mkResponse 500 (VStr (lit "Internal Server Error")),
     with_session Db.new_session Sample.populated).
Proof.
  split.
  - apply (@login_unknown_user Sample.raw Sample.jwt_encode
             [(lit "username", lit "bob")] (lit "bob") Sample.populated
             eq_refl eq_refl).
    intros u [<- | []]. discriminate.
  - apply (@login_unknown_user Sample.raw Sample.jwt_encode
             [(lit "username", Sample.nul)] Sample.nul Sample.populated
             eq_refl eq_refl).
    intros u [<- | []]. discriminate.
Defined.

Lemma login_malformed_body_witness :
  fst (POST_token Sample.raw Sample.jwt_encode
         [(lit "user", Sample.alice); (lit "password", Sample.secret)]
         Sample.populated)
  = mkResponse 500 (VStr (lit "Internal Server Error")) /\
  fst (POST_token Sample.raw Sample.jwt_encode
         [(lit "username", Sample.alice)] Sample.populated)
  = mkResponse 500 (VStr (lit "Internal Server Error")) /\
  fst (POST_token Sample.raw Sample.jwt_encode
         (credentials Sample.alice Sample.surrogate) Sample.populated)
  = mkResponse 500 (VStr (lit "Internal Server Error")).
Proof.
  split; [|split].
  - refine (proj1 (login_malformed_body Sample.raw Sample.jwt_encode
                     [(lit "user", Sample.alice);
                      (lit "password", Sample.secret)] Sample.populated) _).
    intros v [H | [H | []]]; discriminate H.
  - refine (proj1 (proj2 (login_malformed_body Sample.raw Sample.jwt_encode
                            [(lit "username", Sample.alice)]
                            Sample.populated)
                     Sample.alice Sample.alice_row eq_refl eq_refl
                     populated_wf (or_introl eq_refl) eq_refl) _).
    intros v [H | []]; discriminate H.
  - refine (proj2 (proj2 (login_malformed_body Sample.raw Sample.jwt_encode
                            (credentials Sample.alice Sample.surrogate)
                            Sample.populated)
                     Sample.alice Sample.alice_row eq_refl eq_refl
                     populated_wf (or_introl eq_refl) eq_refl)
              Sample.surrogate eq_refl eq_refl).
Defined.

(** ** Registering, then logging in *)

Lemma register_user_wf (raw : N -> bytes -> bytes -> bytes)
  (username password : str) (w : World) :
  Db.wf (store w) ->
  Db.wf (store (snd (graphql (register_user raw username password) w))).
Proof.
  intros Hwf. rewrite graphql_run.
  unfold register_user. unfold bind at 1.
  destruct (utf8_encode password) as [k|] eqn:Hk.
  - rewrite hash_password_encoded with (k := k)
      by (unfold str_encode; now rewrite Hk).
    change (snd (getrandom 16 (with_session Db.new_session w)))
      with (with_session Db.new_session (snd (getrandom 16 w))).
    apply persist_wf; [| reflexivity | assumption].
    intros [u | c | a] w0; reflexivity.
  - now rewrite hash_password_unencodable.
Qed.

(** A bearer token that decodes to the username of a stored user opens
    [/protected] for that user. *)
Lemma bearer_accepted
  (jwt_decode : Z -> str -> str -> list str -> result jwt.payload)
  (token name : str) (u : User.t) (w : World) :
  jwt_decode (clock w) token SECRET_KEY [ALGORITHM]
  = Return [(lit "sub", jwt.JStr name)] ->
  db_up w = true ->
  Db.wf (store w) ->
  In u (Db.users (store w)) ->
  User.username u = Some name ->
  fst (GET_protected jwt_decode (mkRequest (Some (lit "Bearer " ++ token))) w)
  = mkResponse 200
      (VDict [(lit "message", VStr (lit "You have access"));
              (lit "user", VUser u)]).
Proof.
  intros Hdec Hup Hwf Hu Hname.
  unfold GET_protected, serve, bind. rewrite oauth2_scheme_bearer.
  erewrite get_current_user_decoded; [| exact Hdec | reflexivity | exact Hup].
  rewrite stored_username with (s := store w) (u := u) by assumption.
  erewrite filter_unique_username;
    [| apply (Db.usernames_distinct Hwf) | eassumption | assumption].
  reflexivity.
Qed.

Section Journey.

Variable raw : N -> bytes -> bytes -> bytes.
Variable jwt_encode : jwt.payload -> str -> str -> result str.
Variable jwt_decode : Z -> str -> str -> list str -> result jwt.payload.

(** A user that [register_user] returned can log in: [POST /token] with
    the username and the password just registered answers 200 with a
    token, and [GET /protected] with that token answers 200 with the
    registered user. *)
Theorem registered_user_can_login (w : World) (username password : str)
  (u : User.t) :
  jwt_roundtrip_sub jwt_encode jwt_decode ->
  Db.wf (store w) ->
  fst (graphql (register_user raw username password) w) = Return u ->
  exists token,
    fst (POST_token raw jwt_encode (credentials username password)
           (snd (graphql (register_user raw username password) w)))
    = mkResponse 200
        (VDict [(lit "access_token", VStr token);
                (lit "token_type", VStr (lit "bearer"))]) /\
    fst (GET_protected jwt_decode
           (mkRequest (Some (lit "Bearer " ++ token)))
           (snd (POST_token raw jwt_encode (credentials username password)
                   (snd (graphql (register_user raw username password) w)))))
    = mkResponse 200
        (VDict [(lit "message", VStr (lit "You have access"));
                (lit "user", VUser u)]).
Proof.
  intros Hlaw Hwf Hret.
  pose proof (register_user_wf raw username password w Hwf) as Hwf1.
  pose proof (register_user_db_up raw username password w) as Hup1.
  destruct (register_user_run raw username password w)
    as (w1 & Hrun & _ & _ & Husers).
  rewrite Hrun in *. cbn [fst snd] in *.
  destruct (utf8_encode password) as [k|] eqn:Hk; [|discriminate].
  destruct (db_up w); [|discriminate].
  destruct (Db.user_typed _); [|discriminate].
  destruct (user_refused (store w) username); [discriminate|].
  injection Hret as <-. cbn [andb negb] in Husers.
  assert (Hin : In (new_user raw w username k) (Db.users (store w1)))
    by (rewrite Husers; apply in_or_app; right; now left).
  assert (Henc : str_encode password = Return k)
    by (unfold str_encode; now rewrite Hk).
  destruct (Hlaw (clock w1) username) as (token & Hissue & Hdec).
  exists token. unfold POST_token, serve, credentials.
  rewrite login_run
    with (w0 := w) (u := new_user raw w username k) (k := k) (k0 := k);
    try assumption; try reflexivity.
  rewrite bytes_eqb_refl, Hissue. cbn [fst snd respond].
  split; [reflexivity|].
  apply bearer_accepted with (name := username); try assumption.
  reflexivity.
Qed.

End Journey.

Lemma registered_user_can_login_witness :
  exists token,
    fst (POST_token Sample.raw Sample.jwt_encode
           (credentials Sample.alice Sample.secret)
           (snd (graphql (register_user Sample.raw Sample.alice Sample.secret)
                   Sample.fresh)))
    = mkResponse 200
        (VDict [(lit "access_token", VStr token);
                (lit "token_type", VStr (lit "bearer"))]) /\
    fst (GET_protected Sample.jwt_decode
           (mkRequest (Some (lit "Bearer " ++ token)))
           (snd (POST_token Sample.raw Sample.jwt_encode
                   (credentials Sample.alice Sample.secret)
                   (snd (graphql (register_user Sample.raw Sample.alice
                                    Sample.secret) Sample.fresh)))))
    = mkResponse 200
        (VDict [(lit "message", VStr (lit "You have access"));
                (lit "user", VUser Sample.alice_row)]).
Proof.
  apply (@registered_user_can_login Sample.raw Sample.jwt_encode
           Sample.jwt_decode Sample.fresh Sample.alice Sample.secret
           Sample.alice_row sample_jwt_roundtrip empty_wf).
  vm_compute. reflexivity.
Defined.

(** ** Authentication and queries never write *)

Lemma read_only_ret (A : Type) (a : A) : read_only (ret a).
Proof. intros w. reflexivity. Qed.

Lemma read_only_raise (A : Type) (e : exn) : read_only (raise (A := A) e).
Proof. intros w. reflexivity. Qed.

Lemma read_only_lift (A : Type) (r : result A) : read_only (lift r).
Proof. intros w. reflexivity. Qed.

Lemma read_only_bind (A B : Type) (c : M A) (k : A -> M B) :
  read_only c -> (forall a, read_only (k a)) -> read_only (bind c k).
Proof.
  intros Hc Hk w. unfold bind. specialize (Hc w).
  destruct (c w) as [[a|e] w']; cbn [snd] in *; [|assumption].
  now rewrite Hk.
Qed.

Lemma read_only_select (T : Type) (table : Db.Store -> list T)
  (params : list Db.Param) (p : T -> bool) :
  read_only (execute_select table params p).
Proof.
  intros w. unfold execute_select.
  destruct (db_up w), (forallb Db.sendable params); reflexivity.
Qed.

Lemma read_only_session (A : Type) (body : M A) :
  read_only body -> read_only (get_db_session body).
Proof.
  intros Hb w. unfold get_db_session.
  specialize (Hb (with_session Db.new_session w)).
  destruct (body (with_session Db.new_session w)) as [r w']. exact Hb.
Qed.

Lemma read_only_try (A : Type) (body handler : M A) :
  read_only body -> read_only handler ->
  read_only (try_except_PyJWTError body handler).
Proof.
  intros Hb Hh w. unfold try_except_PyJWTError. specialize (Hb w).
  destruct (body w) as [[a|e] w']; cbn [snd] in *; [assumption|].
  destruct e; try assumption. now rewrite Hh.
Qed.

Lemma read_only_verify (raw : N -> bytes -> bytes -> bytes)
  (password hashed : str) : read_only (verify_password raw password hashed).
Proof.
  intros w. now rewrite verify_password_pure with (w0 := w).
Qed.

Lemma read_only_login (raw : N -> bytes -> bytes -> bytes)
  (jwt_encode : jwt.payload -> str -> str -> result str)
  (form : list (str * str)) : read_only (login raw jwt_encode form).
Proof.
  unfold login. apply read_only_session.
  apply read_only_bind; [apply read_only_lift|]. intros name.
  apply read_only_bind; [apply read_only_select|]. intros result.
  apply read_only_bind; [apply read_only_lift|]. intros [u|];
    [|apply read_only_raise].
  apply read_only_bind; [apply read_only_lift|]. intros password.
  apply read_only_bind.
  - destruct (User.password_hash u); [apply read_only_verify|].
    apply read_only_bind; [apply read_only_lift|]. intros _.
    apply read_only_raise.
  - intros [|]; [|apply read_only_raise].
    apply read_only_bind; [apply read_only_lift|]. intros token.
    apply read_only_ret.
Qed.

Lemma read_only_current_user
  (jwt_decode : Z -> str -> str -> list str -> result jwt.payload)
  (token : str) : read_only (get_current_user jwt_decode token).
Proof.
  unfold get_current_user.
  apply read_only_try; [|apply read_only_raise].
  apply read_only_bind; [intros w; reflexivity|]. intros payload.
  apply read_only_session.
  apply read_only_bind.
  - unfold select_user_by.
    destruct (jwt.get (lit "sub") payload) as [[]|];
      try apply read_only_select;
      intros w; destruct (db_up w); reflexivity.
  - intros result.
    apply read_only_bind; [apply read_only_lift|]. intros [u|];
      [apply read_only_ret | apply read_only_raise].
Qed.

Lemma read_only_graphql (A : Type) (resolver : M A) :
  read_only resolver -> read_only (graphql resolver).
Proof.
  intros H w. rewrite graphql_run.
  exact (H (with_session Db.new_session w)).
Qed.

Lemma serve_world (handler : M value) (w : World) :
  snd (serve handler w) = snd (handler w).
Proof. unfold serve. now destruct (handler w). Qed.

(** The two plain routes that authenticate and the three queries leave
    every table and every sequence as they found them, whatever they
    answer. *)
Theorem authentication_and_queries_never_write
  (raw : N -> bytes -> bytes -> bytes)
  (jwt_encode : jwt.payload -> str -> str -> result str)
  (jwt_decode : Z -> str -> str -> list str -> result jwt.payload)
  (w : World) :
  (forall form, store (snd (POST_token raw jwt_encode form w)) = store w) /\
  (forall request,
      store (snd (GET_protected jwt_decode request w)) = store w) /\
  (forall id, store (snd (graphql (get_article id) w)) = store w) /\
  store (snd (graphql list_articles w)) = store w /\
  store (snd (graphql list_categories w)) = store w.
Proof.
  split; [|split; [|split; [|split]]].
  - intros form. unfold POST_token. rewrite serve_world.
    apply read_only_login.
  - intros request. unfold GET_protected. rewrite serve_world.
    assert (H : read_only (token <- oauth2_scheme request ;;
                           user <- get_current_user jwt_decode token ;;
                           protected_route user)).
    { apply read_only_bind.
      - intros w0. unfold oauth2_scheme.
        destruct (authorization request) as [header|]; [|reflexivity].
        destruct (partition 32 header). destruct (_ && _)%bool; reflexivity.
      - intros token.
        apply read_only_bind; [apply read_only_current_user|].
        intros user. apply read_only_ret. }
    apply H.
  - intros id. apply read_only_graphql. unfold get_article.
    apply read_only_bind;
      [apply read_only_select | intros r; apply read_only_lift].
  - apply read_only_graphql, read_only_select.
  - apply read_only_graphql, read_only_select.
Qed.

(** ** Tokens that name nobody, and a database out of reach *)

Section Refusals.

Variable raw : N -> bytes -> bytes -> bytes.
Variable jwt_encode : jwt.payload -> str -> str -> result str.
Variable jwt_decode : Z -> str -> str -> list str -> result jwt.payload.

(** A bearer token that decodes to a payload without a ["sub"] entry is
    answered 401 ["User not found"]: [payload.get("sub")] is [None], the
    query asks for the users whose username is NULL, and there are none
    when every stored user has a username. *)
Theorem token_without_subject (request : Request) (token : str)
  (payload : jwt.payload) (w : World) :
  oauth2_scheme request w = (Return token, w) ->
  jwt_decode (clock w) token SECRET_KEY [ALGORITHM] = Return payload ->
  jwt.get (lit "sub") payload = None ->
  db_up w = true ->
  (forall u, In u (Db.users (store w)) -> User.username u <> None) ->
  get_current_user jwt_decode token w
  = (Raise (HTTPException 401 "User not found"),
     with_session Db.new_session w) /\
  fst (GET_protected jwt_decode request w)
  = mkResponse 401 (VDict [(lit "detail", VStr (lit "User not found"))]).
Proof.
  intros Hbearer Hdec Hsub Hup Hnamed.
  assert (Hrun : get_current_user jwt_decode token w
                 = (Raise (HTTPException 401 "User not found"),
                    with_session Db.new_session w)).
  { unfold get_current_user, try_except_PyJWTError, bind.
    rewrite Hdec, Hsub.
    unfold get_db_session, select_user_by, execute_select, lift, bind.
    cbn [db_up with_session store]. rewrite Hup.
    rewrite filter_nil; [reflexivity|]. intros u Hu.
    specialize (Hnamed u Hu). now destruct (User.username u). }
  split; [exact Hrun|].
  unfold GET_protected, serve, bind. now rewrite Hbearer, Hrun.
Qed.

(** With the database out of reach, [POST /token] (once the body names a
    user) and [GET /protected] (once the token decodes) answer 500, not
    401; the three queries raise what the store raised, which is no
    exception of the module's making. *)
Theorem database_down_faults (w : World) :
  db_up w = false ->
  (forall form name,
      getitem (lit "username") form = Return name ->
      fst (POST_token raw jwt_encode form w)
      = mkResponse 500 (VStr (lit "Internal Server Error"))) /\
  (forall request token payload,
      oauth2_scheme request w = (Return token, w) ->
      jwt_decode (clock w) token SECRET_KEY [ALGORITHM] = Return payload ->
      fst (GET_protected jwt_decode request w)
      = mkResponse 500 (VStr (lit "Internal Server Error"))) /\
  (exists e,
      fst (graphql list_articles w) = Raise e /\
      fst (graphql list_categories w) = Raise e /\
      (forall id, fst (graphql (get_article id) w) = Raise e) /\
      raised_by_module e = false).
Proof.
  intros Hdown. split; [|split].
  - intros form name Hname.
    unfold POST_token, serve, login, get_db_session, bind, lift,
      execute_select.
    rewrite Hname. cbn [db_up with_session]. now rewrite Hdown.
  - intros request token payload Hbearer Hdec.
    unfold GET_protected, serve, bind. rewrite Hbearer.
    unfold get_current_user, try_except_PyJWTError, bind. rewrite Hdec.
    unfold get_db_session, select_user_by, execute_select, lift, bind.
    destruct (jwt.get (lit "sub") payload) as [[]|];
      cbn [db_up with_session]; now rewrite Hdown.
  - exists ConnectionRefusedError.
    rewrite list_articles_run, list_categories_run, Hdown.
    repeat split. intros id. rewrite graphql_run, get_article_run.
    cbn [db_up with_session]. now rewrite Hdown.
Qed.

End Refusals.

Lemma token_without_subject_witness :
  get_current_user Fixture.decode_empty (lit "t") Sample.populated
  = (Raise (HTTPException 401 "User not found"),
     with_session Db.new_session Sample.populated) /\
  fst (GET_protected Fixture.decode_empty
         (mkRequest (Some (lit "Bearer t"))) Sample.populated)
  = mkResponse 401 (VDict [(lit "detail", VStr (lit "User not found"))]).
Proof.
  apply token_without_subject with (payload := []); try reflexivity.
  intros u [<- | []]. discriminate.
Defined.

Lemma database_down_faults_witness :
  fst (POST_token Sample.raw Sample.jwt_encode
         (credentials Sample.alice Sample.secret) Sample.unreachable)
  = mkResponse 500 (VStr (lit "Internal Server Error")) /\
  fst (GET_protected Sample.jwt_decode
         (mkRequest (Some (lit "Bearer your_secret_key.s.alice")))
         Sample.unreachable)
  = mkResponse 500 (VStr (lit "Internal Server Error")).
Proof.
  pose proof (@database_down_faults Sample.raw Sample.jwt_encode
                Sample.jwt_decode Sample.unreachable eq_refl)
    as (Hlogin & Hprotected & _).
  split.
  - apply Hlogin with (name := Sample.alice). reflexivity.
  - apply Hprotected
      with (token := lit "your_secret_key.s.alice")
           (payload := [(lit "sub", jwt.JStr Sample.alice)]);
      reflexivity.
Defined.

(** ** The hash [hash_password] builds *)

Lemma map_to_N_inj (a b : bytes) :
  map Byte.to_N a = map Byte.to_N b -> a = b.
Proof.
  revert b. induction a as [|x a IH]; intros [|y b]; cbn;
    try discriminate; [reflexivity|].
  intros [= Hxy Hab]. f_equal; [|now apply IH].
  now rewrite <- (byte_of_to_N x), <- (byte_of_to_N y), Hxy.
Qed.

Lemma gensalt_length (octets : bytes) :
  List.length octets = 16%nat ->
  List.length (bcrypt.gensalt octets) = 29%nat.
Proof.
  intros H. unfold bcrypt.gensalt. rewrite length_app, (b64_encode_16 _ H).
  reflexivity.
Qed.

Lemma built_hash_gensalt (raw : N -> bytes -> bytes -> bytes) (w : World)
  (k : bytes) :
  firstn 29 (built_hash raw w k) = bcrypt.gensalt (drawn_salt w).
Proof.
  unfold built_hash.
  change (bcrypt.format_hash bcrypt.TwoB 12 (drawn_salt w) ?dg)
    with (bcrypt.gensalt (drawn_salt w) ++ bcrypt.b64_encode dg).
  rewrite <- (gensalt_length (drawn_salt w) (drawn_salt_length w)) at 1.
  rewrite firstn_app, Nat.sub_diag, firstn_all. cbn [firstn].
  apply app_nil_r.
Qed.

(** The hash that [hash_password] returns starts with the salt text that
    [gensalt] built from the 16 octets drawn (so the same password hashed
    under another salt gives another hash); those octets are used up, and
    the database is not touched. *)
Theorem hash_password_is_salted (raw : N -> bytes -> bytes -> bytes)
  (p1 p2 : str) (w1 w2 : World) (h1 h2 : str) :
  fst (hash_password raw p1 w1) = Return h1 ->
  fst (hash_password raw p2 w2) = Return h2 ->
  firstn 29 h1 = map Byte.to_N (bcrypt.gensalt (drawn_salt w1)) /\
  (drawn_salt w1 <> drawn_salt w2 -> h1 <> h2) /\
  entropy_pos (snd (hash_password raw p1 w1)) = (entropy_pos w1 + 16)%nat /\
  store (snd (hash_password raw p1 w1)) = store w1.
Proof.
  intros H1 H2.
  destruct (utf8_encode p1) as [k1|] eqn:E1;
    [|rewrite hash_password_unencodable in H1 by assumption; discriminate].
  destruct (utf8_encode p2) as [k2|] eqn:E2;
    [|rewrite hash_password_unencodable in H2 by assumption; discriminate].
  rewrite hash_password_encoded with (k := k1) in *
    by (unfold str_encode; now rewrite E1).
  rewrite hash_password_encoded with (k := k2) in H2
    by (unfold str_encode; now rewrite E2).
  assert (Hpre : forall w k,
             firstn 29 (map Byte.to_N (built_hash raw w k))
             = map Byte.to_N (bcrypt.gensalt (drawn_salt w))).
  { intros w k. now rewrite firstn_map, built_hash_gensalt. }
  assert (Eh1 : h1 = map Byte.to_N (built_hash raw w1 k1))
    by (cbn [fst] in H1; congruence).
  assert (Eh2 : h2 = map Byte.to_N (built_hash raw w2 k2))
    by (cbn [fst] in H2; congruence).
  clear H1 H2. subst h1 h2.
  split; [apply Hpre|]. split; [|split; reflexivity].
  intros Hsalt E. apply Hsalt.
  apply (f_equal (firstn 29)) in E. rewrite !Hpre in E.
  apply map_to_N_inj in E. unfold bcrypt.gensalt in E.
  apply app_inv_head in E. now apply b64_encode_inj.
Qed.

Lemma hash_password_is_salted_witness :
  exists h1 h2,
    fst (hash_password Sample.raw Sample.secret Sample.fresh) = Return h1 /\
    fst (hash_password Sample.raw Sample.secret Sample.populated)
    = Return h2 /\
    h1 <> h2.
Proof.
  eexists. eexists.
  split; [vm_compute; reflexivity|]. split; [vm_compute; reflexivity|].
  refine (proj1 (proj2 (@hash_password_is_salted Sample.raw Sample.secret
                          Sample.secret Sample.fresh Sample.populated
                          _ _ eq_refl eq_refl)) _).
  vm_compute. discriminate.
Defined.

(** ** Users the API stored can always be asked for their password *)

Section ApiUsers.

Variable raw : N -> bytes -> bytes -> bytes.
Variable pyfloat : Type.
Variable repr : pyfloat -> str.
Variable embed : str -> list pyfloat.

Lemma new_user_api (w : World) (username : str) (k : bytes) :
  api_user (new_user raw w username k).
Proof.
  exists username, (drawn_salt w),
    (bcrypt.digest raw 12 (drawn_salt w) (firstn 72 k)).
  split; [reflexivity|]. split; [reflexivity|].
  split; [apply drawn_salt_length | reflexivity].
Qed.

(** Every user row in an empty database, and every user row after a
    mutation if every one before it, holds a username, the role
    ["user"] and a password hash in bcrypt's format ([$2b$12$], 22 salt
    characters, digest). *)
Theorem stored_users_are_api_users (w : World) :
  Forall api_user (Db.users Db.empty) /\
  (Forall api_user (Db.users (store w)) ->
   (forall username password,
       Forall api_user
         (Db.users (store (snd (graphql (register_user raw username password)
                                  w))))) /\
   (forall name,
       Forall api_user
         (Db.users (store (snd (graphql (create_category name) w))))) /\
   (forall title content cid,
       Forall api_user
         (Db.users (store (snd (graphql (create_article repr embed title
                                           content cid) w)))))).
Proof.
  split; [constructor|]. intros Hall. split; [|split].
  - intros username password.
    destruct (register_user_run raw username password w)
      as (w' & Hrun & _ & _ & Husers).
    rewrite Hrun. cbn [snd]. rewrite Husers.
    destruct (utf8_encode password) as [k|]; [|assumption].
    destruct (_ && _)%bool; [|assumption].
    apply Forall_app. split; [assumption|].
    constructor; [apply new_user_api | constructor].
  - intros name.
    destruct (create_category_run name w) as (w' & Hrun & Husers & _).
    rewrite Hrun. cbn [snd]. now rewrite Husers.
  - intros title content cid.
    destruct (create_article_run repr embed title content cid w)
      as (w' & Hrun & Husers & _).
    rewrite Hrun. cbn [snd]. now rewrite Husers.
Qed.

(** Verifying an encodable password against the hash of such a user
    returns a boolean. *)
Lemma verify_api_user (u : User.t) (password : str) (w : World) :
  api_user u ->
  utf8_encode password <> None ->
  exists hashed b,
    User.password_hash u = Some hashed /\
    fst (verify_password raw password hashed w) = Return b.
Proof.
  intros (name & salt & dg & _ & Hhash & Hlen & _) Henc.
  destruct (utf8_encode password) as [k|] eqn:Hk; [|now elim Henc].
  eexists. eexists. split; [exact Hhash|].
  erewrite verify_password_encoded;
    [| unfold str_encode; rewrite Hk; reflexivity
     | apply str_encode_ascii, format_hash_ascii; lia].
  rewrite format_hash_preamble, checkpw_preamble;
    [reflexivity | assumption | lia | apply b64_encode_plain].
Qed.

End ApiUsers.

Section LoginAnswers.

Variable raw : N -> bytes -> bytes -> bytes.
Variable jwt_encode : jwt.payload -> str -> str -> result str.

(** With the database reachable, its constraints in force and every
    stored user one the API stored, [POST /token] with a username that is
    text the database accepts as a query argument, an encodable password
    and a token library that signs a subject answers 200 with a token or
    401 ["Invalid credentials"], and nothing else. *)
Theorem login_answers_200_or_401 (w : World) (form : list (str * str))
  (name password : str) :
  (forall subject, exists token,
      jwt_encode [(lit "sub", jwt.JStr subject)] SECRET_KEY ALGORITHM
      = Return token) ->
  db_up w = true ->
  Db.wf (store w) ->
  Forall api_user (Db.users (store w)) ->
  getitem (lit "username") form = Return name ->
  Db.text_ok name = true ->
  getitem (lit "password") form = Return password ->
  utf8_encode password <> None ->
  (exists token,
      fst (POST_token raw jwt_encode form w)
      = mkResponse 200
          (VDict [(lit "access_token", VStr token);
                  (lit "token_type", VStr (lit "bearer"))])) \/
  fst (POST_token raw jwt_encode form w)
  = mkResponse 401 (VDict [(lit "detail", VStr (lit "Invalid credentials"))]).
Proof.
  intros Hsign Hup Hwf Hall Hname Hok Hpw Henc. unfold POST_token, serve.
  destruct (filter_username_cases name Hwf) as [Hnone | (u & Hu & Hun & _)].
  - right. rewrite login_nobody with (name := name); try assumption.
    + now rewrite Hok.
    + intros u Hu Hun.
      assert (Hin : In u (filter (fun r => Db.has_text name (User.username r))
                            (Db.users (store w)))).
      { apply filter_In. split; [assumption | now apply has_text_true]. }
      now rewrite Hnone in Hin.
  - rewrite login_somebody with (name := name) (u := u) by assumption.
    rewrite Hpw.
    destruct (@verify_api_user raw u password w
                (proj1 (Forall_forall _ _) Hall u Hu) Henc)
      as (hashed & b & -> & ->).
    destruct b; [|now right].
    destruct (Hsign name) as (token & ->). left. now exists token.
Qed.

End LoginAnswers.

Lemma populated_api_users :
  Forall api_user (Db.users (store Sample.populated)).
Proof.
  constructor; [|constructor].
  exists Sample.alice, (drawn_salt Sample.fresh),
    (bcrypt.digest Sample.raw 12 (drawn_salt Sample.fresh)
       (firstn 72 (blit "correct horse"))).
  repeat split.
Qed.

Lemma stored_users_are_api_users_witness :
  Forall api_user
    (Db.users (store (snd (graphql (register_user Sample.raw (lit "bob")
                                      (lit "hunter2")) Sample.populated)))).
Proof.
  apply (proj2 (@stored_users_are_api_users Sample.raw _ Sample.repr
                  Sample.embed Sample.populated) populated_api_users).
Defined.

Lemma login_answers_200_or_401_witness :
  (exists token,
      fst (POST_token Sample.raw Sample.jwt_encode
             (credentials Sample.alice (lit "guess")) Sample.populated)
      = mkResponse 200
          (VDict [(lit "access_token", VStr token);
                  (lit "token_type", VStr (lit "bearer"))])) \/
  fst (POST_token Sample.raw Sample.jwt_encode
         (credentials Sample.alice (lit "guess")) Sample.populated)
  = mkResponse 401 (VDict [(lit "detail", VStr (lit "Invalid credentials"))]).
Proof.
  apply login_answers_200_or_401
    with (name := Sample.alice) (password := lit "guess");
    try reflexivity.
  - intros subject. eexists. reflexivity.
  - apply populated_wf.
  - apply populated_api_users.
  - discriminate.
Defined.
